(** * ga_api: daily batching, pagination and type coercion of
      Google Analytics Core Reporting queries

    A shallow embedding of [src/ga_api.py] (class [GoogleAnalytics]) and the
    properties of its page fetcher, pagination plan, daily batch assembly,
    date range driver and type coercion.

    The Python object is a record, its methods are functions in a state and
    exception monad over the object and the outside world (the calls issued
    to the reporting service, the lines printed, the files written).  The
    reporting service itself is a parameter. *)

From Stdlib Require Import ZArith List String Ascii Bool Lia Arith.
From Stdlib Require Import Floats.SpecFloat.
Import ListNotations.

Open Scope Z_scope.

(** ** Python values shared by all components *)

(** The exceptions the code can raise, by class, with their message. *)
Inductive Exn : Type :=
| ValueError (msg : string)
| TypeError (msg : string)
| AttributeError (msg : string)
| IndexError (msg : string)
| OverflowError (msg : string)
| ZeroDivisionError (msg : string)
| HttpError (msg : string).

Inductive Result (A : Type) : Type :=
| OK (a : A)
| Raise (e : Exn).
Arguments OK {A} a.
Arguments Raise {A} e.

Definition is_ok {A} (r : Result A) : bool :=
  match r with OK _ => true | Raise _ => false end.

(** The value of a decimal digit character. *)
Definition digit (c : ascii) : option Z :=
  let n := Z.of_nat (nat_of_ascii c) in
  if (48 <=? n) && (n <=? 57) then Some (n - 48) else None.

(** ** [datetime]: the proleptic Gregorian calendar

    [batch_get] relies on [datetime.strptime], [timedelta] arithmetic and
    [strftime].  The definitions follow the pure-Python reference
    implementation of the [datetime] module ([_ymd2ord], [_ord2ymd]). *)
Module Calendar.

Record datetime : Type := mkdate { year : Z; month : Z; day : Z }.

Definition MINYEAR : Z := 1.
Definition MAXYEAR : Z := 9999.
Definition MAXORDINAL : Z := 3652059.

Definition is_leap (y : Z) : bool :=
  (y mod 4 =? 0) && (negb (y mod 100 =? 0) || (y mod 400 =? 0)).

Definition DAYS_IN_MONTH (m : Z) : Z :=
  match m with
  | 1 => 31 | 2 => 28 | 3 => 31 | 4 => 30 | 5 => 31 | 6 => 30
  | 7 => 31 | 8 => 31 | 9 => 30 | 10 => 31 | 11 => 30 | 12 => 31
  | _ => 0
  end.

Definition DAYS_BEFORE_MONTH (m : Z) : Z :=
  match m with
  | 1 => 0 | 2 => 31 | 3 => 59 | 4 => 90 | 5 => 120 | 6 => 151
  | 7 => 181 | 8 => 212 | 9 => 243 | 10 => 273 | 11 => 304 | 12 => 334
  | _ => 0
  end.

Definition days_in_month (y m : Z) : Z :=
  if (m =? 2) && is_leap y then 29 else DAYS_IN_MONTH m.

Definition days_before_month (y m : Z) : Z :=
  DAYS_BEFORE_MONTH m + (if (2 <? m) && is_leap y then 1 else 0).

Definition days_before_year (y : Z) : Z :=
  let y := y - 1 in y * 365 + y / 4 - y / 100 + y / 400.

Definition ymd2ord (y m d : Z) : Z :=
  days_before_year y + days_before_month y m + d.

Definition DI400Y : Z := 146097.
Definition DI100Y : Z := 36524.
Definition DI4Y : Z := 1461.

(** The tail of [_ord2ymd]: month and day from the 0-based day of the
    year, by the estimate [(n + 50) >> 5] corrected downwards. *)
Definition month_day (leapyear : bool) (n : Z) : Z * Z :=
  let m := Z.shiftr (n + 50) 5 in
  let preceding :=
    DAYS_BEFORE_MONTH m + (if (2 <? m) && leapyear then 1 else 0) in
  if n <? preceding then
    let m := m - 1 in
    let preceding :=
      preceding
      - (DAYS_IN_MONTH m + (if (m =? 2) && leapyear then 1 else 0)) in
    (m, n - preceding + 1)
  else (m, n - preceding + 1).

Definition ord2ymd (n : Z) : datetime :=
  let n := n - 1 in
  let n400 := n / DI400Y in
  let n := n mod DI400Y in
  let y := n400 * 400 + 1 in
  let n100 := n / DI100Y in
  let n := n mod DI100Y in
  let n4 := n / DI4Y in
  let n := n mod DI4Y in
  let n1 := n / 365 in
  let n := n mod 365 in
  let y := y + n100 * 100 + n4 * 4 + n1 in
  if (n1 =? 4) || (n100 =? 4) then mkdate (y - 1) 12 31
  else
    let leapyear := (n1 =? 3) && (negb (n4 =? 24) || (n100 =? 3)) in
    let (m, d) := month_day leapyear n in
    mkdate y m d.

(** A date the [datetime] constructor accepts. *)
Definition valid_date (t : datetime) : bool :=
  (MINYEAR <=? year t) && (year t <=? MAXYEAR)
  && (1 <=? month t) && (month t <=? 12)
  && (1 <=? day t) && (day t <=? days_in_month (year t) (month t)).

Definition toordinal (t : datetime) : Z := ymd2ord (year t) (month t) (day t).

(** [end - start], of which the code reads only [.days]. *)
Definition delta_days (e s : datetime) : Z := toordinal e - toordinal s.

(** [t + timedelta(i)]. *)
Definition add_days (t : datetime) (i : Z) : Result datetime :=
  let n := toordinal t + i in
  if (1 <=? n) && (n <=? MAXORDINAL) then OK (ord2ymd n)
  else Raise (OverflowError "date value out of range").

(** The day after [t] by the calendar's rules, used to state what the
    ordinal arithmetic achieves. *)
Definition next_day (t : datetime) : datetime :=
  if day t <? days_in_month (year t) (month t)
  then mkdate (year t) (month t) (day t + 1)
  else if month t <? 12 then mkdate (year t) (month t + 1) 1
       else mkdate (year t + 1) 1 1.

Fixpoint days_from (t : datetime) (n : nat) : list datetime :=
  match n with
  | O => []
  | S n' => t :: days_from (next_day t) n'
  end.

(** Used to check [month_day] on every day of a year. *)
Definition month_day_check (lp : bool) (m d : Z) : bool :=
  let n := DAYS_BEFORE_MONTH m + (if (2 <? m) && lp then 1 else 0) + d - 1 in
  let '(m', d') := month_day lp n in (m' =? m) && (d' =? d).

Definition zrange (lo : Z) (n : nat) : list Z :=
  map (fun k => lo + Z.of_nat k) (seq 0 n).

(** *** [strptime(s, '%Y-%m-%d')] and [strftime('%Y-%m-%d')]

    The format is compiled by [_strptime] to the pattern
    [(\d\d\d\d)-(1[0-2]|0[1-9]|[1-9])-(3[01]|[12]\d|0[1-9]|[1-9]| [1-9])],
    matched at the start of the text; text left over is an error. *)

Definition digit_in (lo hi : Z) (c : ascii) : option Z :=
  match digit c with
  | Some d => if (lo <=? d) && (d <=? hi) then Some d else None
  | None => None
  end.

Definition orelse {A} (x y : option A) : option A :=
  match x with Some _ => x | None => y end.

Definition re_Y (s : list ascii) : option (Z * list ascii) :=
  match s with
  | a :: b :: c :: d :: rest =>
      match digit a, digit b, digit c, digit d with
      | Some a, Some b, Some c, Some d =>
          Some (1000 * a + 100 * b + 10 * c + d, rest)
      | _, _, _, _ => None
      end
  | _ => None
  end.

(** Two characters [c1 c2] with [c1] the given tens digit. *)
Definition re_two (tens : Z) (lo hi : Z) (s : list ascii)
  : option (Z * list ascii) :=
  match s with
  | a :: b :: rest =>
      match digit_in tens tens a, digit_in lo hi b with
      | Some t, Some u => Some (10 * t + u, rest)
      | _, _ => None
      end
  | _ => None
  end.

Definition re_one (lo hi : Z) (s : list ascii) : option (Z * list ascii) :=
  match s with
  | a :: rest =>
      match digit_in lo hi a with
      | Some u => Some (u, rest)
      | None => None
      end
  | _ => None
  end.

Definition re_space_one (s : list ascii) : option (Z * list ascii) :=
  match s with
  | a :: rest => if Ascii.eqb a " " then re_one 1 9 rest else None
  | _ => None
  end.

Definition re_m (s : list ascii) : option (Z * list ascii) :=
  orelse (re_two 1 0 2 s) (orelse (re_two 0 1 9 s) (re_one 1 9 s)).

Definition re_d (s : list ascii) : option (Z * list ascii) :=
  orelse (re_two 3 0 1 s)
    (orelse (re_two 1 0 9 s)
       (orelse (re_two 2 0 9 s)
          (orelse (re_two 0 1 9 s)
             (orelse (re_one 1 9 s) (re_space_one s))))).

Definition re_dash (s : list ascii) : option (list ascii) :=
  match s with
  | a :: rest => if Ascii.eqb a "-" then Some rest else None
  | _ => None
  end.

Definition format_error : Exn :=
  ValueError "time data does not match format '%Y-%m-%d'".

(** [None] is Python's [None]: [request.get] of a missing key. *)
Definition strptime (text : option string) : Result datetime :=
  match text with
  | None => Raise (TypeError "strptime() argument 1 must be str, not None")
  | Some text =>
      match re_Y (list_ascii_of_string text) with
      | None => Raise format_error
      | Some (y, s1) =>
      match re_dash s1 with
      | None => Raise format_error
      | Some s2 =>
      match re_m s2 with
      | None => Raise format_error
      | Some (m, s3) =>
      match re_dash s3 with
      | None => Raise format_error
      | Some s4 =>
      match re_d s4 with
      | None => Raise format_error
      | Some (d, s5) =>
          match s5 with
          | _ :: _ => Raise (ValueError "unconverted data remains")
          | [] =>
              if valid_date (mkdate y m d) then OK (mkdate y m d)
              else Raise (ValueError "day is out of range for month")
          end
      end end end end end
  end.

Definition digit_char (d : Z) : ascii := ascii_of_nat (Z.to_nat (48 + d)).

Definition pad2 (n : Z) : string :=
  String (digit_char (n / 10 mod 10)) (String (digit_char (n mod 10)) EmptyString).

Definition pad4 (n : Z) : string :=
  String (digit_char (n / 1000 mod 10))
    (String (digit_char (n / 100 mod 10)) (pad2 n)).

Definition strftime (t : datetime) : string :=
  (pad4 (year t) ++ "-" ++ pad2 (month t) ++ "-" ++ pad2 (day t))%string.

(** [range(n)] and the comprehension
    [[(start + timedelta(i)).strftime('%Y-%m-%d') for i in range(n)]]. *)
Definition range1 (n : Z) : list Z := map Z.of_nat (seq 0 (Z.to_nat n)).

Fixpoint format_days (start : datetime) (idx : list Z) : Result (list string) :=
  match idx with
  | [] => OK []
  | i :: idx' =>
      match add_days start i with
      | Raise e => Raise e
      | OK t =>
          match format_days start idx' with
          | Raise e => Raise e
          | OK l => OK (strftime t :: l)
          end
      end
  end.

End Calendar.


(** ** Python numbers: [int(str)], [float(str)] and float arithmetic

    A Python [float] is an IEEE 754 binary64 number, here a [spec_float]
    with 53 bits of precision; all operations round to nearest even. *)
Module PyNum.

Definition prec : Z := 53.
Definition emax : Z := 1024.
Definition float : Type := spec_float.

Definition nan : float := S754_nan.

Definition float_of_Z (z : Z) : float := binary_normalize prec emax z 0 false.

(** [float(n)] of an [int]. *)
Definition float_of_int (z : Z) : Result float :=
  match float_of_Z z with
  | S754_infinity _ => Raise (OverflowError "int too large to convert to float")
  | f => OK f
  end.

Definition is_zero (f : float) : bool :=
  match f with S754_zero _ => true | _ => false end.

(** [x / y] on floats. *)
Definition truediv (x y : float) : Result float :=
  if is_zero y then Raise (ZeroDivisionError "float division by zero")
  else OK (SFdiv prec emax x y).

Definition mul (x y : float) : float := SFmul prec emax x y.

(** [int(f)] of a finite float: truncation towards zero. *)
Definition trunc (f : float) : option Z :=
  match f with
  | S754_zero _ => Some 0
  | S754_finite s m e =>
      let a := match e with
               | Zneg k => Z.pos m / 2 ^ Z.pos k
               | _ => Z.pos m * 2 ^ e
               end in
      Some (if s then - a else a)
  | _ => None
  end.

Definition is_space (c : ascii) : bool :=
  let n := nat_of_ascii c in
  ((9 <=? n) && (n <=? 13) || (n =? 32))%nat.

Fixpoint lstrip (s : list ascii) : list ascii :=
  match s with
  | c :: r => if is_space c then lstrip r else s
  | [] => []
  end.

Definition strip (s : list ascii) : list ascii :=
  rev (lstrip (rev (lstrip s))).

Definition sign_of (s : list ascii) : bool * list ascii :=
  match s with
  | c :: r =>
      if Ascii.eqb c "-" then (true, r)
      else if Ascii.eqb c "+" then (false, r)
      else (false, s)
  | [] => (false, [])
  end.

Fixpoint digits_val (acc : Z) (s : list ascii) : option Z :=
  match s with
  | [] => Some acc
  | c :: r =>
      match digit c with
      | Some d => digits_val (10 * acc + d) r
      | None => None
      end
  end.

(** Digits grouped by single underscores, as [int] and [float] accept
    them since Python 3.6: the text without the underscores, when each
    underscore is followed by a digit. *)
Fixpoint ungroup (s : list ascii) : option (list ascii) :=
  match s with
  | [] => Some []
  | c :: r =>
      if Ascii.eqb c "_" then
        match r with
        | d :: _ =>
            match digit d with
            | Some _ => ungroup r
            | None => None
            end
        | [] => None
        end
      else
        match ungroup r with
        | Some ds => Some (c :: ds)
        | None => None
        end
  end.

(** The digits of a group, which does not start with an underscore; an
    empty group has no digits. *)
Definition group_digits (s : list ascii) : option (list ascii) :=
  match s with
  | [] => Some []
  | c :: _ => if Ascii.eqb c "_" then None else ungroup s
  end.

(** A non-empty run of decimal digits, with single underscores between
    digits, and nothing else. *)
Definition number (s : list ascii) : option Z :=
  match s with
  | [] => None
  | _ :: _ =>
      match group_digits s with
      | Some ds => digits_val 0 ds
      | None => None
      end
  end.

(** [int(s)] of a string: surrounding white space, a sign, decimal
    digits. *)
Definition parse_int (s : string) : option Z :=
  let (neg, r) := sign_of (strip (list_ascii_of_string s)) in
  match number r with
  | Some n => Some (if neg then - n else n)
  | None => None
  end.

(** The longest prefix of digits and underscores. *)
Fixpoint span_digits (s : list ascii) : list ascii * list ascii :=
  match s with
  | c :: r =>
      match digit c with
      | Some _ => let (ds, rest) := span_digits r in (c :: ds, rest)
      | None =>
          if Ascii.eqb c "_" then
            let (ds, rest) := span_digits r in (c :: ds, rest)
          else ([], s)
      end
  | [] => ([], [])
  end.

Definition lower (c : ascii) : ascii :=
  let n := nat_of_ascii c in
  if ((65 <=? n) && (n <=? 90))%nat then ascii_of_nat (n + 32) else c.

Definition is_word (w : string) (s : list ascii) : bool :=
  String.eqb (string_of_list_ascii (map lower s)) w.

(** The value [m * 10 ^ e10] rounded once to the nearest float. *)
Definition decimal_to_float (neg : bool) (m : Z) (e10 : Z) : float :=
  match m with
  | Zpos p =>
      if 0 <=? e10 then binary_round prec emax neg (p * Z.to_pos (10 ^ e10)) 0
      else
        let '(q, e, l) :=
          SFdiv_core_binary prec emax (Z.pos p) 0 (10 ^ (- e10)) 0 in
        binary_round_aux prec emax neg q e l
  | _ => S754_zero neg
  end.

(** The exponent part: nothing, or [e] with an optional sign and digits. *)
Definition exponent (s : list ascii) : option Z :=
  match s with
  | [] => Some 0
  | c :: r =>
      if Ascii.eqb (lower c) "e" then
        let (neg, ds) := sign_of r in
        match number ds with
        | Some n => Some (if neg then - n else n)
        | None => None
        end
      else None
  end.

(** [float(s)] of a string: surrounding white space, a sign, then
    [inf], [infinity], [nan], or a decimal literal with an optional
    fraction and exponent, its digits grouped by single underscores or
    not. *)
Definition parse_float (s : string) : option float :=
  let (neg, r) := sign_of (strip (list_ascii_of_string s)) in
  if is_word "inf" r || is_word "infinity" r then Some (S754_infinity neg)
  else if is_word "nan" r then Some S754_nan
  else
    let (ig, r1) := span_digits r in
    let (fg, r2) :=
      match r1 with
      | c :: r' => if Ascii.eqb c "." then span_digits r' else ([], r1)
      | [] => ([], r1)
      end in
    match group_digits ig, group_digits fg with
    | Some ip, Some fp =>
        match ip ++ fp with
        | [] => None
        | ds =>
            match digits_val 0 ds, exponent r2 with
            | Some m, Some e10 =>
                Some (decimal_to_float neg m (e10 - Z.of_nat (List.length fp)))
            | _, _ => None
            end
        end
    | _, _ => None
    end.

End PyNum.

(** ** [pandas]: the part of [DataFrame] the code uses

    A frame is its column labels and its rows.  Cells are Python objects:
    the strings the service returns, the numbers they are coerced to, and
    [None] or NaN where a row has no value. *)
Module Frame.

Import PyNum.

Inductive Value : Type :=
| VStr (s : string)
| VInt (n : Z)
| VFloat (f : float)
| VNone.

Definition NaN : Value := VFloat nan.

Record DataFrame : Type := mkframe {
  columns : list string;
  data : list (list Value)
}.

(** [pd.DataFrame()]. *)
Definition empty : DataFrame := mkframe [] [].

(** [df.index.values.size]. *)
Definition size (df : DataFrame) : Z := Z.of_nat (List.length (data df)).

Fixpoint pad (n : nat) (row : list Value) : list Value :=
  match n with
  | O => row
  | S n' =>
      match row with
      | [] => VNone :: pad n' []
      | v :: row' => v :: pad n' row'
      end
  end.

Definition widest (rows : list (list string)) : nat :=
  fold_right (fun r w => Nat.max (List.length r) w) O rows.

(** [pd.DataFrame(data=rows, columns=names)]: no data gives an empty
    frame with these columns; short rows are filled with [None]; the widest
    row must have as many cells as there are names. *)
Definition DataFrame_of (rows : option (list (list string)))
    (names : list string) : Result DataFrame :=
  match rows with
  | None => OK (mkframe names [])
  | Some [] => OK (mkframe names [])
  | Some rows =>
      if Nat.eqb (widest rows) (List.length names) then
        OK (mkframe names (map (fun r => pad (widest rows) (map VStr r)) rows))
      else Raise (ValueError "columns passed do not match the passed data")
  end.

Fixpoint positions (c : string) (cols : list string) (i : nat) : list nat :=
  match cols with
  | [] => []
  | c' :: cols' =>
      if String.eqb c c' then i :: positions c cols' (S i)
      else positions c cols' (S i)
  end.

Definition mem (c : string) (cols : list string) : bool :=
  existsb (String.eqb c) cols.

Fixpoint cols_eqb (a b : list string) : bool :=
  match a, b with
  | [], [] => true
  | x :: a', y :: b' => String.eqb x y && cols_eqb a' b'
  | _, _ => false
  end.

(** [obj.reindex(columns=dst)], done only when the labels differ. *)
Definition reindex (src dst : list string) (row : list Value) : list Value :=
  if cols_eqb src dst then row
  else map (fun c => match positions c src O with
                     | i :: _ => nth i row NaN
                     | [] => NaN
                     end) dst.

(** [df.append(batch, ignore_index=True)]: the rows of [batch] after those
    of [df], over the union of the columns in order of appearance. *)
Definition append (df batch : DataFrame) : DataFrame :=
  let cols :=
    columns df ++ filter (fun c => negb (mem c (columns df))) (columns batch) in
  mkframe cols
    (map (reindex (columns df) cols) (data df)
     ++ map (reindex (columns batch) cols) (data batch)).

(** [df.columns.get_loc(column)] used as a list index: a label that is
    present once has an integer position; a repeated label gives a slice
    or a mask, which cannot index a list of types. *)
Definition get_loc (cols : list string) (column : string) : Result nat :=
  match positions column cols O with
  | [i] => OK i
  | [] => Raise (ValueError "label not found")
  | _ => Raise (TypeError "list indices must be integers")
  end.

Definition column_values (i : nat) (df : DataFrame) : list Value :=
  map (fun row => nth i row NaN) (data df).

Fixpoint set_nth (i : nat) (v : Value) (row : list Value) : list Value :=
  match row, i with
  | [], _ => []
  | _ :: row', O => v :: row'
  | x :: row', S i' => x :: set_nth i' v row'
  end.

Fixpoint set_rows (i : nat) (vals : list Value) (rows : list (list Value))
  {struct rows} : list (list Value) :=
  match rows, vals with
  | row :: rows', v :: vals' => set_nth i v row :: set_rows i vals' rows'
  | _, _ => rows
  end.

(** [df[column] = values], for an existing column. *)
Definition set_column (i : nat) (vals : list Value) (df : DataFrame)
  : DataFrame :=
  mkframe (columns df) (set_rows i vals (data df)).

Definition INT64_MIN : Z := - 2 ^ 63.
Definition INT64_MAX : Z := 2 ^ 63 - 1.

Definition int64 (n : Z) : Result Value :=
  if (INT64_MIN <=? n) && (n <=? INT64_MAX) then OK (VInt n)
  else Raise (OverflowError "Python int too large to convert to C long").

(** One cell under [astype('int')]: Python's [int(x)], stored as int64. *)
Definition to_int (v : Value) : Result Value :=
  match v with
  | VStr s =>
      match parse_int s with
      | Some n => int64 n
      | None =>
          Raise (ValueError
                   ("invalid literal for int() with base 10: '" ++ s ++ "'"))
      end
  | VInt n => int64 n
  | VFloat f =>
      match trunc f with
      | Some n => int64 n
      | None => Raise (ValueError "cannot convert float NaN to integer")
      end
  | VNone => Raise (TypeError "int() argument must be a string or a number")
  end.

(** One cell under [astype('float')]: Python's [float(x)], and [NaN] for
    a missing cell. *)
Definition to_float (v : Value) : Result Value :=
  match v with
  | VStr s =>
      match parse_float s with
      | Some f => OK (VFloat f)
      | None =>
          Raise (ValueError ("could not convert string to float: '" ++ s ++ "'"))
      end
  | VInt n =>
      match float_of_int n with
      | OK f => OK (VFloat f)
      | Raise e => Raise e
      end
  | VFloat f => OK (VFloat f)
  | VNone => OK NaN
  end.

Fixpoint convert (f : Value -> Result Value) (vals : list Value)
  : Result (list Value) :=
  match vals with
  | [] => OK []
  | v :: vals' =>
      match f v with
      | Raise e => Raise e
      | OK v' =>
          match convert f vals' with
          | Raise e => Raise e
          | OK l => OK (v' :: l)
          end
      end
  end.

(** The conversion a dtype stands for; [None] as a dtype is numpy's
    default, float64. *)
Definition resolve (dtype : option string) : Result (Value -> Result Value) :=
  match dtype with
  | None => OK to_float
  | Some d =>
      if String.eqb d "object" then OK (fun v => OK v)
      else if String.eqb d "int" then OK to_int
      else if String.eqb d "float" then OK to_float
      else Raise (TypeError ("data type '" ++ d ++ "' not understood"))
  end.

(** [series.astype(dtype)] with the default [errors='raise']: the first
    cell that does not convert raises. *)
Definition astype (dtype : option string) (vals : list Value)
  : Result (list Value) :=
  match resolve dtype with
  | OK f => convert f vals
  | Raise e => Raise e
  end.

(** One cell under a dtype. *)
Definition astype_cell (dtype : option string) (v : Value) : Result Value :=
  match resolve dtype with
  | OK f => f v
  | Raise e => Raise e
  end.

Fixpoint nodupb (l : list string) : bool :=
  match l with
  | [] => true
  | x :: l' => negb (mem x l') && nodupb l'
  end.

(** The shape every frame has: distinct labels, and rows as wide as the
    labels. *)
Definition well_formed (df : DataFrame) : bool :=
  nodupb (columns df)
  && forallb (fun row => Nat.eqb (List.length row) (List.length (columns df)))
       (data df).

Definition is_int (v : Value) : bool :=
  match v with VInt _ => true | _ => false end.
Definition is_float (v : Value) : bool :=
  match v with VFloat _ => true | _ => false end.

End Frame.

(** ** The request, the reporting service and the outside world *)

(** The [request] dictionary; a missing key reads as [None]. *)
Record Request : Type := mkrequest {
  r_ids : option string;
  r_start_date : option string;
  r_end_date : option string;
  r_dimensions : option string;
  r_metrics : option string;
  r_filters : option string;
  r_segment : option string;
  r_sort : option string;
  r_max_results : option Z
}.

Definition SAMPLING_LEVEL : string := "HIGHER_PRECISION".
Definition OUTPUT : string := "json".

(** The keyword arguments of one [service.data().ga().get(...).execute()]. *)
Record ApiCall : Type := mkcall {
  q_ids : option string;
  q_start_date : option string;
  q_end_date : option string;
  q_dimensions : option string;
  q_metrics : option string;
  q_filters : option string;
  q_segment : option string;
  q_sort : option string;
  q_start_index : Z;
  q_max_results : option Z;
  q_samplingLevel : string;
  q_output : string
}.

Record ColumnHeader : Type := mkheader {
  name : string;
  dataType : string
}.

(** The response dictionary.  The service leaves [rows], [sampleSize] and
    [sampleSpace] out when it has nothing to put there. *)
Record Response : Type := mkresponse {
  itemsPerPage : Z;
  totalResults : Z;
  containsSampledData : bool;
  sampleSize : option Z;
  sampleSpace : option Z;
  columnHeaders : list ColumnHeader;
  rows : option (list (list string))
}.

(** The handle [get_service] builds; credentials are outside the model. *)
Inductive Service : Type := AnalyticsV3.

(** What the code prints. *)
Inductive Msg : Type :=
| MsgRoundedDown
| MsgRetrieved (start_index last_index total_results : Z)
| MsgSampled (sampling_perc : PyNum.float)
| MsgGetting (d : string) (first_date last_date : option string)
| MsgSample (df : Frame.DataFrame)
| MsgSummary (df : Frame.DataFrame).

Record World : Type := mkworld {
  calls : list ApiCall;
  stdout : list Msg;
  files : list (string * Frame.DataFrame)
}.

Definition no_world : World := mkworld [] [] [].

(** ** The [GoogleAnalytics] object

    Attributes that [__init__] does not create are [None] here until a
    method assigns them; reading one before that is an [AttributeError]. *)
Record GoogleAnalytics : Type := mkga {
  request : Request;
  first_date : option string;
  last_date : option string;
  start_date : option string;
  end_date : option string;
  service : option Service;
  batches : list string;
  pages : list Z;
  first_page : option bool;
  items_per_page : option Z;
  total_results : option Z;
  column_names : option (list string);
  column_types : option (list string);
  df : option Frame.DataFrame
}.

(** [__init__]. *)
Definition init (request : Request) : GoogleAnalytics :=
  {| request := request;
     first_date := r_start_date request;
     last_date := r_end_date request;
     start_date := r_start_date request;
     end_date := r_start_date request;
     service := None;
     batches := [];
     pages := [];
     first_page := None;
     items_per_page := None;
     total_results := None;
     column_names := None;
     column_types := None;
     df := None |}.

Definition set_start_date (v : option string) (g : GoogleAnalytics) :=
  mkga (request g) (first_date g) (last_date g) v (end_date g) (service g)
    (batches g) (pages g) (first_page g) (items_per_page g) (total_results g)
    (column_names g) (column_types g) (df g).

Definition set_end_date (v : option string) (g : GoogleAnalytics) :=
  mkga (request g) (first_date g) (last_date g) (start_date g) v (service g)
    (batches g) (pages g) (first_page g) (items_per_page g) (total_results g)
    (column_names g) (column_types g) (df g).

Definition set_service (v : option Service) (g : GoogleAnalytics) :=
  mkga (request g) (first_date g) (last_date g) (start_date g) (end_date g) v
    (batches g) (pages g) (first_page g) (items_per_page g) (total_results g)
    (column_names g) (column_types g) (df g).

Definition set_pages (v : list Z) (g : GoogleAnalytics) :=
  mkga (request g) (first_date g) (last_date g) (start_date g) (end_date g)
    (service g) (batches g) v (first_page g) (items_per_page g)
    (total_results g) (column_names g) (column_types g) (df g).

Definition set_first_page (v : option bool) (g : GoogleAnalytics) :=
  mkga (request g) (first_date g) (last_date g) (start_date g) (end_date g)
    (service g) (batches g) (pages g) v (items_per_page g) (total_results g)
    (column_names g) (column_types g) (df g).

Definition set_items_per_page (v : option Z) (g : GoogleAnalytics) :=
  mkga (request g) (first_date g) (last_date g) (start_date g) (end_date g)
    (service g) (batches g) (pages g) (first_page g) v (total_results g)
    (column_names g) (column_types g) (df g).

Definition set_total_results (v : option Z) (g : GoogleAnalytics) :=
  mkga (request g) (first_date g) (last_date g) (start_date g) (end_date g)
    (service g) (batches g) (pages g) (first_page g) (items_per_page g) v
    (column_names g) (column_types g) (df g).

Definition set_column_names (v : option (list string)) (g : GoogleAnalytics) :=
  mkga (request g) (first_date g) (last_date g) (start_date g) (end_date g)
    (service g) (batches g) (pages g) (first_page g) (items_per_page g)
    (total_results g) v (column_types g) (df g).

Definition set_column_types (v : option (list string)) (g : GoogleAnalytics) :=
  mkga (request g) (first_date g) (last_date g) (start_date g) (end_date g)
    (service g) (batches g) (pages g) (first_page g) (items_per_page g)
    (total_results g) (column_names g) v (df g).

Definition set_df (v : option Frame.DataFrame) (g : GoogleAnalytics) :=
  mkga (request g) (first_date g) (last_date g) (start_date g) (end_date g)
    (service g) (batches g) (pages g) (first_page g) (items_per_page g)
    (total_results g) (column_names g) (column_types g) v.

(** ** The monad of methods: state and exceptions

    A method runs from an object and a world to a result or an exception,
    and the object and world it leaves; what a method assigned or printed
    before it raised stays assigned and printed. *)
Record State : Type := mkstate { self : GoogleAnalytics; world : World }.

Definition M (A : Type) : Type := State -> Result A * State.

Definition ret {A} (a : A) : M A := fun st => (OK a, st).

Definition raise {A} (e : Exn) : M A := fun st => (Raise e, st).

Definition bind {A B} (m : M A) (k : A -> M B) : M B :=
  fun st =>
    match m st with
    | (OK a, st') => k a st'
    | (Raise e, st') => (Raise e, st')
    end.

Declare Scope py_scope.
Delimit Scope py_scope with py.
Notation "x <- m ;; k" := (bind m (fun x => k))
  (at level 61, m at next level, right associativity) : py_scope.
Notation "m ;; k" := (bind m (fun _ => k))
  (at level 61, right associativity) : py_scope.
Open Scope py_scope.

Definition lift {A} (r : Result A) : M A := fun st => (r, st).

Definition get_self : M GoogleAnalytics := fun st => (OK (self st), st).

Definition assign (f : GoogleAnalytics -> GoogleAnalytics) : M unit :=
  fun st => (OK tt, mkstate (f (self st)) (world st)).

(** Reading an attribute that may not have been assigned yet. *)
Definition attr {A} (f : GoogleAnalytics -> option A) (attribute : string)
  : M A :=
  fun st =>
    match f (self st) with
    | Some a => (OK a, st)
    | None =>
        (Raise (AttributeError
                  ("'GoogleAnalytics' object has no attribute '"
                     ++ attribute ++ "'")), st)
    end.

Definition print (m : Msg) : M unit :=
  fun st =>
    let w := world st in
    (OK tt, mkstate (self st) (mkworld (calls w) (stdout w ++ [m]) (files w))).

Definition to_csv (output_file : string) (df : Frame.DataFrame) : M unit :=
  fun st =>
    let w := world st in
    (OK tt, mkstate (self st)
              (mkworld (calls w) (stdout w) (files w ++ [(output_file, df)]))).

(** [range(start, stop, step)]. *)
Definition range (start stop step : Z) : Result (list Z) :=
  if step =? 0 then Raise (ValueError "range() arg 3 must not be zero")
  else
    let n :=
      if 0 <? step then
        if start <? stop then (stop - start - 1) / step + 1 else 0
      else
        if stop <? start then (start - stop - 1) / (- step) + 1 else 0 in
    OK (map (fun k => start + Z.of_nat k * step) (seq 0 (Z.to_nat n))).

(** [name.replace('ga:', '')]. *)
Fixpoint remove_ga (s : list ascii) : list ascii :=
  match s with
  | [] => []
  | c1 :: s1 =>
      match s1 with
      | c2 :: c3 :: s3 =>
          if Ascii.eqb c1 "g" && Ascii.eqb c2 "a" && Ascii.eqb c3 ":"
          then remove_ga s3
          else c1 :: remove_ga s1
      | _ => c1 :: remove_ga s1
      end
  end.

Definition replace_ga (s : string) : string :=
  string_of_list_ascii (remove_ga (list_ascii_of_string s)).

(** The [conversions] dictionary of [transform_results]. *)
Definition conversions : list (string * string) :=
  [ ("STRING", "object");
    ("INTEGER", "int");
    ("PERCENT", "float");
    ("TIME", "float");
    ("CURRENCY", "float");
    ("FLOAT", "float") ]%string.

Fixpoint dict_get (d : list (string * string)) (k : string) : option string :=
  match d with
  | [] => None
  | (k', v) :: d' => if String.eqb k k' then Some v else dict_get d' k
  end.

(** [types[i]] on a Python list. *)
Definition index (types : list string) (i : nat) : Result string :=
  match nth_error types i with
  | Some t => OK t
  | None => Raise (IndexError "list index out of range")
  end.

(** ** The methods of [GoogleAnalytics] *)

(** The keyword arguments [get_max_results] passes to the service: the
    window is the object's [start_date] and [end_date], and [max_results]
    is read from the request. *)
Definition query (g : GoogleAnalytics) (start_index : Z) : ApiCall :=
  {| q_ids := r_ids (request g);
     q_start_date := start_date g;
     q_end_date := end_date g;
     q_dimensions := r_dimensions (request g);
     q_metrics := r_metrics (request g);
     q_filters := r_filters (request g);
     q_segment := r_segment (request g);
     q_sort := r_sort (request g);
     q_start_index := start_index;
     q_max_results := r_max_results (request g);
     q_samplingLevel := SAMPLING_LEVEL;
     q_output := OUTPUT |}.

Section Methods.

(** The reporting service: what one query returns, or the error it
    raises. *)
Variable api : ApiCall -> Result Response.

(** [get_service]: the handle is built without consulting the service. *)
Definition get_service : M Service := ret AnalyticsV3.

(** [self.service.data().ga().get(...).execute()]. *)
Definition execute (q : ApiCall) : M Response :=
  fun st =>
    let w := world st in
    (api q, mkstate (self st) (mkworld (calls w ++ [q]) (stdout w) (files w))).

(** [get_max_results(start_index, max_results)].  An argument left out is
    the default of the signature: [start_index = 1], [max_results = 1000]. *)
Definition get_max_results (start_index : Z) (max_results : option Z)
  : M Response :=
  let max_results :=
    match max_results with None => 1000 | Some m => m end in
  if max_results <? 0 then
    raise (ValueError "Argument max_value has to be larger than zero.")
  else
    max_results <-
      (if 10000 <? max_results then print MsgRoundedDown ;; ret 10000
       else ret max_results) ;;
    g <- get_self ;;
    match service g with
    | None => s <- get_service ;; assign (set_service (Some s))
    | Some _ => ret tt
    end ;;
    g <- get_self ;;
    results <- execute (query g start_index) ;;
    fp <- attr first_page "first_page" ;;
    (if fp then
       assign (set_first_page (Some false)) ;;
       assign (set_items_per_page (Some (itemsPerPage results))) ;;
       assign (set_total_results (Some (totalResults results))) ;;
       if itemsPerPage results =? totalResults results then ret tt
       else
         p <- lift (range 1 (totalResults results) (itemsPerPage results)) ;;
         assign (set_pages p)
     else ret tt) ;;
    ipp <- attr items_per_page "items_per_page" ;;
    total <- attr total_results "total_results" ;;
    let last_index := Z.min (start_index + ipp - 1) total in
    print (MsgRetrieved start_index last_index total) ;;
    ret results.

(** The comprehension of [get_all_results]: one [rows.extend(page rows)]
    per remaining start index.  [rows.extend] is looked up before the page
    is fetched, and the fetched rows must be a list. *)
Fixpoint extend_pages (page_starts : list Z)
    (acc : option (list (list string))) : M (option (list (list string))) :=
  match page_starts with
  | [] => ret acc
  | page_start :: rest =>
      match acc with
      | None =>
          raise (AttributeError
                   "'NoneType' object has no attribute 'extend'")
      | Some l =>
          g <- get_self ;;
          results <- get_max_results page_start (r_max_results (request g)) ;;
          match rows results with
          | None => raise (TypeError "'NoneType' object is not iterable")
          | Some more => extend_pages rest (Some (l ++ more))
          end
      end
  end.

(** The sampling check of [get_all_results]. *)
Definition check_sampling (results : Response) : M unit :=
  if containsSampledData results then
    size <-
      match sampleSize results with
      | Some n => lift (PyNum.float_of_int n)
      | None => raise (TypeError "float() argument must be a string or a number")
      end ;;
    space <-
      match sampleSpace results with
      | Some n => lift (PyNum.float_of_int n)
      | None => raise (TypeError "float() argument must be a string or a number")
      end ;;
    ratio <- lift (PyNum.truediv size space) ;;
    let sampling_perc := PyNum.mul ratio (PyNum.float_of_Z 100) in
    print (MsgSampled sampling_perc)
  else ret tt.

(** [get_all_results]. *)
Definition get_all_results : M Frame.DataFrame :=
  assign (set_first_page (Some true)) ;;
  g <- get_self ;;
  results <- get_max_results 1 (r_max_results (request g)) ;;
  check_sampling results ;;
  let columns := columnHeaders results in
  assign (set_column_names (Some (map (fun c => replace_ga (name c)) columns))) ;;
  assign (set_column_types (Some (map dataType columns))) ;;
  let first := rows results in
  g <- get_self ;;
  all <- extend_pages (tl (pages g)) first ;;
  names <- attr column_names "column_names" ;;
  df <- lift (Frame.DataFrame_of all names) ;;
  assign (set_df (Some df)) ;;
  ret df.

(** The loop of [transform_results] over the column labels. *)
Fixpoint transform_columns (labels : list string) (df : Frame.DataFrame)
  : M Frame.DataFrame :=
  match labels with
  | [] => ret df
  | column :: rest =>
      types <- attr column_types "column_types" ;;
      i <- lift (Frame.get_loc (Frame.columns df) column) ;;
      t <- lift (index types i) ;;
      values <-
        lift (Frame.astype (dict_get conversions t) (Frame.column_values i df)) ;;
      transform_columns rest (Frame.set_column i values df)
  end.

(** [transform_results(df)] on a frame that the object does not hold, as
    [batch_get] calls it: its argument there is what [df.append] returned,
    a frame of its own.  The assignments of the loop are made in the
    argument, which is returned. *)
Definition transform_results (df : Frame.DataFrame) : M Frame.DataFrame :=
  transform_columns (Frame.columns df) df.



(** [df.describe()] cannot describe a frame that has no columns. *)
Definition describe_error : Exn :=
  ValueError "Cannot describe a DataFrame without columns".

(** [print_summary(df)]: the data sample and the heading of the statistics
    ([MsgSample]), then [df.describe()] and the data types
    ([MsgSummary]). *)
Definition print_summary (df : Frame.DataFrame) : M unit :=
  print (MsgSample df) ;;
  match Frame.columns df with
  | [] => raise describe_error
  | _ :: _ => print (MsgSummary df)
  end.

(** [save_to_file(df, output_file)]. *)
Definition save_to_file (df : Frame.DataFrame) (output_file : string)
  : M unit :=
  to_csv output_file df.

(** The [for d in dates] loop of [batch_get]. *)
Fixpoint fetch_days (dates : list string) (df : Frame.DataFrame)
  : M Frame.DataFrame :=
  match dates with
  | [] => ret df
  | d :: rest =>
      assign (set_start_date (Some d)) ;;
      assign (set_end_date (Some d)) ;;
      g <- get_self ;;
      print (MsgGetting d (first_date g) (last_date g)) ;;
      batch <- get_all_results ;;
      fetch_days rest (Frame.append df batch)
  end.

(** The list [dates] of [batch_get]. *)
Definition batch_dates (first_date last_date : option string)
  : Result (list string) :=
  match Calendar.strptime first_date with
  | Raise e => Raise e
  | OK start_datetime =>
      match Calendar.strptime last_date with
      | Raise e => Raise e
      | OK end_datetime =>
          let delta := Calendar.delta_days end_datetime start_datetime in
          Calendar.format_days start_datetime (Calendar.range1 (delta + 1))
      end
  end.

(** [batch_get(output_file, summary)]. *)
Definition batch_get (output_file : option string) (summary : bool)
  : M Frame.DataFrame :=
  let df := Frame.empty in
  g <- get_self ;;
  dates <- lift (batch_dates (first_date g) (last_date g)) ;;
  df <- fetch_days dates df ;;
  df <- (if 0 <? Frame.size df then transform_results df else ret df) ;;
  (if summary then print_summary df else ret tt) ;;
  match output_file with
  | Some f => if String.eqb f EmptyString then ret tt else save_to_file df f
  | None => ret tt
  end ;;
  ret df.

End Methods.

(** ** A reporting service for the examples

    It serves, for each day, the rows of a table in pages: the page size is
    the requested [max_results] capped at 10000 (1000 when none is asked
    for), [totalResults] is the number of rows of the day, and the page at
    [start_index] holds the rows from that index on. *)
Definition served_page_size (max_results : option Z) : Z :=
  match max_results with
  | None => 1000
  | Some m => Z.min m 10000
  end.

Definition page_of (size : Z) (start_index : Z) (table : list (list string))
  : list (list string) :=
  firstn (Z.to_nat size) (skipn (Z.to_nat (start_index - 1)) table).

Definition paged_service (headers : list ColumnHeader)
    (tables : option string -> list (list string)) (q : ApiCall)
  : Result Response :=
  let table := tables (q_start_date q) in
  let size := served_page_size (q_max_results q) in
  OK {| itemsPerPage := size;
        totalResults := Z.of_nat (List.length table);
        containsSampledData := false;
        sampleSize := None;
        sampleSpace := None;
        columnHeaders := headers;
        rows := Some (page_of size (q_start_index q) table) |}.

Definition sample_headers : list ColumnHeader :=
  [ mkheader "ga:date" "STRING"; mkheader "ga:sessions" "INTEGER" ].

(** [n] rows for day [d]: the date and a running number. *)
Definition sample_rows (d : string) (n : nat) : list (list string) :=
  map (fun k => [d; Calendar.pad4 (Z.of_nat k)]) (seq 1 n).

Definition sample_request (first last : string) (max_results : option Z)
  : Request :=
  {| r_ids := Some "ga:12345"%string;
     r_start_date := Some first;
     r_end_date := Some last;
     r_dimensions := Some "ga:date"%string;
     r_metrics := Some "ga:sessions"%string;
     r_filters := None;
     r_segment := None;
     r_sort := None;
     r_max_results := max_results |}.

Definition fresh (r : Request) : State := mkstate (init r) no_world.

(** Day 1 has 400 rows and day 2 has 1500. *)
Definition two_days (d : option string) : list (list string) :=
  match d with
  | Some d =>
      if String.eqb d "2021-05-01" then sample_rows d 400
      else if String.eqb d "2021-05-02" then sample_rows d 1500
      else []
  | None => []
  end.

(** Day 1 has 1500 rows and day 2 has 1000: a full single page. *)
Definition long_then_full (d : option string) : list (list string) :=
  match d with
  | Some d =>
      if String.eqb d "2021-05-01" then sample_rows d 1500
      else if String.eqb d "2021-05-02" then sample_rows d 1000
      else []
  | None => []
  end.


(** ** Vocabulary of the statements *)

(** What a run over one or more days leaves alone in the object. *)
Definition same_setup (g g' : GoogleAnalytics) : Prop :=
  request g' = request g /\ first_date g' = first_date g /\
  last_date g' = last_date g.

Definition same_window (g g' : GoogleAnalytics) : Prop :=
  start_date g' = start_date g /\ end_date g' = end_date g.

(** The lines [get_max_results] prints. *)
Definition progress_msg (m : Msg) : bool :=
  match m with
  | MsgRoundedDown | MsgRetrieved _ _ _ => true
  | _ => false
  end.

(** The percentages of the sampling warnings among printed lines. *)
Fixpoint sampling_warnings (out : list Msg) : list PyNum.float :=
  match out with
  | [] => []
  | MsgSampled p :: out' => p :: sampling_warnings out'
  | _ :: out' => sampling_warnings out'
  end.

(** The days announced among printed lines. *)
Fixpoint days_announced (out : list Msg) : list string :=
  match out with
  | [] => []
  | MsgGetting d _ _ :: out' => d :: days_announced out'
  | _ :: out' => days_announced out'
  end.

(** The date window of a query. *)
Definition window (q : ApiCall) : option string * option string :=
  (q_start_date q, q_end_date q).

(** A query sent for the object [g] asks for the window of [g]. *)
Definition in_window (g : GoogleAnalytics) (q : ApiCall) : Prop :=
  window q = (start_date g, end_date g).

(** The queries of one day: at least one, all for the window of that
    day alone. *)
Definition day_group (d : string) (qs : list ApiCall) : Prop :=
  qs <> [] /\ Forall (fun q => window q = (Some d, Some d)) qs.

(** The window the loop over [dates] leaves in the object. *)
Definition final_window (dates : list string)
    (w : option string * option string) : option string * option string :=
  fold_left (fun _ d => (Some d, Some d)) dates w.

(** What [batch_get] writes once the frame [d] is final. *)
Definition written (output_file : option string) (d : Frame.DataFrame)
  : list (string * Frame.DataFrame) :=
  match output_file with
  | Some f => if String.eqb f EmptyString then [] else [(f, d)]
  | None => []
  end.

Definition summarised (summary : bool) (d : Frame.DataFrame) : list Msg :=
  if summary then [MsgSample d; MsgSummary d] else [].


(** ** Inputs of the examples *)

(** An object on which [get_all_results] has just set [first_page]. *)
Definition ready (r : Request) : State :=
  mkstate (set_first_page (Some true) (init r)) no_world.

(** One day of 201 rows. *)
Definition day_of_201 (d : option string) : list (list string) :=
  match d with
  | Some d => sample_rows d 201
  | None => []
  end.

(** A service whose every answer is sampled: 500 sessions out of 2000. *)
Definition sampled_service (q : ApiCall) : Result Response :=
  OK {| itemsPerPage := 1000;
        totalResults := 2;
        containsSampledData := true;
        sampleSize := Some 500;
        sampleSpace := Some 2000;
        columnHeaders := sample_headers;
        rows := Some [ ["2021-05-01"; "7"]; ["2021-05-01"; "9"] ]%string |}.


(** The object after a day with the sample headers. *)
Definition typed (types : list string) : State :=
  mkstate (set_column_types (Some types) (init (sample_request "2021-05-01" "2021-05-01" None)))
    no_world.

Definition query_index (q : ApiCall) : option string * Z :=
  (q_start_date q, q_start_index q).


Definition two_day_request : Request :=
  sample_request "2021-05-01" "2021-05-02" (Some 1000).

Definition example_service : ApiCall -> Result Response :=
  paged_service sample_headers two_days.


Definition two_day_run : Result Frame.DataFrame * State :=
  batch_get example_service None false (fresh two_day_request).

Definition frame_or_empty (r : Result Frame.DataFrame) : Frame.DataFrame :=
  match r with
  | OK d => d
  | Raise _ => Frame.empty
  end.

Definition one_day_request : Request :=
  sample_request "2021-05-01" "2021-05-01" (Some 1000).




(** A column of counts and a column of rates, as strings. *)
Definition counts : Frame.DataFrame :=
  Frame.mkframe ["sessions"%string]
    [ [Frame.VStr "1"]; [Frame.VStr "2"]; [Frame.VStr "3"] ].

Definition rates : Frame.DataFrame :=
  Frame.mkframe ["bounceRate"%string] [ [Frame.VStr "12.5"] ].

(** The float 12.5 and the float 25.0. *)
Definition float_12_5 : PyNum.float := S754_finite false 7036874417766400 (-49).

(** ** Further vocabulary *)

(** [__next__]. *)
Definition next : M unit := assign (set_first_page (Some true)).

(** A page size argument [get_max_results] does not reject. *)
Definition accepted (max_results : option Z) : Prop :=
  match max_results with
  | Some m => 0 <= m
  | None => True
  end.

(** The line a fetch prints when it is given more than 10000. *)
Definition rounded (max_results : option Z) : list Msg :=
  if 10000 <? match max_results with Some m => m | None => 1000 end
  then [MsgRoundedDown] else [].

(** The column names [get_all_results] derives from the headers. *)
Definition names_of (headers : list ColumnHeader) : list string :=
  map (fun c => replace_ga (name c)) headers.

(** The start indices of a list of queries. *)
Definition start_indices (qs : list ApiCall) : list Z := map q_start_index qs.

(** A query carries the parameters of the request [r], the fixed sampling
    level and the fixed output format. *)
Definition of_request (r : Request) (q : ApiCall) : Prop :=
  q_ids q = r_ids r /\ q_dimensions q = r_dimensions r /\
  q_metrics q = r_metrics r /\ q_filters q = r_filters r /\
  q_segment q = r_segment r /\ q_sort q = r_sort r /\
  q_max_results q = r_max_results r /\
  q_samplingLevel q = "HIGHER_PRECISION"%string /\ q_output q = "json"%string.

(** The number of rows of a list of frames. *)
Definition total_size (batches : list Frame.DataFrame) : Z :=
  fold_right (fun b n => Frame.size b + n) 0 batches.

(** A service that answers every query with the same response. *)
Definition constant_service (resp : Response) (q : ApiCall) : Result Response :=
  OK resp.

Definition response_of (size total : Z) (sampled : bool)
    (sample_size sample_space : option Z)
    (table : option (list (list string))) : Response :=
  {| itemsPerPage := size;
     totalResults := total;
     containsSampledData := sampled;
     sampleSize := sample_size;
     sampleSpace := sample_space;
     columnHeaders := sample_headers;
     rows := table |}.

(** A header name in which no colon occurs. *)
Definition colon_free (s : string) : bool :=
  forallb (fun c => negb (Ascii.eqb c ":")) (list_ascii_of_string s).

(** The frames of the summaries among printed lines. *)
Fixpoint summaries (out : list Msg) : list Frame.DataFrame :=
  match out with
  | [] => []
  | MsgSummary d :: out' => d :: summaries out'
  | _ :: out' => summaries out'
  end.

(** A cell as the service sent it: a string, or nothing where a row was
    short. *)
Definition uncoerced (v : Frame.Value) : bool :=
  match v with
  | Frame.VStr _ | Frame.VNone => true
  | _ => false
  end.

(** The frame of one day: what [get_all_results] returns on an object
    whose window is that day. *)
Definition frame_of_day (api : ApiCall -> Result Response)
    (day : string) (b : Frame.DataFrame) : Prop :=
  exists s s',
    start_date (self s) = Some day /\ end_date (self s) = Some day
    /\ get_all_results api s = (OK b, s').

(** ** Inputs of the further examples *)

Definition day_rows : list (list string) :=
  [ ["2021-05-01"; "7"]; ["2021-05-01"; "9"] ]%string.

(** A day of two rows on one page. *)
Definition small_day : Response :=
  response_of 1000 2 false None None (Some day_rows).

(** The first page of a day of 250 rows in pages of 100. *)
Definition three_pages : Response :=
  response_of 100 250 false None None (Some (sample_rows "2021-05-01" 100)).

(** A response that reports a page size of zero. *)
Definition no_page_size : Response :=
  response_of 0 5 false None None (Some day_rows).

(** A day without results: the service sends no [rows]. *)
Definition empty_day : Response :=
  response_of 1000 0 false None None None.

(** A sampled response with a sample space of zero. *)
Definition sampled_of_nothing : Response :=
  response_of 1000 2 true (Some 500) (Some 0) (Some day_rows).

(** The object after the first page of [three_pages]. *)
Definition after_first_page : State :=
  snd (get_max_results (constant_service three_pages) 1 (Some 100)
         (ready one_day_request)).

Definition second_page : Result Response * State :=
  get_max_results (constant_service three_pages) 201 (Some 100)
    after_first_page.

Definition first_page_of_three : Result Response * State :=
  get_max_results (constant_service three_pages) 1 (Some 100)
    (ready one_day_request).

Definition page_without_size : Result Response * State :=
  get_max_results (constant_service no_page_size) 1 (Some 100)
    (ready one_day_request).

Definition small_day_run : Result Frame.DataFrame * State :=
  get_all_results (constant_service small_day) (fresh one_day_request).

Definition sampled_of_nothing_run : Result Frame.DataFrame * State :=
  get_all_results (constant_service sampled_of_nothing)
    (fresh one_day_request).

Definition empty_day_run : Result Frame.DataFrame * State :=
  get_all_results (constant_service empty_day) (fresh one_day_request).

(** A run over two days that prints its summary and writes a file. *)
Definition reported_run : Result Frame.DataFrame * State :=
  batch_get (constant_service small_day) (Some "out.csv"%string) true
    (fresh two_day_request).

(** A request whose end date is not a day of the calendar, and one whose
    end date is before its start date. *)
Definition bad_end_request : Request :=
  sample_request "2021-05-01" "2021-02-30" (Some 1000).

Definition reversed_request : Request :=
  sample_request "2021-05-02" "2021-05-01" (Some 1000).

(** A frame of one text column, and the counts as integers. *)
Definition dates_frame : Frame.DataFrame :=
  Frame.mkframe ["date"%string]
    [ [Frame.VStr "2021-05-01"]; [Frame.VStr "2021-05-02"] ].

Definition counted : Frame.DataFrame :=
  Frame.mkframe ["sessions"%string]
    [ [Frame.VInt 1]; [Frame.VInt 2]; [Frame.VInt 3] ].

Definition new_object_fetch : Result Response * State :=
  bind next (fun _ => get_max_results (constant_service small_day) 1 None)
    (fresh two_day_request).



(** * Properties *)

(** ** The calendar: ordinals and the day after *)
Module CalendarFacts.

Import Calendar.

(** Sums of small constants, folded without unfolding [Z.add] on
    variables. *)
Ltac fold_consts :=
  repeat match goal with
  | |- context [Z.pos ?a + Z.pos ?b] =>
      let v := eval vm_compute in (Z.pos a + Z.pos b) in
      change (Z.pos a + Z.pos b) with v
  end.

Ltac month_calc :=
  fold_consts;
  cbv beta iota delta [DAYS_BEFORE_MONTH DAYS_IN_MONTH Z.eqb Z.ltb Z.compare
    Pos.compare Pos.compare_cont Pos.eqb andb orb negb] in *.

Ltac month_cases m :=
  let Hc := fresh "Hc" in
  assert (m = 1 \/ m = 2 \/ m = 3 \/ m = 4 \/ m = 5 \/ m = 6 \/ m = 7 \/
          m = 8 \/ m = 9 \/ m = 10 \/ m = 11 \/ m = 12) as Hc by lia;
  repeat destruct Hc as [-> | Hc]; try subst m.

Lemma divmod_unique n k q r :
  0 <= r < k -> n = k * q + r -> n / k = q /\ n mod k = r.
Proof.
  intros Hr Hn. split.
  - symmetry. apply (Z.div_unique n k q r); [left; lia | lia].
  - symmetry. apply (Z.mod_unique n k q r); [left; lia | lia].
Qed.

(** A year is [400 a + 100 b + 4 c + d + 1]; the days before it and
    whether it is a leap year read off the four digits. *)
Lemma year_decompose (y : Z) :
  1 <= y ->
  exists a b c d,
    0 <= a /\ 0 <= b <= 3 /\ 0 <= c <= 24 /\ 0 <= d <= 3 /\
    y = 400 * a + 100 * b + 4 * c + d + 1 /\
    days_before_year y = 146097 * a + 36524 * b + 1461 * c + 365 * d /\
    (is_leap y = true <-> d = 3 /\ (c <> 24 \/ b = 3)).
Proof.
  intros Hy.
  exists ((y - 1) / 400), ((y - 1) mod 400 / 100),
         ((y - 1) mod 100 / 4), ((y - 1) mod 4).
  unfold days_before_year, is_leap.
  rewrite andb_true_iff, orb_true_iff, negb_true_iff, !Z.eqb_eq, Z.eqb_neq.
  repeat split; Z.div_mod_to_equations; lia.
Qed.

Lemma in_zrange lo n x : lo <= x < lo + Z.of_nat n -> In x (zrange lo n).
Proof.
  intros H. unfold zrange. apply in_map_iff.
  exists (Z.to_nat (x - lo)). split; [lia|]. apply in_seq. lia.
Qed.

(** [month_day] inverts [days_before_month], checked on every day of a
    common and of a leap year. *)
Lemma month_day_table :
  forallb (fun lp =>
    forallb (fun m =>
      forallb (fun d =>
        implb (d <=? DAYS_IN_MONTH m + (if (m =? 2) && lp then 1 else 0))
              (month_day_check lp m d))
        (zrange 1 31))
      (zrange 1 12))
    [true; false] = true.
Proof. vm_compute. reflexivity. Qed.

Lemma month_day_ok lp m d :
  1 <= m <= 12 ->
  1 <= d <= DAYS_IN_MONTH m + (if (m =? 2) && lp then 1 else 0) ->
  month_day lp (DAYS_BEFORE_MONTH m + (if (2 <? m) && lp then 1 else 0) + d - 1)
  = (m, d).
Proof.
  intros Hm Hd.
  assert (Hd31 : d <= 31).
  { assert (DAYS_IN_MONTH m + (if (m =? 2) && lp then 1 else 0) <= 31).
    { month_cases m; destruct lp; month_calc; lia. }
    lia. }
  pose proof month_day_table as T.
  rewrite forallb_forall in T. specialize (T lp).
  assert (In lp [true; false]) as Hin by (destruct lp; simpl; auto).
  specialize (T Hin). rewrite forallb_forall in T.
  specialize (T m (in_zrange 1 12 m ltac:(lia))). rewrite forallb_forall in T.
  specialize (T d (in_zrange 1 31 d ltac:(lia))).
  rewrite implb_true_iff in T.
  assert (Hle : (d <=? DAYS_IN_MONTH m + (if (m =? 2) && lp then 1 else 0)) = true)
    by (apply Z.leb_le; lia).
  specialize (T Hle).
  unfold month_day_check in T. destruct (month_day lp _) as [m' d'].
  apply andb_true_iff in T. destruct T as [T1 T2].
  apply Z.eqb_eq in T1, T2. congruence.
Qed.

Lemma day_of_year_bound y m d :
  1 <= m <= 12 -> 1 <= d <= days_in_month y m ->
  0 <= days_before_month y m + d - 1 < 365 + (if is_leap y then 1 else 0).
Proof.
  intros Hm Hd. unfold days_before_month, days_in_month in *.
  month_cases m; destruct (is_leap y); month_calc; lia.
Qed.

Lemma last_day_of_year y m d :
  1 <= m <= 12 -> 1 <= d <= days_in_month y m ->
  days_before_month y m + d - 1 = 364 + (if is_leap y then 1 else 0) ->
  m = 12 /\ d = 31.
Proof.
  intros Hm Hd. unfold days_before_month, days_in_month in *.
  month_cases m; destruct (is_leap y); month_calc; lia.
Qed.

(** [ord2ymd] on an ordinal given by its digits in the mixed radix
    400 years, 100 years, 4 years, 1 year. *)
Lemma ord2ymd_digits n a b c e r :
  0 <= b -> 0 <= c -> 0 <= e -> 0 <= r < 365 ->
  365 * e + r < 1461 ->
  1461 * c + (365 * e + r) < 36524 ->
  36524 * b + (1461 * c + (365 * e + r)) < 146097 ->
  n - 1 = 146097 * a + (36524 * b + (1461 * c + (365 * e + r))) ->
  ord2ymd n =
    let y := a * 400 + 1 + b * 100 + c * 4 + e in
    if (e =? 4) || (b =? 4) then mkdate (y - 1) 12 31
    else
      let (m, d) := month_day ((e =? 3) && (negb (c =? 24) || (b =? 3))) r in
      mkdate y m d.
Proof.
  intros Hb Hc He Hr H1 H2 H3 Hn.
  unfold ord2ymd, DI400Y, DI100Y, DI4Y. cbv zeta.
  destruct (divmod_unique (n - 1) 146097 a
              (36524 * b + (1461 * c + (365 * e + r))) ltac:(lia) Hn)
    as [Q1 M1].
  rewrite Q1, M1.
  destruct (divmod_unique (36524 * b + (1461 * c + (365 * e + r))) 36524 b
              (1461 * c + (365 * e + r)) ltac:(lia) eq_refl) as [Q2 M2].
  rewrite Q2, M2.
  destruct (divmod_unique (1461 * c + (365 * e + r)) 1461 c (365 * e + r)
              ltac:(lia) eq_refl) as [Q3 M3].
  rewrite Q3, M3.
  destruct (divmod_unique (365 * e + r) 365 e r ltac:(lia) eq_refl)
    as [Q4 M4].
  rewrite Q4, M4.
  reflexivity.
Qed.

Lemma valid_date_iff t :
  valid_date t = true <->
  1 <= year t <= 9999 /\ 1 <= month t <= 12 /\
  1 <= day t <= days_in_month (year t) (month t).
Proof.
  unfold valid_date, MINYEAR, MAXYEAR.
  rewrite !andb_true_iff, !Z.leb_le. tauto.
Qed.

(** The ordinal of a date determines the date. *)
Lemma ord2ymd_toordinal t :
  valid_date t = true -> ord2ymd (toordinal t) = t.
Proof.
  rewrite valid_date_iff. destruct t as [y m d]. unfold toordinal. simpl.
  intros ([Hy1 Hy2] & [Hm1 Hm2] & [Hd1 Hd2]).
  destruct (year_decompose y Hy1)
    as (a & b & c & e & Ha & Hb & Hc & He & Hy & Hdby & Hleap).
  pose proof (day_of_year_bound y m d (conj Hm1 Hm2) (conj Hd1 Hd2)) as Hdoy.
  pose proof (last_day_of_year y m d (conj Hm1 Hm2) (conj Hd1 Hd2)) as Hlast.
  unfold ymd2ord.
  destruct (is_leap y) eqn:Elp.
  - destruct (proj1 Hleap eq_refl) as [He3 Hcb].
    destruct (Z.eq_dec (days_before_month y m + d - 1) 365) as [E365 | N365].
    + destruct (Hlast ltac:(lia)) as [-> ->].
      destruct (Z.eq_dec c 24) as [Ec | Nc].
      * assert (b = 3) by lia.
        rewrite (ord2ymd_digits _ a 4 0 0 0); try lia.
        cbv zeta. simpl. f_equal; lia.
      * rewrite (ord2ymd_digits _ a b c 4 0); try lia.
        cbv zeta. simpl. f_equal; lia.
    + rewrite (ord2ymd_digits _ a b c e (days_before_month y m + d - 1));
        try lia.
      cbv zeta.
      replace ((e =? 4) || (b =? 4)) with false
        by (symmetry; apply orb_false_iff; split; apply Z.eqb_neq; lia).
      replace ((e =? 3) && (negb (c =? 24) || (b =? 3))) with true.
      2:{ symmetry.
          rewrite andb_true_iff, orb_true_iff, negb_true_iff, !Z.eqb_eq,
            Z.eqb_neq. tauto. }
      unfold days_before_month, days_in_month in *. rewrite Elp in *.
      rewrite month_day_ok; [f_equal; lia | lia |].
      destruct (Z.eqb_spec m 2);
        [subst m; month_calc; lia | cbn [andb] in *; lia].
  - assert (Hnl : ~ (e = 3 /\ (c <> 24 \/ b = 3))).
    { intros H. apply Hleap in H. discriminate. }
    rewrite (ord2ymd_digits _ a b c e (days_before_month y m + d - 1));
      try lia.
    cbv zeta.
    replace ((e =? 4) || (b =? 4)) with false
      by (symmetry; apply orb_false_iff; split; apply Z.eqb_neq; lia).
    replace ((e =? 3) && (negb (c =? 24) || (b =? 3))) with false.
    2:{ symmetry. apply not_true_is_false.
        rewrite andb_true_iff, orb_true_iff, negb_true_iff, !Z.eqb_eq,
          Z.eqb_neq. tauto. }
    unfold days_before_month, days_in_month in *. rewrite Elp in *.
    rewrite month_day_ok; [f_equal; lia | lia |].
    destruct (Z.eqb_spec m 2);
      [subst m; month_calc; lia | cbn [andb] in *; lia].
Qed.

Lemma days_before_year_succ y :
  days_before_year (y + 1)
  = days_before_year y + 365 + (if is_leap y then 1 else 0).
Proof.
  unfold days_before_year, is_leap.
  destruct (Z.eqb_spec (y mod 4) 0), (Z.eqb_spec (y mod 100) 0),
    (Z.eqb_spec (y mod 400) 0);
    cbn [andb orb negb]; cbv zeta; Z.div_mod_to_equations; lia.
Qed.

(** The calendar's next day is the next ordinal: month ends, leap days and
    year ends included. *)
Lemma toordinal_next_day t :
  valid_date t = true -> toordinal (next_day t) = toordinal t + 1.
Proof.
  rewrite valid_date_iff. destruct t as [y m d]. simpl. intros (Hy & Hm & Hd).
  unfold next_day, toordinal, ymd2ord. simpl.
  destruct (Z.ltb_spec d (days_in_month y m)); simpl; [lia|].
  assert (d = days_in_month y m) as -> by lia.
  destruct (Z.ltb_spec m 12); simpl.
  - unfold days_before_month, days_in_month.
    month_cases m; try lia; destruct (is_leap y); month_calc; lia.
  - assert (m = 12) as -> by lia.
    rewrite days_before_year_succ. unfold days_before_month, days_in_month.
    destruct (is_leap y), (is_leap (y + 1)); month_calc; lia.
Qed.

Lemma toordinal_bounds t :
  valid_date t = true -> 1 <= toordinal t <= MAXORDINAL.
Proof.
  rewrite valid_date_iff. destruct t as [y m d]. simpl. intros (Hy & Hm & Hd).
  pose proof (day_of_year_bound y m d Hm Hd) as Hdoy.
  unfold toordinal, ymd2ord, MAXORDINAL. simpl.
  assert (0 <= days_before_year y /\
          days_before_year y + 365 + (if is_leap y then 1 else 0) <= 3652059).
  { rewrite <- days_before_year_succ. unfold days_before_year. cbv zeta.
    split; Z.div_mod_to_equations; lia. }
  lia.
Qed.

Lemma valid_next_day t :
  valid_date t = true -> toordinal t < MAXORDINAL ->
  valid_date (next_day t) = true.
Proof.
  intros Hv Hlt. revert Hv Hlt. rewrite !valid_date_iff.
  destruct t as [y m d]. simpl.
  intros (Hy & Hm & Hd). unfold next_day. simpl.
  destruct (Z.ltb_spec d (days_in_month y m)); simpl; [lia|].
  destruct (Z.ltb_spec m 12); simpl.
  - intros _. repeat split; try lia.
    unfold days_in_month.
    month_cases m; try lia; destruct (is_leap y); month_calc; lia.
  - intros Hlt.
    assert (y < 9999).
    { destruct (Z.eq_dec y 9999) as [Ey | ]; [exfalso|lia].
      assert (E31 : days_in_month 9999 12 = 31) by (vm_compute; reflexivity).
      assert (Emax : toordinal (mkdate 9999 12 31) = MAXORDINAL)
        by (vm_compute; reflexivity).
      assert (m = 12) by lia. subst y m.
      assert (d = 31) by lia. subst d.
      rewrite Emax in Hlt. lia. }
    repeat split; try lia.
    unfold days_in_month. destruct (is_leap (y + 1)); month_calc; lia.
Qed.

Lemma iter_next_day (a : datetime) (k : nat) :
  valid_date a = true ->
  toordinal a + Z.of_nat k <= MAXORDINAL ->
  valid_date (Nat.iter k next_day a) = true /\
  toordinal (Nat.iter k next_day a) = toordinal a + Z.of_nat k.
Proof.
  intros Hv. induction k as [|k IH]; intros Hle.
  - simpl. split; [assumption | lia].
  - destruct IH as [IHv IHo]; [lia|].
    change (Nat.iter (S k) next_day a) with (next_day (Nat.iter k next_day a)).
    split.
    + apply valid_next_day; [assumption | lia].
    + rewrite toordinal_next_day by assumption. lia.
Qed.

(** [t + timedelta(k)] is the [k]-th day after [t]. *)
Lemma add_days_iter (a : datetime) (k : nat) :
  valid_date a = true ->
  toordinal a + Z.of_nat k <= MAXORDINAL ->
  add_days a (Z.of_nat k) = OK (Nat.iter k next_day a).
Proof.
  intros Hv Hle. destruct (iter_next_day a k Hv Hle) as [Hvk Hok].
  pose proof (toordinal_bounds a Hv) as Hb.
  unfold add_days.
  replace ((1 <=? toordinal a + Z.of_nat k)
           && (toordinal a + Z.of_nat k <=? MAXORDINAL))
    with true by (symmetry; apply andb_true_iff; split; apply Z.leb_le; lia).
  rewrite <- Hok. rewrite ord2ymd_toordinal by assumption. reflexivity.
Qed.

Lemma days_from_iter (a : datetime) (n : nat) :
  days_from a n = map (fun k => Nat.iter k next_day a) (seq 0 n).
Proof.
  revert a. induction n as [|n IH]; intros a; [reflexivity|].
  cbn [days_from seq map]. f_equal. rewrite IH, <- seq_shift, map_map.
  apply map_ext. intros k. symmetry. apply Nat.iter_succ_r.
Qed.

Lemma format_days_ok (a : datetime) (n : nat) :
  valid_date a = true ->
  toordinal a + Z.of_nat n - 1 <= MAXORDINAL ->
  format_days a (range1 (Z.of_nat n)) = OK (map strftime (days_from a n)).
Proof.
  intros Hv Hle. rewrite days_from_iter. unfold range1. rewrite Nat2Z.id.
  assert (H : forall l, (forall k, In k l -> (k < n)%nat) ->
     format_days a (map Z.of_nat l)
     = OK (map strftime (map (fun k => Nat.iter k next_day a) l))).
  { induction l as [|k l IH]; intros Hl; [reflexivity|].
    cbn [map format_days]. rewrite add_days_iter; [|assumption|].
    - rewrite IH; [reflexivity|]. intros; apply Hl; right; assumption.
    - specialize (Hl k (or_introl eq_refl)). lia. }
  apply H. intros k Hk. apply in_seq in Hk. lia.
Qed.

Lemma strptime_valid text t :
  strptime text = OK t -> valid_date t = true.
Proof.
  unfold strptime. destruct text as [text|]; [|discriminate].
  destruct (re_Y _) as [[y s1]|]; [|discriminate].
  destruct (re_dash s1) as [s2|]; [|discriminate].
  destruct (re_m s2) as [[m s3]|]; [|discriminate].
  destruct (re_dash s3) as [s4|]; [|discriminate].
  destruct (re_d s4) as [[d s5]|]; [|discriminate].
  destruct s5; [|discriminate].
  destruct (valid_date _) eqn:E; [|discriminate].
  intros H. inversion H; subst. exact E.
Qed.

End CalendarFacts.

(** ** Effects of the methods, for any reporting service *)

Ltac destruct_head_match :=
  match goal with
  | |- context [match ?x with _ => _ end] =>
      lazymatch x with
      | context [match _ with _ => _ end] => fail
      | _ => destruct x eqn:?
      end
  end.

Ltac unfold_monad :=
  unfold get_service, print_summary, save_to_file in *;
  unfold bind, ret, raise, print, get_self, assign, execute, attr, lift,
    to_csv in *.

Ltac run_all :=
  repeat (destruct_head_match; cbn [self world calls stdout files fst snd]).

Lemma forallb_progress_app (a b : list Msg) :
  forallb progress_msg a = true -> forallb progress_msg b = true ->
  forallb progress_msg (a ++ b) = true.
Proof. intros Ha Hb. rewrite forallb_app, Ha, Hb. reflexivity. Qed.

(** Stepping through a [bind]. *)
Lemma bind_assign {B} f (k : unit -> M B) st :
  bind (assign f) k st = k tt (mkstate (f (self st)) (world st)).
Proof. reflexivity. Qed.

Lemma bind_get_self {B} (k : GoogleAnalytics -> M B) st :
  bind get_self k st = k (self st) st.
Proof. reflexivity. Qed.

Lemma bind_print {B} m (k : unit -> M B) st :
  bind (print m) k st
  = k tt (mkstate (self st)
            (mkworld (calls (world st)) (stdout (world st) ++ [m])
               (files (world st)))).
Proof. reflexivity. Qed.

Lemma bind_lift {A B} (r : Result A) (k : A -> M B) st :
  bind (lift r) k st
  = match r with OK a => k a st | Raise e => (Raise e, st) end.
Proof. unfold bind, lift. destruct r; reflexivity. Qed.

Lemma bind_run {A B} (m : M A) (k : A -> M B) st r st1 :
  m st = (r, st1) ->
  bind m k st = match r with OK a => k a st1 | Raise e => (Raise e, st1) end.
Proof. intros H. unfold bind. rewrite H. destruct r; reflexivity. Qed.

Lemma bind_attr {A B} (f : GoogleAnalytics -> option A) n (k : A -> M B) st a :
  f (self st) = Some a -> bind (attr f n) k st = k a st.
Proof. intros H. unfold bind, attr. rewrite H. reflexivity. Qed.

Lemma days_announced_app (a b : list Msg) :
  days_announced (a ++ b) = days_announced a ++ days_announced b.
Proof.
  induction a as [|m a IH]; [reflexivity|].
  destruct m; cbn; rewrite ?IH; reflexivity.
Qed.

Lemma days_announced_progress (ms : list Msg) :
  forallb progress_msg ms = true -> days_announced ms = [].
Proof.
  induction ms as [|m ms IH]; [reflexivity|].
  destruct m; cbn; try discriminate; exact IH.
Qed.

Lemma sampling_warnings_app (a b : list Msg) :
  sampling_warnings (a ++ b) = sampling_warnings a ++ sampling_warnings b.
Proof.
  induction a as [|m a IH]; [reflexivity|].
  destruct m; cbn; rewrite ?IH; reflexivity.
Qed.

Lemma sampling_warnings_progress (ms : list Msg) :
  forallb progress_msg ms = true -> sampling_warnings ms = [].
Proof.
  induction ms as [|m ms IH]; [reflexivity|].
  destruct m; cbn; try discriminate; exact IH.
Qed.

Section MethodFacts.

Variable api : ApiCall -> Result Response.

(** One page fetch: what it leaves alone, what it prints, and the one
    query it sends unless it rejects its argument first. *)
Lemma get_max_results_spec start m st :
  let (r, st') := get_max_results api start m st in
  same_setup (self st) (self st') /\
  same_window (self st) (self st') /\
  column_names (self st') = column_names (self st) /\
  column_types (self st') = column_types (self st) /\
  df (self st') = df (self st) /\
  files (world st') = files (world st) /\
  (exists ms, stdout (world st') = stdout (world st) ++ ms /\
              forallb progress_msg ms = true) /\
  ((calls (world st') = calls (world st) /\
    r = Raise (ValueError "Argument max_value has to be larger than zero.")) \/
   (calls (world st') = calls (world st) ++ [query (self st) start] /\
    forall resp, r = OK resp -> api (query (self st) start) = OK resp)).
Proof.
  destruct st as [g w]. unfold get_max_results. unfold_monad.
  cbn [self world calls stdout files].
  run_all.
  all: unfold same_setup, same_window; cbn.
  all: repeat match goal with |- _ /\ _ => split end; try reflexivity.
  all: try (eexists; split;
            [ rewrite <- ?app_assoc; try reflexivity;
              symmetry; apply app_nil_r
            | reflexivity ]).
  all: try (left; split; reflexivity).
  all: repeat match goal with
       | H : context [query (set_service ?v ?g') ?s] |- _ =>
           change (query (set_service v g') s) with (query g' s) in H
       end.
  all: right; split; [reflexivity | intros ? ?; congruence].
Qed.

(** The sampling check prints one warning with the ratio, or nothing. *)
Lemma check_sampling_spec resp st :
  let (r, st') := check_sampling resp st in
  self st' = self st /\
  calls (world st') = calls (world st) /\
  files (world st') = files (world st) /\
  if containsSampledData resp then
    match r with
    | OK _ =>
        exists a b fa fb,
          sampleSize resp = Some a /\ sampleSpace resp = Some b /\
          PyNum.float_of_int a = OK fa /\ PyNum.float_of_int b = OK fb /\
          PyNum.is_zero fb = false /\
          stdout (world st')
          = stdout (world st)
            ++ [MsgSampled
                  (PyNum.mul (SFdiv PyNum.prec PyNum.emax fa fb)
                     (PyNum.float_of_Z 100))]
    | Raise _ => stdout (world st') = stdout (world st)
    end
  else r = OK tt /\ stdout (world st') = stdout (world st).
Proof.
  destruct st as [g w]. unfold check_sampling, PyNum.truediv. unfold_monad.
  destruct (containsSampledData resp);
    [|cbn; repeat split; reflexivity].
  cbn [self world calls stdout files].
  run_all; cbn; repeat split; try reflexivity.
  do 4 eexists. repeat split; try eassumption; reflexivity.
Qed.

(** The remaining pages of a day: only page fetches happen. *)
Lemma extend_pages_spec ps : forall acc st,
  let (r, st') := extend_pages api ps acc st in
  same_setup (self st) (self st') /\
  same_window (self st) (self st') /\
  column_names (self st') = column_names (self st) /\
  column_types (self st') = column_types (self st) /\
  files (world st') = files (world st) /\
  (exists ms, stdout (world st') = stdout (world st) ++ ms /\
              forallb progress_msg ms = true) /\
  (exists qs, calls (world st') = calls (world st) ++ qs /\
              Forall (in_window (self st)) qs).
Proof.
  induction ps as [|p ps IH]; intros acc st.
  - cbn. unfold same_setup, same_window. repeat split; try reflexivity.
    + exists []. rewrite app_nil_r. split; reflexivity.
    + exists []. rewrite app_nil_r. split; [reflexivity | constructor].
  - cbn [extend_pages]. destruct acc as [l|].
    2:{ cbn. unfold same_setup, same_window. repeat split; try reflexivity.
        + exists []. rewrite app_nil_r. split; reflexivity.
        + exists []. rewrite app_nil_r. split; [reflexivity | constructor]. }
    unfold bind at 1. unfold get_self at 1. unfold bind at 1.
    pose proof (get_max_results_spec p (r_max_results (request (self st))) st)
      as H1.
    destruct (get_max_results api p _ st) as [r1 st1].
    destruct H1 as ((R1 & F1 & L1) & (W1 & W1') & CN1 & CT1 & D1 & FI1
                    & (ms1 & O1 & P1) & C1).
    assert (Hq1 : exists qs, calls (world st1) = calls (world st) ++ qs /\
                             Forall (in_window (self st)) qs).
    { destruct C1 as [[C1 _] | [C1 _]].
      - exists []. rewrite app_nil_r. split; [assumption | constructor].
      - exists [query (self st) p]. split; [assumption|].
        constructor; [reflexivity | constructor]. }
    destruct Hq1 as (qs1 & Q1 & QW1).
    destruct r1 as [resp|e].
    2:{ unfold same_setup, same_window. repeat split; try assumption.
        - exists ms1. split; assumption.
        - exists qs1. split; assumption. }
    destruct (rows resp) as [more|].
    2:{ cbn. unfold same_setup, same_window. repeat split; try assumption.
        - exists ms1. split; assumption.
        - exists qs1. split; assumption. }
    specialize (IH (Some (l ++ more)) st1).
    destruct (extend_pages api ps (Some (l ++ more)) st1) as [r2 st2].
    destruct IH as ((R2 & F2 & L2) & (W2 & W2') & CN2 & CT2 & FI2
                    & (ms2 & O2 & P2) & (qs2 & Q2 & QW2)).
    unfold same_setup, same_window. repeat split; try congruence.
    + exists (ms1 ++ ms2). split.
      * rewrite O2, O1, app_assoc. reflexivity.
      * apply forallb_progress_app; assumption.
    + exists (qs1 ++ qs2). split.
      * rewrite Q2, Q1, app_assoc. reflexivity.
      * apply Forall_app. split; [assumption|].
        revert QW2. apply Forall_impl. intros q Hq.
        unfold in_window in *. rewrite W1, W1' in Hq. exact Hq.
Qed.

(** A day that succeeds: the first page was served, the sampling check ran
    on it once, the other fetches only printed progress, and the frame is
    built from the rows gathered under the names of the first page. *)
Lemma get_all_results_ok st d st' :
  get_all_results api st = (OK d, st') ->
  exists resp stA stB ms1 ms2 qs all,
    api (query (self st) 1) = OK resp /\
    check_sampling resp stA = (OK tt, stB) /\
    stdout (world stA) = stdout (world st) ++ ms1 /\
    forallb progress_msg ms1 = true /\
    stdout (world st') = stdout (world stB) ++ ms2 /\
    forallb progress_msg ms2 = true /\
    calls (world st') = calls (world st) ++ query (self st) 1 :: qs /\
    Forall (in_window (self st)) qs /\
    same_setup (self st) (self st') /\
    same_window (self st) (self st') /\
    files (world st') = files (world st) /\
    column_names (self st')
    = Some (map (fun c => replace_ga (name c)) (columnHeaders resp)) /\
    column_types (self st') = Some (map dataType (columnHeaders resp)) /\
    Frame.DataFrame_of all
      (map (fun c => replace_ga (name c)) (columnHeaders resp)) = OK d.
Proof.
  unfold get_all_results. rewrite bind_assign, bind_get_self.
  set (st0 := mkstate (set_first_page (Some true) (self st)) (world st)).
  pose proof (get_max_results_spec 1 (r_max_results (request (self st0))) st0)
    as H1.
  destruct (get_max_results api 1 _ st0) as [r1 st1] eqn:E1.
  rewrite (bind_run _ _ _ _ _ E1).
  destruct H1 as ((R1 & F1 & L1) & (W1 & W1') & CN1 & CT1 & D1 & FI1
                  & (ms1 & O1 & P1) & C1).
  destruct r1 as [resp|e]; [|discriminate].
  destruct C1 as [[_ C1] | [C1 A1]]; [discriminate|].
  specialize (A1 resp eq_refl).
  pose proof (check_sampling_spec resp st1) as H2.
  destruct (check_sampling resp st1) as [r2 st2] eqn:E2.
  rewrite (bind_run _ _ _ _ _ E2).
  destruct H2 as (S2 & C2 & FI2 & _).
  destruct r2 as [[]|e]; [|discriminate].
  rewrite !bind_assign, bind_get_self. cbn [self world].
  set (g3 := set_column_types _ _).
  set (st3 := mkstate g3 (world st2)).
  pose proof (extend_pages_spec (tl (pages g3)) (rows resp) st3) as H3.
  destruct (extend_pages api _ _ st3) as [r3 st4] eqn:E3.
  rewrite (bind_run _ _ _ _ _ E3).
  destruct H3 as ((R3 & F3 & L3) & (W3 & W3') & CN3 & CT3 & FI3
                  & (ms2 & O3 & P3) & (qs & Q3 & QW3)).
  destruct r3 as [all|e]; [|discriminate].
  rewrite (bind_attr _ _ _ _ _ CN3). rewrite bind_lift.
  destruct (Frame.DataFrame_of _ _) as [d'|e] eqn:ED; [|discriminate].
  rewrite bind_assign. unfold ret. intros H. inversion H; subst d' st'; clear H.
  exists resp, st1, st2, ms1, ms2, qs, all. cbn [self world].
  subst st3 g3. cbn in *.
  unfold same_setup, same_window. cbn.
  rewrite S2 in *.
  repeat split; try congruence.
  - exact A1.
  - rewrite Q3, C2, C1. rewrite <- app_assoc. reflexivity.
  - revert QW3. apply Forall_impl. intros q Hq. unfold in_window in *.
    cbn in Hq. rewrite W1, W1' in Hq. exact Hq.
Qed.

Lemma check_sampling_announced resp st st' :
  check_sampling resp st = (OK tt, st') ->
  days_announced (stdout (world st')) = days_announced (stdout (world st)).
Proof.
  intros H. pose proof (check_sampling_spec resp st) as S. rewrite H in S.
  destruct S as (_ & _ & _ & S).
  destruct (containsSampledData resp).
  - destruct S as (a & b & fa & fb & _ & _ & _ & _ & _ & S).
    rewrite S, days_announced_app, app_nil_r. reflexivity.
  - destruct S as [_ S]. rewrite S. reflexivity.
Qed.

(** The loop over the days, when it succeeds: each day is announced and
    queried in turn, for its own window. *)
Lemma fetch_days_ok dates : forall df0 st d st',
  fetch_days api dates df0 st = (OK d, st') ->
  same_setup (self st) (self st') /\
  files (world st') = files (world st) /\
  (exists groups,
     calls (world st') = calls (world st) ++ List.concat groups /\
     Forall2 day_group dates groups) /\
  days_announced (stdout (world st'))
  = days_announced (stdout (world st)) ++ dates /\
  (start_date (self st'), end_date (self st'))
  = final_window dates (start_date (self st), end_date (self st)).
Proof.
  induction dates as [|day dates IH]; intros df0 st d st' H.
  - cbn in H. inversion H; subst. unfold same_setup. repeat split.
    + exists []. cbn. rewrite app_nil_r. split; [reflexivity | constructor].
    + rewrite app_nil_r. reflexivity.
  - cbn [fetch_days] in H.
    rewrite !bind_assign, bind_get_self, bind_print in H. cbn [self world] in H.
    set (g1 := set_end_date (Some day) (set_start_date (Some day) (self st)))
      in *.
    set (st1 := mkstate g1 _) in *.
    destruct (get_all_results api st1) as [r2 st2] eqn:E2.
    rewrite (bind_run _ _ _ _ _ E2) in H.
    destruct r2 as [batch|e]; [|discriminate].
    apply get_all_results_ok in E2.
    destruct E2 as (resp & stA & stB & ms1 & ms2 & qs & all & A & CS & O1 & P1
                    & O2 & P2 & Q & QW & (R2 & F2 & L2) & (W2 & W2') & FI2 & _).
    apply IH in H.
    destruct H as ((R3 & F3 & L3) & FI3 & (groups & Q3 & G3) & An3 & Win3).
    unfold same_setup. subst st1 g1. cbn in *.
    repeat split; try congruence.
    + exists ((query
                 (set_end_date (Some day) (set_start_date (Some day) (self st)))
                 1 :: qs) :: groups).
      split.
      * rewrite Q3, Q. cbn [List.concat]. rewrite <- app_assoc. reflexivity.
      * constructor; [|assumption]. split; [discriminate|].
        constructor; [reflexivity|]. exact QW.
    + rewrite An3, O2, days_announced_app, (days_announced_progress ms2 P2),
        app_nil_r.
      rewrite (check_sampling_announced _ _ _ CS), O1.
      rewrite !days_announced_app, (days_announced_progress ms1 P1).
      cbn. rewrite app_nil_r, <- app_assoc. reflexivity.
    + rewrite Win3, W2, W2'. reflexivity.
Qed.

End MethodFacts.

(** ** Frames and coercion *)
Module FrameFacts.

Import Frame.

Lemma mem_true_iff c l : mem c l = true <-> In c l.
Proof.
  unfold mem. rewrite existsb_exists. split.
  - intros (x & Hx & E). apply String.eqb_eq in E. subst. exact Hx.
  - intros H. exists c. split; [exact H | apply String.eqb_refl].
Qed.

Lemma nodupb_NoDup l : nodupb l = true -> NoDup l.
Proof.
  induction l as [|x l IH]; intros H; [constructor|].
  cbn in H. apply andb_true_iff in H. destruct H as [H1 H2].
  constructor; [|apply IH; exact H2].
  intros Hin. apply mem_true_iff in Hin. rewrite Hin in H1. discriminate.
Qed.

Lemma positions_notin label cols k :
  ~ In label cols -> positions label cols k = [].
Proof.
  revert k. induction cols as [|c cols IH]; intros k H; [reflexivity|].
  cbn. destruct (String.eqb_spec label c) as [->|_].
  - exfalso. apply H. left. reflexivity.
  - apply IH. intros Hin. apply H. right. exact Hin.
Qed.

Lemma positions_unique cols : forall j label k,
  NoDup cols -> nth_error cols j = Some label ->
  positions label cols k = [(k + j)%nat].
Proof.
  induction cols as [|c cols IH]; intros j label k Hnd Hj.
  - destruct j; discriminate.
  - inversion Hnd as [|? ? Hnot Hnd']; subst. destruct j as [|j]; cbn in Hj.
    + inversion Hj; subst. cbn. rewrite String.eqb_refl.
      rewrite positions_notin by assumption. rewrite Nat.add_0_r. reflexivity.
    + cbn. destruct (String.eqb_spec label c) as [->|_].
      * exfalso. apply Hnot. eapply nth_error_In. exact Hj.
      * rewrite (IH j label (S k) Hnd' Hj). f_equal. lia.
Qed.

Lemma positions_sound label cols : forall k i,
  In i (positions label cols k) ->
  (k <= i)%nat /\ nth_error cols (i - k) = Some label.
Proof.
  induction cols as [|c cols IH]; intros k i H; [destruct H|].
  cbn in H. destruct (String.eqb_spec label c) as [->|_].
  - destruct H as [<- | H].
    + rewrite Nat.sub_diag. split; [lia | reflexivity].
    + apply IH in H. destruct H as [Hk Hn]. split; [lia|].
      replace (i - k)%nat with (S (i - S k)) by lia. exact Hn.
  - apply IH in H. destruct H as [Hk Hn]. split; [lia|].
    replace (i - k)%nat with (S (i - S k)) by lia. exact Hn.
Qed.

Lemma get_loc_unique cols j label :
  NoDup cols -> nth_error cols j = Some label -> get_loc cols label = OK j.
Proof.
  intros Hnd Hj. unfold get_loc.
  rewrite (positions_unique cols j label 0 Hnd Hj). reflexivity.
Qed.

Lemma get_loc_sound cols label i :
  get_loc cols label = OK i -> nth_error cols i = Some label.
Proof.
  unfold get_loc. destruct (positions label cols 0) as [|k [|k' l]] eqn:E;
    try discriminate.
  intros H. inversion H; subst.
  destruct (positions_sound label cols 0 i) as [_ Hn].
  - rewrite E. left. reflexivity.
  - rewrite Nat.sub_0_r in Hn. exact Hn.
Qed.

Lemma set_nth_length i v row : List.length (set_nth i v row) = List.length row.
Proof.
  revert i. induction row as [|x row IH]; intros i; [destruct i; reflexivity|].
  destruct i; cbn; [reflexivity | rewrite IH; reflexivity].
Qed.

Lemma nth_set_nth_same i v row d :
  (i < List.length row)%nat -> nth i (set_nth i v row) d = v.
Proof.
  revert i. induction row as [|x row IH]; intros i H; [cbn in H; lia|].
  destruct i; cbn; [reflexivity | apply IH; cbn in H; lia].
Qed.

Lemma nth_set_nth_other i j v row d :
  i <> j -> nth j (set_nth i v row) d = nth j row d.
Proof.
  revert i j. induction row as [|x row IH]; intros i j H;
    [destruct i; reflexivity|].
  destruct i, j; cbn; try reflexivity; try congruence.
  apply IH. congruence.
Qed.

Lemma set_rows_length i vals rows :
  List.length (set_rows i vals rows) = List.length rows.
Proof.
  revert vals. induction rows as [|r rows IH]; intros vals; [reflexivity|].
  destruct vals; cbn; [reflexivity | rewrite IH; reflexivity].
Qed.

Lemma column_values_set_other i j vals df :
  i <> j -> column_values j (set_column i vals df) = column_values j df.
Proof.
  intros H. unfold column_values, set_column. cbn.
  generalize (data df) as rows. intros rows. revert vals.
  induction rows as [|r rows IH]; intros vals; [reflexivity|].
  destruct vals; cbn; [reflexivity|].
  rewrite nth_set_nth_other by assumption. rewrite IH. reflexivity.
Qed.

Lemma column_values_set_same i vals df :
  List.length vals = List.length (data df) ->
  Forall (fun row => (i < List.length row)%nat) (data df) ->
  column_values i (set_column i vals df) = vals.
Proof.
  unfold column_values, set_column. cbn.
  generalize (data df) as rows. intros rows. revert vals.
  induction rows as [|r rows IH]; intros vals Hl Hw.
  - destruct vals; [reflexivity | discriminate].
  - destruct vals as [|v vals]; [discriminate|]. cbn.
    inversion Hw; subst. rewrite nth_set_nth_same by assumption.
    rewrite IH; [reflexivity | cbn in Hl; lia | assumption].
Qed.

Lemma well_formed_iff df :
  well_formed df = true <->
  nodupb (columns df) = true /\
  Forall (fun row => List.length row = List.length (columns df)) (data df).
Proof.
  unfold well_formed. rewrite andb_true_iff, forallb_forall, Forall_forall.
  split; intros [H1 H2]; split; try assumption; intros r Hr.
  - apply Nat.eqb_eq. apply H2. exact Hr.
  - apply Nat.eqb_eq. apply H2. exact Hr.
Qed.

Lemma well_formed_set_column i vals df :
  well_formed df = true -> well_formed (set_column i vals df) = true.
Proof.
  rewrite !well_formed_iff. cbn. intros [H1 H2]. split; [assumption|].
  revert vals. induction H2 as [|r rows Hr Hrows IH]; intros vals;
    [constructor|].
  destruct vals as [|v vals]; cbn [set_rows].
  - constructor; assumption.
  - constructor; [rewrite set_nth_length; exact Hr | apply IH].
Qed.

Lemma convert_ok f vals out :
  convert f vals = OK out -> Forall2 (fun v o => f v = OK o) vals out.
Proof.
  revert out. induction vals as [|v vals IH]; intros out H; cbn in H.
  - inversion H. constructor.
  - destruct (f v) as [v'|e] eqn:E; [|discriminate].
    destruct (convert f vals) as [l|e]; [|discriminate].
    inversion H; subst. constructor; [exact E | apply IH; reflexivity].
Qed.

Lemma convert_length f vals out :
  convert f vals = OK out -> List.length out = List.length vals.
Proof.
  intros H. apply convert_ok in H. symmetry. eapply Forall2_length. exact H.
Qed.

Lemma convert_raise f vals e :
  convert f vals = Raise e -> exists v, In v vals /\ f v = Raise e.
Proof.
  induction vals as [|v vals IH]; intros H; cbn in H; [discriminate|].
  destruct (f v) as [v'|e'] eqn:E.
  - destruct (convert f vals) as [l|e'']; [discriminate|].
    inversion H; subst. destruct (IH eq_refl) as (x & Hx & Ex).
    exists x. split; [right; exact Hx | exact Ex].
  - inversion H; subst. exists v. split; [left; reflexivity | exact E].
Qed.



(** A column that does not convert has an unknown dtype, or a cell that
    raises the error. *)
Lemma astype_raise dtype vals e :
  astype dtype vals = Raise e ->
  (exists v, In v vals /\ astype_cell dtype v = Raise e)
  \/ (exists d, dtype = Some d
                /\ e = TypeError ("data type '" ++ d ++ "' not understood")).
Proof.
  unfold astype, astype_cell. destruct (resolve dtype) as [f|e'] eqn:R.
  - intros H. left. apply convert_raise. exact H.
  - intros H. inversion H; subst. right.
    unfold resolve in R. destruct dtype as [d|]; [|discriminate].
    exists d. split; [reflexivity|].
    destruct (String.eqb d "object"); [discriminate|].
    destruct (String.eqb d "int"); [discriminate|].
    destruct (String.eqb d "float"); [discriminate|].
    inversion R. reflexivity.
Qed.

Lemma astype_length dtype vals out :
  astype dtype vals = OK out -> List.length out = List.length vals.
Proof.
  unfold astype. destruct (resolve dtype); [|discriminate].
  apply convert_length.
Qed.

(** [transform_results] reads the object and changes nothing. *)
Lemma transform_columns_state labels : forall df st,
  snd (transform_columns labels df st) = st.
Proof.
  induction labels as [|c labels IH]; intros df st; [reflexivity|].
  cbn [transform_columns]. unfold bind at 1, attr.
  destruct (column_types (self st)); [|reflexivity].
  rewrite bind_lift. destruct (get_loc _ _); [|reflexivity].
  rewrite bind_lift. destruct (index _ _); [|reflexivity].
  rewrite bind_lift. destruct (astype _ _); [|reflexivity].
  apply IH.
Qed.

Lemma wide_enough df j label :
  well_formed df = true -> nth_error (columns df) j = Some label ->
  Forall (fun row => (j < List.length row)%nat) (data df).
Proof.
  rewrite well_formed_iff. intros [_ H] Hj.
  assert (j < List.length (columns df))%nat
    by (apply nth_error_Some; congruence).
  revert H. apply Forall_impl. intros r Hr. lia.
Qed.

(** The loop over the labels, when it succeeds: every listed column is the
    conversion of the column it was, under the dtype of its declared type,
    and the other columns are untouched. *)
Lemma transform_columns_ok labels : forall df st df' st' types,
  column_types (self st) = Some types ->
  well_formed df = true -> NoDup labels ->
  transform_columns labels df st = (OK df', st') ->
  columns df' = columns df /\ well_formed df' = true /\
  forall j label, nth_error (columns df) j = Some label ->
    (In label labels ->
       exists t, nth_error types j = Some t /\
         astype (dict_get conversions t) (column_values j df)
         = OK (column_values j df'))
    /\ (~ In label labels -> column_values j df' = column_values j df).
Proof.
  induction labels as [|c labels IH]; intros df st df' st' types HT WF ND H.
  - cbn in H. inversion H; subst. repeat split; try assumption.
    intros [].
  - cbn [transform_columns] in H.
    rewrite (bind_attr _ _ _ _ _ HT), bind_lift in H.
    destruct (get_loc (columns df) c) as [i|e] eqn:EL; [|discriminate].
    rewrite bind_lift in H.
    destruct (index types i) as [t|e] eqn:EI; [|discriminate].
    rewrite bind_lift in H.
    destruct (astype (dict_get conversions t) (column_values i df))
      as [values|e] eqn:EA; [|discriminate].
    inversion ND as [|? ? Hc ND']; subst.
    pose proof (well_formed_set_column i values df WF) as WF'.
    destruct (IH _ _ _ _ types HT WF' ND' H) as (C & W & P).
    cbn in C. repeat split; try assumption.
    + intros [<- | Hin].
      * assert (j = i).
        { apply get_loc_sound in EL.
          apply well_formed_iff in WF. destruct WF as [WF _].
          apply nodupb_NoDup in WF.
          eapply (proj1 (NoDup_nth_error (columns df)) WF);
            [apply nth_error_Some; congruence | congruence]. }
        subst j. exists t. split.
        { unfold index in EI. destruct (nth_error types i); [|discriminate].
          inversion EI. reflexivity. }
        destruct (P i c H0) as [_ P2]. rewrite (P2 Hc).
        rewrite column_values_set_same; [exact EA | |].
        -- rewrite (astype_length _ _ _ EA). unfold column_values.
           apply length_map.
        -- eapply wide_enough; eassumption.
      * destruct (P j label H0) as [P1 _].
        destruct (P1 Hin) as (t' & Ht' & A').
        exists t'. split; [exact Ht'|].
        rewrite column_values_set_other in A'; [exact A'|].
        intros ->. apply get_loc_sound in EL. congruence.
    + intros Hn. destruct (P j label H0) as [_ P2].
      rewrite P2 by (intros Hin; apply Hn; right; exact Hin).
      apply column_values_set_other.
      intros ->. apply get_loc_sound in EL. apply Hn. left. congruence.
Qed.




End FrameFacts.

(** ** The date range driver *)
Section BatchFacts.

Variable api : ApiCall -> Result Response.

Lemma transform_results_state df st :
  transform_results df st = (fst (transform_results df st), st).
Proof.
  unfold transform_results.
  pose proof (FrameFacts.transform_columns_state (Frame.columns df) df st) as H.
  destruct (transform_columns _ _ _) as [r s]. cbn in *. subst. reflexivity.
Qed.

(** Once every day is fetched, [batch_get] coerces the whole frame if it
    has rows, and only then prints the summary, which fails for a frame
    without columns, and writes the file. *)
Lemma batch_get_after_fetch out summary st dates d1 st1 :
  batch_dates (first_date (self st)) (last_date (self st)) = OK dates ->
  fetch_days api dates Frame.empty st = (OK d1, st1) ->
  batch_get api out summary st =
    match (if 0 <? Frame.size d1 then fst (transform_results d1 st1)
           else OK d1) with
    | Raise e => (Raise e, st1)
    | OK d =>
        if summary && match Frame.columns d with [] => true | _ => false end
        then
          (Raise describe_error,
           mkstate (self st1)
             (mkworld (calls (world st1))
                (stdout (world st1) ++ [MsgSample d])
                (files (world st1))))
        else
          (OK d,
           mkstate (self st1)
             (mkworld (calls (world st1))
                (stdout (world st1) ++ summarised summary d)
                (files (world st1) ++ written out d)))
    end.
Proof.
  intros HD HF. unfold batch_get.
  rewrite bind_get_self, bind_lift, HD.
  rewrite (bind_run _ _ _ _ _ HF).
  destruct st1 as [g [c o f]].
  assert (Hout : forall d,
            bind (if summary then print_summary d else ret tt)
              (fun _ =>
                 bind match out with
                      | Some f0 =>
                          if String.eqb f0 EmptyString then ret tt
                          else save_to_file d f0
                      | None => ret tt
                      end
                   (fun _ => ret d))
              (mkstate g (mkworld c o f))
            = if summary
                 && match Frame.columns d with [] => true | _ => false end
              then
                (Raise describe_error,
                 mkstate g (mkworld c (o ++ [MsgSample d]) f))
              else
                (OK d,
                 mkstate g
                   (mkworld c (o ++ summarised summary d)
                      (f ++ written out d)))).
  { intros d. unfold written, summarised, print_summary.
    destruct summary, (Frame.columns d), out as [file|];
      try destruct (String.eqb file _);
      cbn; rewrite ?app_nil_r, <- ?app_assoc; reflexivity. }
  destruct (0 <? Frame.size d1).
  - rewrite (bind_run _ _ _ _ _ (transform_results_state d1 _)).
    destruct (fst (transform_results d1 _)) as [d|e]; [|reflexivity].
    apply Hout.
  - unfold ret at 1. unfold bind at 1. apply Hout.
Qed.

(** A run that succeeds fetched every day first. *)
Lemma batch_get_ok out summary st d st' :
  batch_get api out summary st = (OK d, st') ->
  exists dates d1 st1,
    batch_dates (first_date (self st)) (last_date (self st)) = OK dates /\
    fetch_days api dates Frame.empty st = (OK d1, st1) /\
    self st' = self st1 /\
    calls (world st') = calls (world st1) /\
    stdout (world st') = stdout (world st1) ++ summarised summary d /\
    files (world st') = files (world st1) ++ written out d /\
    (if 0 <? Frame.size d1 then transform_results d1 st1 = (OK d, st1)
     else d = d1).
Proof.
  intros H.
  destruct (batch_dates (first_date (self st)) (last_date (self st)))
    as [dates|e] eqn:HD.
  2:{ unfold batch_get in H. rewrite bind_get_self, bind_lift, HD in H.
      discriminate. }
  destruct (fetch_days api dates Frame.empty st) as [[d1|e] st1] eqn:HF.
  2:{ unfold batch_get in H. rewrite bind_get_self, bind_lift, HD in H.
      rewrite (bind_run _ _ _ _ _ HF) in H. discriminate. }
  rewrite (batch_get_after_fetch _ _ _ _ _ _ HD HF) in H.
  exists dates, d1, st1. split; [first [exact HD | reflexivity]|].
  split; [exact HF|].
  destruct (0 <? Frame.size d1).
  - rewrite (transform_results_state d1 st1).
    destruct (fst (transform_results d1 st1)) as [d'|e]; [|discriminate].
    destruct (summary && _); [discriminate|].
    inversion H; subst. cbn. repeat split.
  - destruct (summary && _); [discriminate|].
    inversion H; subst. cbn. repeat split.
Qed.

End BatchFacts.

(** ** The days of a range *)
Section DatesFacts.

Import Calendar.

Variables (first last : option string) (a b : datetime).
Hypothesis Ha : strptime first = OK a.
Hypothesis Hb : strptime last = OK b.

(** The list [dates] is the days from the first date on, as many as the
    range has, each the calendar's next day of the one before. *)
Lemma batch_dates_spec :
  batch_dates first last
  = OK (map strftime
          (days_from a (Z.to_nat (toordinal b - toordinal a + 1)))).
Proof.
  unfold batch_dates. rewrite Ha, Hb. unfold delta_days.
  pose proof (CalendarFacts.strptime_valid _ _ Ha) as Va.
  pose proof (CalendarFacts.strptime_valid _ _ Hb) as Vb.
  pose proof (CalendarFacts.toordinal_bounds a Va).
  pose proof (CalendarFacts.toordinal_bounds b Vb).
  set (n := Z.to_nat (toordinal b - toordinal a + 1)).
  replace (range1 (toordinal b - toordinal a + 1)) with (range1 (Z.of_nat n))
    by (unfold range1; rewrite Nat2Z.id; reflexivity).
  apply CalendarFacts.format_days_ok; [assumption | lia].
Qed.

(** The range is inclusive: its last day is the last date. *)
Lemma days_from_last :
  toordinal a <= toordinal b ->
  days_from a (Z.to_nat (toordinal b - toordinal a + 1))
  = days_from a (Z.to_nat (toordinal b - toordinal a)) ++ [b].
Proof.
  intros Hle.
  pose proof (CalendarFacts.strptime_valid _ _ Ha) as Va.
  pose proof (CalendarFacts.strptime_valid _ _ Hb) as Vb.
  pose proof (CalendarFacts.toordinal_bounds b Vb).
  set (k := Z.to_nat (toordinal b - toordinal a)).
  replace (Z.to_nat (toordinal b - toordinal a + 1)) with (S k) by lia.
  rewrite !CalendarFacts.days_from_iter, seq_S, map_app. cbn [map Nat.add].
  f_equal. f_equal.
  destruct (CalendarFacts.iter_next_day a k Va ltac:(lia)) as [Vk Ok].
  rewrite <- (CalendarFacts.ord2ymd_toordinal _ Vk).
  rewrite <- (CalendarFacts.ord2ymd_toordinal _ Vb).
  f_equal. lia.
Qed.

End DatesFacts.

Lemma final_window_last (l : list string) (x : string) w :
  final_window (l ++ [x]) w = (Some x, Some x).
Proof. unfold final_window. rewrite fold_left_app. reflexivity. Qed.

(** * The claims *)

(** ** Page fetch: the size asked of the service *)

(** Whatever page size is passed, a fetch sends the service the
    [max_results] of the request. *)
Lemma get_max_results_sends_request_size api start_index max_results st :
  let st' := snd (get_max_results api start_index max_results st) in
  calls (world st') = calls (world st)
  \/ exists q,
       calls (world st') = calls (world st) ++ [q]
       /\ q_start_index q = start_index
       /\ q_max_results q = r_max_results (request (self st)).
Proof.
  pose proof (get_max_results_spec api start_index max_results st) as H.
  destruct (get_max_results api start_index max_results st) as [r st'].
  cbn. destruct H as (_ & _ & _ & _ & _ & _ & _ & [[H _] | [H _]]).
  - left. exact H.
  - right. exists (query (self st) start_index). repeat split. exact H.
Qed.

(** A negative page size is rejected before anything is sent. *)
Lemma get_max_results_negative api start_index m st :
  m < 0 ->
  get_max_results api start_index (Some m) st
  = (Raise (ValueError "Argument max_value has to be larger than zero."), st).
Proof.
  intros H. unfold get_max_results.
  destruct (Z.ltb_spec m 0); [reflexivity | lia].
Qed.

(** C1 (the code departs from the claim).  The size sent to the service is
    the [max_results] of the request, not the size the fetch was given nor
    its clamped value: a fetch given 20000 prints that the size was rounded
    down to 10000 and still asks the service for 20000 rows. *)
Theorem C1_clamped_size_is_not_sent :
  (forall api start_index max_results st,
     let st' := snd (get_max_results api start_index max_results st) in
     calls (world st') = calls (world st)
     \/ exists q,
          calls (world st') = calls (world st) ++ [q]
          /\ q_max_results q = r_max_results (request (self st)))
  /\ let run :=
       get_max_results (paged_service sample_headers long_then_full)
         1 (Some 20000)
         (ready (sample_request "2021-05-01" "2021-05-01" (Some 20000))) in
     is_ok (fst run) = true
     /\ map q_max_results (calls (world (snd run))) = [Some 20000]
     /\ stdout (world (snd run)) = [MsgRoundedDown; MsgRetrieved 1 1500 1500].
Proof.
  split.
  - intros api start_index max_results st.
    destruct (get_max_results_sends_request_size api start_index max_results st)
      as [H | (q & H & _ & Hq)].
    + left. exact H.
    + right. exists q. split; assumption.
  - vm_compute. repeat split.
Qed.

(** C2 (the code departs from the claim).  A page size of zero is not
    rejected: the fetch goes on and queries the service, where the error
    reserved for sizes that are not larger than zero would have stopped
    it; against a service that answers, the fetch of size zero succeeds. *)
Theorem C2_zero_page_size_is_sent :
  (forall api start_index st,
     calls (world (snd (get_max_results api start_index (Some 0) st)))
     = calls (world st) ++ [query (self st) start_index])
  /\ let run :=
       get_max_results sampled_service 1 (Some 0)
         (ready (sample_request "2021-05-01" "2021-05-01" (Some 0))) in
     is_ok (fst run) = true
     /\ map q_max_results (calls (world (snd run))) = [Some 0].
Proof.
  split.
  - intros api start_index [g w]. unfold get_max_results. unfold_monad.
    cbn [self world calls stdout files Z.ltb Z.compare].
    run_all; reflexivity.
  - vm_compute. split; reflexivity.
Qed.

(** ** Pagination plan *)

(** [range(1, total, step)] for a positive step: the numbers
    [1, 1 + step, 1 + 2 step, ...] strictly below [total], all of them. *)
Lemma range_members total step l p :
  0 < step -> range 1 total step = OK l ->
  In p l <-> exists k, 0 <= k /\ p = 1 + k * step /\ p < total.
Proof.
  intros Hs. unfold range.
  destruct (Z.eqb_spec step 0); [lia|].
  destruct (Z.ltb_spec 0 step); [|lia].
  intros Hl. injection Hl as Hl. subst l.
  rewrite in_map_iff. split.
  - intros (k & <- & Hk). apply in_seq in Hk.
    exists (Z.of_nat k). split; [lia|]. split; [reflexivity|].
    revert Hk. destruct (Z.ltb_spec 1 total) as [Ht|Ht]; intros Hk;
      [|cbn in Hk; lia].
    assert (Hq : Z.of_nat k <= (total - 1 - 1) / step).
    { assert (0 <= (total - 1 - 1) / step) by (apply Z.div_pos; lia).
      set (q := (total - 1 - 1) / step) in *. clearbody q. lia. }
    pose proof (Z.mul_div_le (total - 1 - 1) step Hs) as Hm.
    assert (Z.of_nat k * step <= (total - 1 - 1) / step * step)
      by (apply Z.mul_le_mono_nonneg_r; lia).
    set (q := (total - 1 - 1) / step) in *. clearbody q.
    change (1 + Z.of_nat k * step < total). lia.
  - intros (k & Hk & -> & Hlt).
    exists (Z.to_nat k). split; [rewrite Z2Nat.id by lia; reflexivity|].
    apply in_seq.
    destruct (Z.ltb_spec 1 total) as [Ht|Ht]; [|nia].
    assert (k <= (total - 1 - 1) / step)
      by (apply Z.div_le_lower_bound; nia).
    set (q := (total - 1 - 1) / step) in *. clearbody q. lia.
Qed.

(** What a first page does to the plan: it stores
    [range(1, total_results, items_per_page)], unless the two numbers are
    equal, when it leaves in place the plan it finds. *)
Lemma first_page_plan api start_index max_results st :
  first_page (self st) = Some true ->
  let (r, st') := get_max_results api start_index max_results st in
  forall resp, r = OK resp ->
    if itemsPerPage resp =? totalResults resp
    then pages (self st') = pages (self st)
    else range 1 (totalResults resp) (itemsPerPage resp)
         = OK (pages (self st')).
Proof.
  destruct st as [g w]. cbn [self]. intros Hfp.
  unfold get_max_results. unfold_monad.
  cbn [self world calls stdout files].
  run_all; intros resp Hr; inversion Hr; subst; cbn in *;
    try congruence;
    repeat match goal with
    | H : (?a =? ?b) = _ |- context [?a =? ?b] => rewrite H
    end; try reflexivity; try congruence.
Qed.

(** On a new object the plan of a first page is the start indices below
    the total, one page apart. *)
Example plan_100_250 :
  pages (self (snd (get_all_results
                      (paged_service sample_headers
                         (fun d => sample_rows "2021-05-01" 250))
                      (fresh (sample_request "2021-05-01" "2021-05-01"
                                (Some 100))))))
  = [1; 101; 201].
Proof. vm_compute. reflexivity. Qed.

Example plan_100_100_on_a_new_object :
  pages (self (snd (get_all_results
                      (paged_service sample_headers
                         (fun d => sample_rows "2021-05-01" 100))
                      (fresh (sample_request "2021-05-01" "2021-05-01"
                                (Some 100))))))
  = [].
Proof. vm_compute. reflexivity. Qed.

Example plan_100_0 :
  pages (self (snd (get_all_results
                      (paged_service sample_headers (fun d => []))
                      (fresh (sample_request "2021-05-01" "2021-05-01"
                                (Some 100))))))
  = [].
Proof. vm_compute. reflexivity. Qed.

(** C3 (the code departs from the claim).  When the first page of a day
    holds the whole day (1000 rows of 1000), the plan is not emptied: it
    stays what the day before left, here the two start indices of a day of
    1500 rows, and the second of them is fetched again. *)
Theorem C3_full_page_keeps_old_plan :
  let api := paged_service sample_headers long_then_full in
  let r := sample_request "2021-05-01" "2021-05-02" (Some 1000) in
  let day1 := snd (fetch_days api ["2021-05-01"%string] Frame.empty (fresh r)) in
  let day2 := snd (fetch_days api ["2021-05-02"%string] Frame.empty day1) in
  pages (self day1) = [1; 1001]
  /\ items_per_page (self day2) = Some 1000
  /\ total_results (self day2) = Some 1000
  /\ pages (self day2) = [1; 1001]
  /\ map query_index (skipn 2 (calls (world day2)))
     = [(Some "2021-05-02"%string, 1); (Some "2021-05-02"%string, 1001)].
Proof. vm_compute. repeat split. Qed.

(** ** Daily batch assembly *)

(** The two-day example: 400 rows in one page, then 1500 rows in two. *)
Example two_days_1900_rows_3_fetches :
  let run :=
    batch_get (paged_service sample_headers two_days) None false
      (fresh (sample_request "2021-05-01" "2021-05-02" (Some 1000))) in
  (exists d, fst run = OK d /\ Frame.size d = 1900)
  /\ map query_index (calls (world (snd run)))
     = [(Some "2021-05-01"%string, 1); (Some "2021-05-02"%string, 1);
        (Some "2021-05-02"%string, 1001)].
Proof.
  cbv zeta. split.
  - eexists. split; [vm_compute; reflexivity | vm_compute; reflexivity].
  - vm_compute. reflexivity.
Qed.

(** C4 (the code departs from the claim).  A day of 201 rows served in
    pages of 100 is planned as the start indices 1 and 101, below the total
    201: rows 1 to 200 are fetched and row 201 never is, so the day returns
    200 rows where the service reports 201. *)
Theorem C4_last_row_of_a_day_is_dropped :
  let run :=
    get_all_results (paged_service sample_headers day_of_201)
      (fresh (sample_request "2021-05-01" "2021-05-01" (Some 100))) in
  (exists d, fst run = OK d /\ Frame.size d = 200)
  /\ total_results (self (snd run)) = Some 201
  /\ items_per_page (self (snd run)) = Some 100
  /\ pages (self (snd run)) = [1; 101]
  /\ map query_index (calls (world (snd run)))
     = [(Some "2021-05-01"%string, 1); (Some "2021-05-01"%string, 101)].
Proof.
  cbv zeta. split.
  - eexists. split; [vm_compute; reflexivity | vm_compute; reflexivity].
  - vm_compute. repeat split.
Qed.

(** ** State across days *)

(** C9 (the code departs from the claim).  The plan of start indices
    crosses day boundaries: a day of 1000 rows in one full page is fetched
    with one query when it is the only day, and with a second query, at
    the start index 1001 left by the day before, when it follows a day of
    1500 rows. *)
Theorem C9_plan_crosses_day_boundary :
  let api := paged_service sample_headers long_then_full in
  let r := sample_request "2021-05-01" "2021-05-02" (Some 1000) in
  let alone :=
    snd (fetch_days api ["2021-05-02"%string] Frame.empty (fresh r)) in
  let after :=
    snd (fetch_days api ["2021-05-01"; "2021-05-02"]%string Frame.empty
           (fresh r)) in
  map query_index (calls (world alone)) = [(Some "2021-05-02"%string, 1)]
  /\ map query_index (calls (world after))
     = [(Some "2021-05-01"%string, 1); (Some "2021-05-01"%string, 1001);
        (Some "2021-05-02"%string, 1); (Some "2021-05-02"%string, 1001)].
Proof. vm_compute. repeat split. Qed.

(** ** Date range driver *)




(** C10.  After a run of [batch_get] that succeeds over a range of one or
    more days, [first_date] and [last_date] are what they were, and
    [start_date] and [end_date] are both the last day of the range. *)
Theorem C10_window_left_on_last_day :
  forall api out summary st a b d st',
    Calendar.strptime (first_date (self st)) = OK a ->
    Calendar.strptime (last_date (self st)) = OK b ->
    Calendar.toordinal a <= Calendar.toordinal b ->
    batch_get api out summary st = (OK d, st') ->
    first_date (self st') = first_date (self st)
    /\ last_date (self st') = last_date (self st)
    /\ start_date (self st') = Some (Calendar.strftime b)
    /\ end_date (self st') = Some (Calendar.strftime b).
Proof.
  intros api out summary st a b d st' Ha Hb Hle Hrun.
  apply batch_get_ok in Hrun.
  destruct Hrun as (dates0 & d1 & st1 & HD & HF & HS & _).
  rewrite (batch_dates_spec _ _ _ _ Ha Hb) in HD.
  inversion HD; subst dates0; clear HD.
  apply fetch_days_ok in HF.
  destruct HF as ((_ & HF1 & HF2) & _ & _ & _ & HW).
  rewrite (days_from_last _ _ _ _ Ha Hb Hle), map_app in HW.
  cbn [map] in HW. rewrite final_window_last in HW.
  pose proof (f_equal fst HW) as H0. pose proof (f_equal snd HW) as H1.
  cbn [fst snd] in H0, H1. rewrite HS. repeat split; assumption.
Qed.

(** The two-day example leaves the window on its second day. *)
Lemma C10_two_day_run :
  Calendar.strptime (first_date (self (fresh two_day_request)))
  = OK (Calendar.mkdate 2021 5 1)
  /\ Calendar.strptime (last_date (self (fresh two_day_request)))
     = OK (Calendar.mkdate 2021 5 2)
  /\ is_ok (fst two_day_run) = true
  /\ start_date (self (snd two_day_run)) = Some "2021-05-02"%string
  /\ end_date (self (snd two_day_run)) = Some "2021-05-02"%string
  /\ first_date (self (snd two_day_run)) = Some "2021-05-01"%string.
Proof.
  assert (Ha : Calendar.strptime (first_date (self (fresh two_day_request)))
               = OK (Calendar.mkdate 2021 5 1)) by (vm_compute; reflexivity).
  assert (Hb : Calendar.strptime (last_date (self (fresh two_day_request)))
               = OK (Calendar.mkdate 2021 5 2)) by (vm_compute; reflexivity).
  assert (Hle : Calendar.toordinal (Calendar.mkdate 2021 5 1)
                <= Calendar.toordinal (Calendar.mkdate 2021 5 2))
    by (vm_compute; discriminate).
  assert (Hrun : batch_get example_service None false (fresh two_day_request)
                 = (OK (frame_or_empty (fst two_day_run)), snd two_day_run))
    by (vm_compute; reflexivity).
  pose proof (C10_window_left_on_last_day
                example_service None false (fresh two_day_request)
                (Calendar.mkdate 2021 5 1) (Calendar.mkdate 2021 5 2)
                (frame_or_empty (fst two_day_run)) (snd two_day_run)
                Ha Hb Hle Hrun)
    as H.
  destruct H as (H1 & _ & H3 & H4).
  split; [exact Ha|]. split; [exact Hb|]. split; [vm_compute; reflexivity|].
  split; [exact H3|]. split; [exact H4|]. rewrite H1. reflexivity.
Defined.

(** ** Sampling detection *)



(** ** Type coercion *)

Lemma astype_cells dtype vals out :
  Frame.astype dtype vals = OK out ->
  Forall2 (fun v o => Frame.astype_cell dtype v = OK o) vals out.
Proof.
  unfold Frame.astype, Frame.astype_cell.
  destruct (Frame.resolve dtype); [|discriminate].
  apply FrameFacts.convert_ok.
Qed.

Lemma to_int_is_int v o : Frame.to_int v = OK o -> Frame.is_int o = true.
Proof.
  unfold Frame.to_int, Frame.int64.
  destruct v as [s|n|f|]; try discriminate.
  - destruct (PyNum.parse_int s); [|discriminate].
    destruct (_ && _); [|discriminate]. intros H. inversion H. reflexivity.
  - destruct (_ && _); [|discriminate]. intros H. inversion H. reflexivity.
  - destruct (PyNum.trunc f); [|discriminate].
    destruct (_ && _); [|discriminate]. intros H. inversion H. reflexivity.
Qed.

Lemma to_float_is_float v o :
  Frame.to_float v = OK o -> Frame.is_float o = true.
Proof.
  unfold Frame.to_float.
  destruct v as [s|n|f|]; try discriminate.
  - destruct (PyNum.parse_float s); [|discriminate].
    intros H. inversion H. reflexivity.
  - destruct (PyNum.float_of_int n); [|discriminate].
    intros H. inversion H. reflexivity.
  - intros H. inversion H. reflexivity.
  - intros H. inversion H. reflexivity.
Qed.

(** C6.  The declared types map to dtypes by the fixed table STRING to
    object (text), INTEGER to int, PERCENT, TIME, CURRENCY and FLOAT to
    float; a coercion that succeeds keeps the columns and turns every cell
    of every column into its conversion under the dtype of the type
    declared at the column's position: an integer for INTEGER, a float for
    the four float types, the cell itself for STRING.  The INTEGER column
    "1", "2", "3" becomes the integers 1, 2, 3 and the PERCENT column
    "12.5" the float 12.5. *)
Theorem C6_coercion_by_declared_type :
  forall st df df' st' types,
    column_types (self st) = Some types ->
    Frame.well_formed df = true ->
    transform_results df st = (OK df', st') ->
    (dict_get conversions "STRING" = Some "object"%string
     /\ dict_get conversions "INTEGER" = Some "int"%string
     /\ dict_get conversions "PERCENT" = Some "float"%string
     /\ dict_get conversions "TIME" = Some "float"%string
     /\ dict_get conversions "CURRENCY" = Some "float"%string
     /\ dict_get conversions "FLOAT" = Some "float"%string)
    /\ Frame.columns df' = Frame.columns df
    /\ (forall j label,
          nth_error (Frame.columns df) j = Some label ->
          exists t,
            nth_error types j = Some t
            /\ Forall2
                 (fun v o =>
                    Frame.astype_cell (dict_get conversions t) v = OK o)
                 (Frame.column_values j df) (Frame.column_values j df'))
    /\ (forall v, Frame.astype_cell (dict_get conversions "STRING") v = OK v)
    /\ (forall v o,
          Frame.astype_cell (dict_get conversions "INTEGER") v = OK o ->
          Frame.is_int o = true)
    /\ (forall t v o,
          In t ["PERCENT"; "TIME"; "CURRENCY"; "FLOAT"]%string ->
          Frame.astype_cell (dict_get conversions t) v = OK o ->
          Frame.is_float o = true)
    /\ transform_results counts (typed ["INTEGER"%string])
       = (OK (Frame.mkframe ["sessions"%string]
                [ [Frame.VInt 1]; [Frame.VInt 2]; [Frame.VInt 3] ]),
          typed ["INTEGER"%string])
    /\ transform_results rates (typed ["PERCENT"%string])
       = (OK (Frame.mkframe ["bounceRate"%string] [ [Frame.VFloat float_12_5] ]),
          typed ["PERCENT"%string])
    /\ float_12_5
       = SFdiv PyNum.prec PyNum.emax (PyNum.float_of_Z 25) (PyNum.float_of_Z 2).
Proof.
  intros st df df' st' types HT WF H.
  assert (ND : NoDup (Frame.columns df)).
  { apply FrameFacts.well_formed_iff in WF. destruct WF as [WF _].
    apply FrameFacts.nodupb_NoDup. exact WF. }
  unfold transform_results in H.
  destruct (FrameFacts.transform_columns_ok _ _ _ _ _ _ HT WF ND H)
    as (C & _ & P).
  split; [repeat split|].
  split; [exact C|].
  split.
  { intros j label Hj. destruct (P j label Hj) as [P1 _].
    destruct (P1 (nth_error_In _ _ Hj)) as (t & Ht & A).
    exists t. split; [exact Ht | apply astype_cells; exact A]. }
  split; [intros v; reflexivity|].
  split; [intros v o; apply to_int_is_int|].
  split.
  { intros t v o Ht.
    cbn in Ht. destruct Ht as [<- | [<- | [<- | [<- | []]]]];
      apply to_float_is_float. }
  split; [vm_compute; reflexivity|].
  split; vm_compute; reflexivity.
Qed.

(** The INTEGER column of the claim, coerced. *)
Lemma C6_counts_coerced :
  column_types (self (typed ["INTEGER"%string])) = Some ["INTEGER"%string]
  /\ Frame.well_formed counts = true
  /\ Frame.column_values 0
       (frame_or_empty (fst (transform_results counts (typed ["INTEGER"%string]))))
     = [Frame.VInt 1; Frame.VInt 2; Frame.VInt 3].
Proof.
  assert (HT : column_types (self (typed ["INTEGER"%string]))
               = Some ["INTEGER"%string]) by reflexivity.
  assert (WF : Frame.well_formed counts = true) by reflexivity.
  assert (H : transform_results counts (typed ["INTEGER"%string])
              = (OK (frame_or_empty
                       (fst (transform_results counts
                               (typed ["INTEGER"%string])))),
                 typed ["INTEGER"%string])) by (vm_compute; reflexivity).
  pose proof (C6_coercion_by_declared_type (typed ["INTEGER"%string]) counts
                _ _ ["INTEGER"%string] HT WF H) as T.
  destruct T as (_ & _ & T & _).
  split; [exact HT|]. split; [exact WF|].
  destruct (T 0%nat "sessions"%string eq_refl) as (t & Ht & F).
  vm_compute. reflexivity.
Defined.







(** * Further properties of the code *)

(** ** Page fetch *)

Section FetchMore.

Variable api : ApiCall -> Result Response.

(** A first page that the service answers: the metadata it stores, the
    plan it computes, and the one progress line it prints. *)
Lemma first_page_run start_index max_results st resp :
  accepted max_results ->
  first_page (self st) = Some true ->
  api (query (self st) start_index) = OK resp ->
  let (r, st') := get_max_results api start_index max_results st in
  first_page (self st') = Some false
  /\ items_per_page (self st') = Some (itemsPerPage resp)
  /\ total_results (self st') = Some (totalResults resp)
  /\ (if itemsPerPage resp =? totalResults resp
      then r = OK resp /\ pages (self st') = pages (self st)
      else match range 1 (totalResults resp) (itemsPerPage resp) with
           | OK p => r = OK resp /\ pages (self st') = p
           | Raise e => r = Raise e /\ pages (self st') = pages (self st)
           end)
  /\ (r = OK resp ->
      stdout (world st')
      = stdout (world st) ++ rounded max_results
        ++ [MsgRetrieved start_index
              (Z.min (start_index + itemsPerPage resp - 1) (totalResults resp))
              (totalResults resp)]).
Proof.
  destruct st as [g w]. cbn [self world]. intros Hm Hfp Hapi.
  unfold get_max_results, rounded. unfold_monad.
  cbn [self world calls stdout files].
  run_all.
  all: cbn in *.
  all: repeat match goal with
       | H : context [query (set_service ?v ?g') ?s] |- _ =>
           change (query (set_service v g') s) with (query g' s) in H
       end.
  all: try congruence.
  all: try (exfalso; unfold accepted in Hm; lia).
  all: match goal with
       | H : api _ = OK ?a |- _ =>
           assert (a = resp) by congruence; subst a
       end.
  all: repeat match goal with
       | H : Some ?x = Some ?y |- _ =>
           assert (x = y) by congruence; clear H; try subst x; try subst y
       end.
  all: repeat match goal with
       | H : (?a =? ?b) = _ |- context [?a =? ?b] => rewrite H
       | H : range _ _ _ = _ |- context [range _ _ _] => rewrite H
       end.
  all: repeat split; try reflexivity; try congruence.
  all: intros _; rewrite <- ?app_assoc; reflexivity.
Qed.

(** A following page that the service answers: plan and metadata stay,
    and the progress line is computed from the stored metadata. *)
Lemma next_page_run start_index max_results st resp i t :
  accepted max_results ->
  first_page (self st) = Some false ->
  items_per_page (self st) = Some i ->
  total_results (self st) = Some t ->
  api (query (self st) start_index) = OK resp ->
  let (r, st') := get_max_results api start_index max_results st in
  r = OK resp
  /\ pages (self st') = pages (self st)
  /\ first_page (self st') = Some false
  /\ items_per_page (self st') = Some i
  /\ total_results (self st') = Some t
  /\ stdout (world st')
     = stdout (world st) ++ rounded max_results
       ++ [MsgRetrieved start_index (Z.min (start_index + i - 1) t) t].
Proof.
  destruct st as [g w]. cbn [self world]. intros Hm Hfp Hi Ht Hapi.
  unfold get_max_results, rounded. unfold_monad.
  cbn [self world calls stdout files].
  run_all.
  all: cbn in *.
  all: repeat match goal with
       | H : context [query (set_service ?v ?g') ?s] |- _ =>
           change (query (set_service v g') s) with (query g' s) in H
       end.
  all: try congruence.
  all: try (exfalso; unfold accepted in Hm; lia).
  all: match goal with
       | H : api _ = OK ?a |- _ =>
           assert (a = resp) by congruence; subst a
       end.
  all: repeat match goal with
       | H : Some ?x = Some ?y |- _ =>
           tryif constr_eq x y then fail
           else (assert (x = y) by congruence; clear H; subst x)
       | H1 : ?f = Some ?x, H2 : ?f = Some ?y |- _ =>
           tryif constr_eq x y then fail
           else (assert (y = x) by congruence; subst y)
       end.
  all: repeat split; try reflexivity; try congruence.
  all: rewrite <- ?app_assoc; reflexivity.
Qed.

(** X1.  A negative page size is rejected with the error of the code
    before anything else happens: no query is sent, nothing is printed and
    the object is as it was. *)
Theorem X1_negative_size_rejected_first :
  forall start_index m st,
    m < 0 ->
    get_max_results api start_index (Some m) st
    = (Raise (ValueError "Argument max_value has to be larger than zero."),
       st).
Proof.
  intros start_index m st H. unfold get_max_results.
  destruct (Z.ltb_spec m 0); [reflexivity | lia].
Qed.

(** X2.  Beyond rejection and the rounding line, the page size given to a
    fetch has no effect: two sizes from 0 to 10000, or no size at all,
    give the same result, the same object and the same world; a size
    above 10000 gives what [None] gives after one more printed line. *)
Theorem X2_size_argument_is_otherwise_unused :
  forall start_index m st,
    0 <= m ->
    (m <= 10000 ->
     get_max_results api start_index (Some m) st
     = get_max_results api start_index None st)
    /\ (10000 < m ->
        get_max_results api start_index (Some m) st
        = get_max_results api start_index None
            (mkstate (self st)
               (mkworld (calls (world st))
                  (stdout (world st) ++ [MsgRoundedDown])
                  (files (world st))))).
Proof.
  intros start_index m st Hm. unfold get_max_results.
  destruct (Z.ltb_spec m 0); [lia|].
  change (1000 <? 0) with false. change (10000 <? 1000) with false.
  split; intros H'.
  - destruct (Z.ltb_spec 10000 m); [lia|]. reflexivity.
  - destruct (Z.ltb_spec 10000 m); [|lia]. reflexivity.
Qed.

(** X3.  A fetch on an object on which no day was started has no
    [first_page] attribute: it fails with an [AttributeError], but only
    after the query was sent to the service. *)
Theorem X3_fetch_before_any_day :
  forall start_index max_results st resp,
    accepted max_results ->
    first_page (self st) = None ->
    api (query (self st) start_index) = OK resp ->
    fst (get_max_results api start_index max_results st)
    = Raise (AttributeError
               "'GoogleAnalytics' object has no attribute 'first_page'")
    /\ calls (world (snd (get_max_results api start_index max_results st)))
       = calls (world st) ++ [query (self st) start_index].
Proof.
  intros start_index max_results [g w] resp Hm Hfp Hapi. cbn [self world] in *.
  unfold get_max_results. unfold_monad.
  cbn [self world calls stdout files].
  run_all.
  all: cbn in *.
  all: repeat match goal with
       | H : context [query (set_service ?v ?g') ?s] |- _ =>
           change (query (set_service v g') s) with (query g' s) in H
       end.
  all: try congruence.
  all: try (exfalso; unfold accepted in Hm; lia).
  all: split; reflexivity.
Qed.

(** X4.  A page after the first leaves the plan and the stored page
    metadata alone, whatever its own response says, and its progress line
    ends at [min(start_index + items_per_page - 1, total_results)] of the
    stored metadata, never beyond the stored total. *)
Theorem X4_following_page_keeps_plan :
  forall start_index max_results st resp i t st',
    accepted max_results ->
    first_page (self st) = Some false ->
    items_per_page (self st) = Some i ->
    total_results (self st) = Some t ->
    api (query (self st) start_index) = OK resp ->
    snd (get_max_results api start_index max_results st) = st' ->
    fst (get_max_results api start_index max_results st) = OK resp
    /\ pages (self st') = pages (self st)
    /\ items_per_page (self st') = Some i
    /\ total_results (self st') = Some t
    /\ exists last_index,
         stdout (world st')
         = stdout (world st) ++ rounded max_results
           ++ [MsgRetrieved start_index last_index t]
         /\ last_index = Z.min (start_index + i - 1) t
         /\ last_index <= t.
Proof.
  intros start_index max_results st resp i t st' Hm Hfp Hi Ht Hapi Hst.
  pose proof (next_page_run start_index max_results st resp i t
                Hm Hfp Hi Ht Hapi) as H.
  destruct (get_max_results api start_index max_results st) as [r s1].
  cbn in Hst. subst s1.
  destruct H as (Hr & Hp & _ & Hi' & Ht' & Ho).
  repeat split; try assumption.
  exists (Z.min (start_index + i - 1) t).
  repeat split; [exact Ho | lia].
Qed.

(** X5.  A first page that the service answers with a positive
    [itemsPerPage] different from [totalResults] stores both numbers and
    plans the start indices [1, 1 + itemsPerPage, ...] strictly below
    [totalResults], all of them and nothing else. *)
Theorem X5_first_page_plan :
  forall start_index max_results st resp st',
    accepted max_results ->
    first_page (self st) = Some true ->
    api (query (self st) start_index) = OK resp ->
    0 < itemsPerPage resp ->
    itemsPerPage resp <> totalResults resp ->
    snd (get_max_results api start_index max_results st) = st' ->
    fst (get_max_results api start_index max_results st) = OK resp
    /\ first_page (self st') = Some false
    /\ items_per_page (self st') = Some (itemsPerPage resp)
    /\ total_results (self st') = Some (totalResults resp)
    /\ forall p,
         In p (pages (self st'))
         <-> exists k, 0 <= k /\ p = 1 + k * itemsPerPage resp
                       /\ p < totalResults resp.
Proof.
  intros start_index max_results st resp st' Hm Hfp Hapi Hpos Hne Hst.
  pose proof (first_page_run start_index max_results st resp Hm Hfp Hapi)
    as H.
  destruct (get_max_results api start_index max_results st) as [r s1].
  cbn in Hst. subst s1.
  destruct H as (F & I & T & P & _).
  destruct (Z.eqb_spec (itemsPerPage resp) (totalResults resp)); [contradiction|].
  destruct (range 1 (totalResults resp) (itemsPerPage resp)) as [pl|e] eqn:ER.
  - destruct P as [Hr Hp]. repeat split; try assumption.
    + intros Hin. rewrite Hp in Hin.
      apply (range_members _ _ _ p Hpos ER). exact Hin.
    + intros Hk. rewrite Hp.
      apply (range_members _ _ _ p Hpos ER). exact Hk.
  - exfalso. unfold range in ER.
    destruct (Z.eqb_spec (itemsPerPage resp) 0); [lia | discriminate].
Qed.

(** X6.  A first page that reports [itemsPerPage] zero and a total that
    is not zero stops the fetch with the [ValueError] of [range]: the
    query was sent and the metadata stored, the plan is untouched and no
    progress line is printed. *)
Theorem X6_zero_items_per_page :
  forall start_index max_results st resp st',
    accepted max_results ->
    first_page (self st) = Some true ->
    api (query (self st) start_index) = OK resp ->
    itemsPerPage resp = 0 ->
    totalResults resp <> 0 ->
    snd (get_max_results api start_index max_results st) = st' ->
    fst (get_max_results api start_index max_results st)
    = Raise (ValueError "range() arg 3 must not be zero")
    /\ items_per_page (self st') = Some 0
    /\ total_results (self st') = Some (totalResults resp)
    /\ pages (self st') = pages (self st)
    /\ calls (world st') = calls (world st) ++ [query (self st) start_index]
    /\ stdout (world st') = stdout (world st) ++ rounded max_results.
Proof.
  intros start_index max_results [g w] resp st' Hm Hfp Hapi Hz Hne Hst.
  cbn [self world] in *. subst st'.
  unfold get_max_results, rounded. unfold_monad.
  cbn [self world calls stdout files].
  run_all.
  all: cbn in *.
  all: repeat match goal with
       | H : context [query (set_service ?v ?g') ?s] |- _ =>
           change (query (set_service v g') s) with (query g' s) in H
       end.
  all: try congruence.
  all: try (exfalso; unfold accepted in Hm; lia).
  all: match goal with
       | H : api _ = OK ?a |- _ =>
           assert (a = resp) by congruence; subst a
       end.
  all: try (exfalso;
            match goal with
            | H : (_ =? _) = true |- _ => apply Z.eqb_eq in H; lia
            end).
  all: try (exfalso;
            match goal with
            | H : range _ _ _ = OK _ |- _ =>
                unfold range in H; rewrite Hz in H; discriminate H
            end).
  all: match goal with
       | H : range _ _ _ = Raise ?e |- _ =>
           unfold range in H; rewrite Hz in H; cbn in H;
           inversion H; subst e
       end.
  all: rewrite ?Hz; repeat split; rewrite ?app_nil_r; reflexivity.
Qed.

End FetchMore.

(** ** A day *)

Lemma query_same g g' s :
  request g' = request g -> start_date g' = start_date g ->
  end_date g' = end_date g -> query g' s = query g s.
Proof. intros R S E. unfold query. rewrite R, S, E. reflexivity. Qed.

Lemma query_of_request g s : of_request (request g) (query g s).
Proof. unfold of_request. cbn. repeat split. Qed.

Lemma pad_length n : forall row,
  (List.length row <= n)%nat -> List.length (Frame.pad n row) = n.
Proof.
  induction n as [|n IH]; intros row Hle.
  - destruct row; [reflexivity | cbn in Hle; lia].
  - destruct row as [|v row]; cbn.
    + rewrite IH; [reflexivity | cbn; lia].
    + rewrite IH; [reflexivity | cbn in Hle; lia].
Qed.

Lemma widest_bound (rs : list (list string)) x :
  In x rs -> (List.length x <= Frame.widest rs)%nat.
Proof.
  induction rs as [|y ys IH]; [intros []|].
  change (Frame.widest (y :: ys))
    with (Nat.max (List.length y) (Frame.widest ys)).
  intros [-> | Hin]; [lia|]. specialize (IH Hin). lia.
Qed.

(** The frame built from gathered rows has the given labels, one row per
    gathered row, and every row as wide as the labels. *)
Lemma DataFrame_of_shape gathered names d :
  Frame.DataFrame_of gathered names = OK d ->
  Frame.columns d = names
  /\ List.length (Frame.data d)
     = List.length (match gathered with Some l => l | None => [] end)
  /\ Forall (fun row => List.length row = List.length names) (Frame.data d).
Proof.
  assert (Hrows : forall rs,
            Frame.widest rs = List.length names ->
            Forall (fun row => List.length row = List.length names)
              (map (fun r => Frame.pad (Frame.widest rs) (map Frame.VStr r))
                 rs)).
  { intros rs E. apply Forall_forall. intros row Hrow.
    apply in_map_iff in Hrow. destruct Hrow as (x & <- & Hx).
    rewrite <- E. apply pad_length. rewrite length_map.
    apply widest_bound. exact Hx. }
  unfold Frame.DataFrame_of.
  destruct gathered as [[|r l]|].
  - intros H. assert (d = Frame.mkframe names []) by congruence. subst d.
    cbn. repeat split. constructor.
  - destruct (Nat.eqb_spec (Frame.widest (r :: l)) (List.length names))
      as [E|E]; [|discriminate].
    intros H.
    assert (d = Frame.mkframe names
                  (map (fun r0 => Frame.pad (Frame.widest (r :: l))
                                    (map Frame.VStr r0)) (r :: l)))
      by congruence.
    subst d. cbn [Frame.columns Frame.data].
    split; [reflexivity|]. split; [apply length_map|].
    apply Hrows. exact E.
  - intros H. assert (d = Frame.mkframe names []) by congruence. subst d.
    cbn. repeat split. constructor.
Qed.

Section DayMore.

Variable api : ApiCall -> Result Response.

(** A page that is served after the first of its day. *)
Lemma following_page_served start_index max_results st :
  first_page (self st) = Some false ->
  let (r, st') := get_max_results api start_index max_results st in
  forall resp, r = OK resp ->
    pages (self st') = pages (self st)
    /\ first_page (self st') = Some false
    /\ items_per_page (self st') = items_per_page (self st)
    /\ total_results (self st') = total_results (self st)
    /\ calls (world st') = calls (world st) ++ [query (self st) start_index].
Proof.
  destruct st as [g w]. cbn [self world]. intros Hfp.
  unfold get_max_results. unfold_monad.
  cbn [self world calls stdout files].
  run_all; intros resp Hr; try discriminate Hr; cbn in *; try congruence.
  all: repeat split; solve [reflexivity | assumption | congruence].
Qed.

(** The remaining pages of a day, when all are served: one query per
    planned start index, in order, and the plan is not touched. *)
Lemma extend_pages_ok ps : forall acc st out st',
  first_page (self st) = Some false ->
  extend_pages api ps acc st = (OK out, st') ->
  calls (world st') = calls (world st) ++ map (query (self st)) ps
  /\ pages (self st') = pages (self st)
  /\ items_per_page (self st') = items_per_page (self st)
  /\ total_results (self st') = total_results (self st).
Proof.
  induction ps as [|p ps IH]; intros acc st out st' Hfp H.
  - cbn in H. inversion H; subst. cbn. rewrite app_nil_r. repeat split.
  - cbn [extend_pages] in H. destruct acc as [l|]; [|discriminate].
    rewrite bind_get_self in H.
    pose proof (following_page_served p (r_max_results (request (self st)))
                  st Hfp) as F.
    pose proof (get_max_results_spec api p (r_max_results (request (self st)))
                  st) as S.
    destruct (get_max_results api p _ st) as [r1 st1] eqn:E1.
    rewrite (bind_run _ _ _ _ _ E1) in H.
    destruct r1 as [resp|e]; [|discriminate].
    destruct (F resp eq_refl) as (P1 & F1 & I1 & T1 & C1).
    destruct S as ((R1 & _) & (W1 & W1') & _).
    destruct (rows resp) as [more|]; [|discriminate].
    destruct (IH _ _ _ _ F1 H) as (C2 & P2 & I2 & T2).
    repeat split; try congruence.
    rewrite C2, C1, <- app_assoc. cbn [map app]. f_equal. f_equal.
    apply map_ext. intros s. apply query_same; assumption.
Qed.

(** A day that succeeds, in full: the first page was served, the schema
    and the frame come from it, and the queries are those of the plan. *)
Lemma get_all_results_day st d st' :
  get_all_results api st = (OK d, st') ->
  exists resp gathered,
    api (query (self st) 1) = OK resp
    /\ calls (world st')
       = calls (world st) ++ map (query (self st)) (1 :: tl (pages (self st')))
    /\ items_per_page (self st') = Some (itemsPerPage resp)
    /\ total_results (self st') = Some (totalResults resp)
    /\ column_names (self st') = Some (names_of (columnHeaders resp))
    /\ column_types (self st') = Some (map dataType (columnHeaders resp))
    /\ df (self st') = Some d
    /\ Frame.DataFrame_of gathered (names_of (columnHeaders resp)) = OK d.
Proof.
  unfold get_all_results. rewrite bind_assign, bind_get_self.
  set (st0 := mkstate (set_first_page (Some true) (self st)) (world st)).
  set (mr := r_max_results (request (self st0))).
  pose proof (get_max_results_spec api 1 mr st0) as S1.
  assert (Hacc : forall r s, get_max_results api 1 mr st0 = (OK r, s) ->
                             accepted mr).
  { intros r s E. unfold accepted. destruct mr as [m|]; [|exact I].
    destruct (Z.ltb_spec m 0) as [Hneg|]; [|assumption].
    rewrite (get_max_results_negative api 1 m st0 Hneg) in E.
    discriminate. }
  destruct (get_max_results api 1 mr st0) as [r1 st1] eqn:E1.
  rewrite (bind_run _ _ _ _ _ E1).
  destruct S1 as ((R1 & _) & (W1 & W1') & _ & _ & _ & _ & _ & C1).
  destruct r1 as [resp|e]; [|discriminate].
  destruct C1 as [[_ C1] | [C1 A1]]; [discriminate|].
  specialize (A1 resp eq_refl).
  pose proof (first_page_run api 1 mr st0 resp (Hacc _ _ eq_refl) eq_refl A1)
    as F. rewrite E1 in F. destruct F as (F1 & I1 & T1 & _).
  pose proof (check_sampling_spec resp st1) as H2.
  destruct (check_sampling resp st1) as [r2 st2] eqn:E2.
  rewrite (bind_run _ _ _ _ _ E2).
  destruct H2 as (S2 & C2 & _).
  destruct r2 as [[]|e]; [|discriminate].
  rewrite !bind_assign, bind_get_self. cbn [self world].
  set (g3 := set_column_types _ _).
  set (st3 := mkstate g3 (world st2)).
  assert (F3 : first_page (self st3) = Some false).
  { subst st3 g3. cbn. rewrite S2. exact F1. }
  destruct (extend_pages api (tl (pages g3)) (rows resp) st3)
    as [r3 st4] eqn:E3.
  rewrite (bind_run _ _ _ _ _ E3).
  destruct r3 as [gathered|e]; [|discriminate].
  destruct (extend_pages_ok _ _ _ _ _ F3 E3) as (C3 & P3 & I3 & T3).
  pose proof (extend_pages_spec api (tl (pages g3)) (rows resp) st3) as S3.
  rewrite E3 in S3. destruct S3 as (_ & _ & CN3 & CT3 & _).
  rewrite (bind_attr _ _ _ _ _ CN3). rewrite bind_lift.
  destruct (Frame.DataFrame_of _ _) as [d'|e] eqn:ED; [|discriminate].
  rewrite bind_assign. unfold ret. intros H. inversion H; subst d' st'; clear H.
  exists resp, gathered. cbn [self world].
  subst st3 g3. cbn in *. rewrite S2 in *.
  repeat split; try congruence.
  - exact A1.
  - rewrite C3, C2, C1, P3, <- app_assoc. cbn [map app]. f_equal. f_equal.
    apply map_ext. intros s. apply query_same; cbn; assumption.
  - exact CN3.
  - exact ED.
Qed.

(** X7.  After a day that succeeds, the object's column names and types
    are those of the headers of the day's first page (names with [ga:]
    removed), its [df] is the frame returned, and that frame has these
    names as labels and every row as wide as the labels. *)
Theorem X7_schema_of_a_day :
  forall st d st',
    get_all_results api st = (OK d, st') ->
    exists resp,
      api (query (self st) 1) = OK resp
      /\ column_names (self st') = Some (names_of (columnHeaders resp))
      /\ column_types (self st') = Some (map dataType (columnHeaders resp))
      /\ df (self st') = Some d
      /\ Frame.columns d = names_of (columnHeaders resp)
      /\ Forall (fun row => List.length row
                            = List.length (columnHeaders resp))
           (Frame.data d).
Proof.
  intros st d st' H. apply get_all_results_day in H.
  destruct H as (resp & gathered & A & _ & _ & _ & CN & CT & D & F).
  exists resp. destruct (DataFrame_of_shape _ _ _ F) as (C & _ & W).
  repeat split; try assumption.
  unfold names_of in W. rewrite length_map in W. exact W.
Qed.

(** X8.  A day that succeeds queried the service for start index 1 and
    then for each start index of the stored plan but its first, in that
    order and nothing else; every query has the window of the object and
    the parameters of the request, and the stored page metadata is that of
    the first page. *)
Theorem X8_queries_of_a_day :
  forall st d st',
    get_all_results api st = (OK d, st') ->
    exists resp qs,
      api (query (self st) 1) = OK resp
      /\ calls (world st') = calls (world st) ++ qs
      /\ start_indices qs = 1 :: tl (pages (self st'))
      /\ Forall (fun q => window q = (start_date (self st), end_date (self st))
                          /\ of_request (request (self st)) q) qs
      /\ items_per_page (self st') = Some (itemsPerPage resp)
      /\ total_results (self st') = Some (totalResults resp).
Proof.
  intros st d st' H. apply get_all_results_day in H.
  destruct H as (resp & gathered & A & C & I & T & _).
  exists resp, (map (query (self st)) (1 :: tl (pages (self st')))).
  repeat split; try assumption.
  - unfold start_indices. rewrite map_map. cbn [q_start_index query].
    apply map_id.
  - apply Forall_forall. intros q Hq. apply in_map_iff in Hq.
    destruct Hq as (s & <- & _). split; [reflexivity|].
    apply query_of_request.
Qed.

End DayMore.

(** ** Edges of a day *)

Section DayEdges.

Variable api : ApiCall -> Result Response.

(** A first page that the service answers and whose plan can be
    computed. *)
Lemma first_page_served start_index max_results st resp :
  accepted max_results ->
  first_page (self st) = Some true ->
  api (query (self st) start_index) = OK resp ->
  (itemsPerPage resp = totalResults resp \/ itemsPerPage resp <> 0) ->
  exists st1,
    get_max_results api start_index max_results st = (OK resp, st1)
    /\ calls (world st1) = calls (world st) ++ [query (self st) start_index]
    /\ files (world st1) = files (world st)
    /\ column_names (self st1) = column_names (self st)
    /\ column_types (self st1) = column_types (self st)
    /\ df (self st1) = df (self st)
    /\ same_setup (self st) (self st1)
    /\ first_page (self st1) = Some false
    /\ (itemsPerPage resp <> totalResults resp ->
        range 1 (totalResults resp) (itemsPerPage resp) = OK (pages (self st1))).
Proof.
  intros Hm Hfp Hapi Hplan.
  pose proof (first_page_run api start_index max_results st resp Hm Hfp Hapi)
    as F.
  pose proof (get_max_results_spec api start_index max_results st) as S.
  destruct (get_max_results api start_index max_results st) as [r st1].
  destruct F as (F1 & _ & _ & P & _).
  destruct S as (R1 & _ & CN & CT & D & Fi & _ & C).
  assert (Hr : r = OK resp
               /\ (itemsPerPage resp <> totalResults resp ->
                   range 1 (totalResults resp) (itemsPerPage resp)
                   = OK (pages (self st1)))).
  { destruct (Z.eqb_spec (itemsPerPage resp) (totalResults resp)) as [E|E].
    - destruct P as [P _]. split; [exact P | contradiction].
    - destruct Hplan as [Hplan|Hplan]; [contradiction|].
      unfold range in *.
      destruct (Z.eqb_spec (itemsPerPage resp) 0); [contradiction|].
      destruct P as [P1 P2]. split; [exact P1|]. intros _. rewrite P2.
      reflexivity. }
  destruct Hr as [-> Hp].
  exists st1. split; [reflexivity|].
  destruct C as [[_ C] | [C _]]; [discriminate|].
  repeat split; try assumption; apply R1.
Qed.

(** X9.  A day whose first page says it is sampled and reports a sample
    space of zero fails with [ZeroDivisionError], after its one query and
    before the column names, the column types or the frame are assigned. *)
Theorem X9_sampled_with_empty_space :
  forall st resp size fsize st',
    accepted (r_max_results (request (self st))) ->
    api (query (self st) 1) = OK resp ->
    (itemsPerPage resp = totalResults resp \/ itemsPerPage resp <> 0) ->
    containsSampledData resp = true ->
    sampleSize resp = Some size ->
    PyNum.float_of_int size = OK fsize ->
    sampleSpace resp = Some 0 ->
    snd (get_all_results api st) = st' ->
    fst (get_all_results api st)
    = Raise (ZeroDivisionError "float division by zero")
    /\ calls (world st') = calls (world st) ++ [query (self st) 1]
    /\ sampling_warnings (stdout (world st'))
       = sampling_warnings (stdout (world st))
    /\ column_names (self st') = column_names (self st)
    /\ column_types (self st') = column_types (self st)
    /\ df (self st') = df (self st).
Proof.
  intros st resp size fsize st' Hm Hapi Hplan Hs Hsize Hf Hspace Hst.
  destruct (first_page_served 1 (r_max_results (request (self st)))
              (mkstate (set_first_page (Some true) (self st)) (world st))
              resp Hm eq_refl Hapi Hplan)
    as (st1 & E1 & C1 & _ & CN & CT & D & _).
  pose proof (get_max_results_spec api 1 (r_max_results (request (self st)))
                (mkstate (set_first_page (Some true) (self st)) (world st)))
    as S.
  rewrite E1 in S. destruct S as (_ & _ & _ & _ & _ & _ & (ms & O1 & P1) & _).
  subst st'. unfold get_all_results.
  rewrite bind_assign, bind_get_self. cbn [self world].
  rewrite (bind_run _ _ _ _ _ E1).
  assert (E2 : check_sampling resp st1
               = (Raise (ZeroDivisionError "float division by zero"), st1)).
  { unfold check_sampling. rewrite Hs, Hsize, Hspace.
    rewrite !bind_lift, Hf. reflexivity. }
  rewrite (bind_run _ _ _ _ _ E2). cbn [fst snd].
  repeat split; try assumption.
  cbn [world stdout] in O1. rewrite O1, sampling_warnings_app.
  rewrite (sampling_warnings_progress _ P1). apply app_nil_r.
Qed.

(** X10.  A day for which the service reports no results and sends no
    [rows] gives the empty frame labelled with the column names, after one
    query; the plan stored is empty. *)
Theorem X10_day_without_rows :
  forall st resp st',
    accepted (r_max_results (request (self st))) ->
    api (query (self st) 1) = OK resp ->
    0 < itemsPerPage resp ->
    totalResults resp = 0 ->
    containsSampledData resp = false ->
    rows resp = None ->
    snd (get_all_results api st) = st' ->
    fst (get_all_results api st)
    = OK (Frame.mkframe (names_of (columnHeaders resp)) [])
    /\ calls (world st') = calls (world st) ++ [query (self st) 1]
    /\ pages (self st') = []
    /\ df (self st') = Some (Frame.mkframe (names_of (columnHeaders resp)) []).
Proof.
  intros st resp st' Hm Hapi Hpos Htot Hs Hrows Hst.
  assert (Hplan : itemsPerPage resp = totalResults resp
                  \/ itemsPerPage resp <> 0) by (right; lia).
  destruct (first_page_served 1 (r_max_results (request (self st)))
              (mkstate (set_first_page (Some true) (self st)) (world st))
              resp Hm eq_refl Hapi Hplan)
    as (st1 & E1 & C1 & _ & _ & _ & _ & _ & _ & P1).
  assert (Hp : pages (self st1) = []).
  { assert (Hne : itemsPerPage resp <> totalResults resp) by lia.
    specialize (P1 Hne). unfold range in P1. rewrite Htot in P1.
    destruct (Z.eqb_spec (itemsPerPage resp) 0); [lia|].
    destruct (Z.ltb_spec 0 (itemsPerPage resp)); [|lia].
    cbn in P1. congruence. }
  assert (E : get_all_results api st
              = (OK (Frame.mkframe (names_of (columnHeaders resp)) []),
                 mkstate
                   (set_df
                      (Some (Frame.mkframe (names_of (columnHeaders resp)) []))
                      (set_column_types
                         (Some (map dataType (columnHeaders resp)))
                         (set_column_names
                            (Some (names_of (columnHeaders resp)))
                            (self st1))))
                   (world st1))).
  { unfold get_all_results.
    rewrite bind_assign, bind_get_self. cbn [self world].
    rewrite (bind_run _ _ _ _ _ E1).
    unfold check_sampling. rewrite Hs.
    unfold ret at 1. unfold bind at 1.
    rewrite !bind_assign, bind_get_self.
    cbn [self world pages set_column_types set_column_names].
    rewrite Hp, Hrows. cbn [tl extend_pages].
    unfold ret at 1. unfold bind at 1.
    unfold attr, bind at 1.
    cbn [self column_names set_column_types set_column_names].
    rewrite bind_lift. cbn [Frame.DataFrame_of].
    rewrite bind_assign. reflexivity. }
  subst st'. rewrite E. cbn.
  repeat split; assumption.
Qed.

(** X21.  On a newly constructed object, [__next__] followed by a fetch
    that the service answers succeeds as a first page: its one query asks
    for the first date of the request alone, and the range of the run is
    what the request says. *)
Theorem X21_next_prepares_a_new_object :
  forall r start_index max_results resp st',
    accepted max_results ->
    api (query (init r) start_index) = OK resp ->
    (itemsPerPage resp = totalResults resp \/ itemsPerPage resp <> 0) ->
    snd (bind next (fun _ => get_max_results api start_index max_results)
           (fresh r)) = st' ->
    fst (bind next (fun _ => get_max_results api start_index max_results)
           (fresh r)) = OK resp
    /\ (exists q,
          calls (world st') = [q]
          /\ window q = (r_start_date r, r_start_date r)
          /\ of_request r q /\ q_start_index q = start_index)
    /\ first_page (self st') = Some false
    /\ first_date (self st') = r_start_date r
    /\ last_date (self st') = r_end_date r.
Proof.
  intros r start_index max_results resp st' Hm Hapi Hplan Hst.
  unfold next in *. rewrite bind_assign in *. cbn [self world fresh] in *.
  destruct (first_page_served start_index max_results
              (mkstate (set_first_page (Some true) (init r)) no_world)
              resp Hm eq_refl Hapi Hplan)
    as (st1 & E1 & C1 & _ & _ & _ & _ & (_ & S1 & S2) & F1 & _).
  rewrite E1 in *. cbn [fst snd] in *. subst st'.
  split; [reflexivity|]. split.
  - exists (query (init r) start_index). split; [exact C1|].
    split; [reflexivity|]. split; [apply (query_of_request (init r))|].
    reflexivity.
  - split; [exact F1|]. split; [exact S1 | exact S2].
Qed.

End DayEdges.

(** ** Column names *)

Lemma remove_ga_colon_free (s : list ascii) :
  forallb (fun c => negb (Ascii.eqb c ":")) s = true -> remove_ga s = s.
Proof.
  induction s as [|c1 s1 IH]; [reflexivity|].
  intros H. cbn [forallb] in H. apply andb_true_iff in H.
  destruct H as [_ H]. specialize (IH H).
  destruct s1 as [|c2 [|c3 s3]].
  - reflexivity.
  - reflexivity.
  - cbn [forallb] in H.
    apply andb_true_iff in H. destruct H as [_ H].
    apply andb_true_iff in H. destruct H as [H3 _].
    apply negb_true_iff in H3.
    change (remove_ga (c1 :: c2 :: c3 :: s3))
      with (if Ascii.eqb c1 "g" && Ascii.eqb c2 "a" && Ascii.eqb c3 ":"
            then remove_ga s3 else c1 :: remove_ga (c2 :: c3 :: s3)).
    rewrite H3, andb_false_r, IH. reflexivity.
Qed.

(** X11.  A header name without a colon is the column name as it is, and
    such a name after the prefix [ga:] is the column name without the
    prefix. *)
Theorem X11_column_name_drops_prefix :
  forall s,
    colon_free s = true ->
    replace_ga s = s /\ replace_ga ("ga:" ++ s) = s.
Proof.
  intros s H. unfold colon_free in H.
  assert (E : replace_ga s = s).
  { unfold replace_ga. rewrite (remove_ga_colon_free _ H).
    apply string_of_list_ascii_of_string. }
  split; [exact E|].
  unfold replace_ga in *.
  change (list_ascii_of_string ("ga:" ++ s))
    with ("g"%char :: "a"%char :: ":"%char :: list_ascii_of_string s).
  change (remove_ga ("g"%char :: "a"%char :: ":"%char :: list_ascii_of_string s))
    with (remove_ga (list_ascii_of_string s)).
  exact E.
Qed.

(** ** The date range driver *)

Lemma summaries_app (a b : list Msg) :
  summaries (a ++ b) = summaries a ++ summaries b.
Proof.
  induction a as [|m a IH]; [reflexivity|].
  destruct m; cbn; rewrite ?IH; reflexivity.
Qed.

Lemma summaries_progress (ms : list Msg) :
  forallb progress_msg ms = true -> summaries ms = [].
Proof.
  induction ms as [|m ms IH]; [reflexivity|].
  destruct m; cbn; try discriminate; exact IH.
Qed.

Lemma summaries_summarised summary d :
  summaries (summarised summary d) = if summary then [d] else [].
Proof. destruct summary; reflexivity. Qed.

Lemma uncoerced_pad n : forall row,
  Forall (fun v => uncoerced v = true) row ->
  Forall (fun v => uncoerced v = true) (Frame.pad n row).
Proof.
  induction n as [|n IH]; intros row H; [exact H|].
  destruct row as [|v row]; cbn [Frame.pad].
  - constructor; [reflexivity | apply IH; constructor].
  - inversion H; subst. constructor; [assumption | apply IH; assumption].
Qed.

(** The frame built from gathered rows holds what was gathered, as
    strings. *)
Lemma DataFrame_of_uncoerced gathered names d :
  Frame.DataFrame_of gathered names = OK d ->
  Forall (Forall (fun v => uncoerced v = true)) (Frame.data d).
Proof.
  assert (Hrows : forall n (rs : list (list string)),
            Forall (Forall (fun v => uncoerced v = true))
              (map (fun r => Frame.pad n (map Frame.VStr r)) rs)).
  { intros n rs. apply Forall_forall. intros row Hrow.
    apply in_map_iff in Hrow. destruct Hrow as (x & <- & _).
    apply uncoerced_pad. apply Forall_forall. intros v Hv.
    apply in_map_iff in Hv. destruct Hv as (y & <- & _). reflexivity. }
  unfold Frame.DataFrame_of.
  destruct gathered as [[|r l]|].
  - intros H. assert (d = Frame.mkframe names []) by congruence. subst d.
    constructor.
  - destruct (Nat.eqb (Frame.widest (r :: l)) (List.length names));
      [|discriminate].
    intros H.
    assert (d = Frame.mkframe names
                  (map (fun r0 => Frame.pad (Frame.widest (r :: l))
                                    (map Frame.VStr r0)) (r :: l)))
      by congruence.
    subst d. apply Hrows.
  - intros H. assert (d = Frame.mkframe names []) by congruence. subst d.
    constructor.
Qed.

Lemma size_append a b :
  Frame.size (Frame.append a b) = Frame.size a + Frame.size b.
Proof.
  unfold Frame.size, Frame.append. cbn [Frame.data].
  rewrite length_app, !length_map. lia.
Qed.

Lemma size_fold_append bs : forall df0,
  Frame.size (fold_left Frame.append bs df0) = Frame.size df0 + total_size bs.
Proof.
  induction bs as [|b bs IH]; intros df0; cbn [fold_left total_size fold_right].
  - lia.
  - rewrite IH, size_append. fold (total_size bs). lia.
Qed.

Section RunMore.

Variable api : ApiCall -> Result Response.

(** What a day that succeeds prints: progress lines and at most one
    sampling warning, never a summary. *)
Lemma get_all_results_prints st d st' :
  get_all_results api st = (OK d, st') ->
  exists ms, stdout (world st') = stdout (world st) ++ ms /\ summaries ms = [].
Proof.
  intros H. apply get_all_results_ok in H.
  destruct H as (resp & stA & stB & ms1 & ms2 & qs & gathered & _ & CS & O1 & P1
                 & O2 & P2 & _).
  pose proof (check_sampling_spec resp stA) as S. rewrite CS in S.
  destruct S as (_ & _ & _ & S).
  destruct (containsSampledData resp).
  - destruct S as (a & b & fa & fb & _ & _ & _ & _ & _ & O).
    eexists. split.
    + rewrite O2, O, O1, <- !app_assoc. reflexivity.
    + rewrite !summaries_app, (summaries_progress _ P1),
        (summaries_progress _ P2). reflexivity.
  - destruct S as [_ O]. exists (ms1 ++ ms2). split.
    + rewrite O2, O, O1, <- app_assoc. reflexivity.
    + rewrite summaries_app, (summaries_progress _ P1),
        (summaries_progress _ P2). reflexivity.
Qed.

(** The loop over the days, when it succeeds. *)
Lemma fetch_days_run dates : forall df0 st d st',
  fetch_days api dates df0 st = (OK d, st') ->
  (exists ms, stdout (world st') = stdout (world st) ++ ms /\ summaries ms = [])
  /\ (exists qs, calls (world st') = calls (world st) ++ qs
                 /\ Forall (fun q => of_request (request (self st)) q
                                     /\ q_start_date q = q_end_date q
                                     /\ In (q_start_date q) (map Some dates))
                      qs)
  /\ (exists bs, Forall2 (frame_of_day api) dates bs
                 /\ d = fold_left Frame.append bs df0)
  /\ (dates <> [] ->
      exists b, df (self st') = Some b
                /\ column_names (self st') = Some (Frame.columns b)
                /\ Forall (Forall (fun v => uncoerced v = true))
                     (Frame.data b)).
Proof.
  induction dates as [|day rest IH]; intros df0 st d st' H.
  - cbn in H. inversion H; subst. repeat split.
    + exists []. rewrite app_nil_r. split; reflexivity.
    + exists []. rewrite app_nil_r. split; [reflexivity | constructor].
    + exists []. split; [constructor | reflexivity].
    + intros N. contradiction.
  - cbn [fetch_days] in H.
    rewrite !bind_assign, bind_get_self, bind_print in H. cbn [self world] in H.
    set (st0 := mkstate _ _) in H.
    destruct (get_all_results api st0) as [[batch|e] st2] eqn:E;
      rewrite (bind_run _ _ _ _ _ E) in H; [|discriminate].
    destruct (get_all_results_prints _ _ _ E) as (ms1 & O1 & S1).
    pose proof (get_all_results_ok api _ _ _ E) as G.
    destruct G as (? & ? & ? & ? & ? & ? & ? & _ & _ & _ & _ & _ & _ & _ & _
                   & (R2 & _) & _).
    destruct (get_all_results_day api _ _ _ E)
      as (resp & gathered & _ & C1 & _ & _ & CN & _ & D1 & F1).
    destruct (IH _ _ _ _ H) as ((ms2 & O2 & S2) & (qs2 & C2 & Q2)
                                & (bs & B1 & B2) & L).
    repeat split.
    + eexists. split.
      * rewrite O2, O1. unfold st0. cbn [world stdout].
        rewrite <- !app_assoc. reflexivity.
      * rewrite !summaries_app, S1, S2. reflexivity.
    + eexists. split.
      * rewrite C2, C1. unfold st0. cbn [world calls self].
        rewrite <- app_assoc. reflexivity.
      * apply Forall_app. split.
        -- apply Forall_forall. intros q Hq. apply in_map_iff in Hq.
           destruct Hq as (s & <- & _).
           split; [exact (query_of_request (self st0) s)|].
           split; [reflexivity|]. left. reflexivity.
        -- revert Q2. apply Forall_impl. intros q (Q & W & I).
           rewrite R2 in Q. unfold st0 in Q. cbn in Q.
           split; [exact Q|]. split; [exact W|]. right. exact I.
    + exists (batch :: bs). split; [|exact B2].
      constructor; [|exact B1].
      eexists _, st2. split; [|split; [|exact E]]; reflexivity.
    + intros _. destruct rest as [|day' rest'].
      * cbn in H. inversion H; subst. exists batch.
        destruct (DataFrame_of_shape _ _ _ F1) as (Cb & _).
        split; [exact D1|]. split; [rewrite Cb; exact CN|].
        apply (DataFrame_of_uncoerced _ _ _ F1).
      * apply L. discriminate.
Qed.

(** X12.  A first or last date that [strptime] does not accept stops the
    run with the error of [strptime] before anything happens: no query, no
    line printed, no file, and the object as it was. *)
Theorem X12_unreadable_date_stops_the_run :
  forall out summary st e,
    Calendar.strptime (first_date (self st)) = Raise e
    \/ (is_ok (Calendar.strptime (first_date (self st))) = true
        /\ Calendar.strptime (last_date (self st)) = Raise e) ->
    batch_get api out summary st = (Raise e, st).
Proof.
  intros out summary st e H. unfold batch_get.
  rewrite bind_get_self, bind_lift. unfold batch_dates.
  destruct H as [H | [H1 H2]].
  - rewrite H. reflexivity.
  - destruct (Calendar.strptime (first_date (self st))); [|discriminate].
    rewrite H2. reflexivity.
Qed.

(** X13.  A range whose last date is before its first fetches nothing:
    a run without summary sends no query, prints nothing and returns the
    empty frame, which it still writes when given a file name. *)
Theorem X13_reversed_range_fetches_nothing :
  forall out st a b,
    Calendar.strptime (first_date (self st)) = OK a ->
    Calendar.strptime (last_date (self st)) = OK b ->
    Calendar.toordinal b < Calendar.toordinal a ->
    batch_get api out false st
    = (OK Frame.empty,
       mkstate (self st)
         (mkworld (calls (world st)) (stdout (world st))
            (files (world st) ++ written out Frame.empty))).
Proof.
  intros out st a b Ha Hb Hlt.
  assert (HD : batch_dates (first_date (self st)) (last_date (self st)) = OK []).
  { rewrite (batch_dates_spec _ _ _ _ Ha Hb).
    replace (Z.to_nat (Calendar.toordinal b - Calendar.toordinal a + 1))
      with O by lia.
    reflexivity. }
  rewrite (batch_get_after_fetch api out false st [] Frame.empty st HD eq_refl).
  change (0 <? Frame.size Frame.empty) with false. cbv beta iota.
  change (summarised false Frame.empty) with (@nil Msg).
  rewrite app_nil_r. reflexivity.
Qed.

(** X14.  A run that succeeds without a summary, or with a summary of a
    frame that has columns, writes the frame it returns to the output
    file, once and only if a file name was given, and prints the summary
    of that frame last, once and only if a summary was asked for; no other
    summary is printed and no other file written. *)
Theorem X14_outputs_of_a_run :
  forall out summary st d st',
    summary = false \/ Frame.columns d <> [] ->
    batch_get api out summary st = (OK d, st') ->
    files (world st') = files (world st) ++ written out d
    /\ exists printed,
         stdout (world st')
         = stdout (world st) ++ printed ++ summarised summary d
         /\ summaries printed = [].
Proof.
  intros out summary st d st' _ H. apply batch_get_ok in H.
  destruct H as (dates & d1 & st1 & _ & HF & _ & _ & O & Fi & _).
  pose proof (fetch_days_ok api _ _ _ _ _ HF) as (_ & F1 & _).
  destruct (fetch_days_run _ _ _ _ _ HF) as ((ms & O1 & S1) & _).
  split; [rewrite Fi, F1; reflexivity|].
  exists ms. split; [|exact S1].
  rewrite O, O1, <- app_assoc. reflexivity.
Qed.

(** X15.  Every query of a run that succeeds carries the parameters of
    the request, the fixed sampling level and output format, and a window
    of one day: its start date is its end date. *)
Theorem X15_queries_of_a_run :
  forall out summary st d st',
    batch_get api out summary st = (OK d, st') ->
    exists qs,
      calls (world st') = calls (world st) ++ qs
      /\ Forall (fun q => of_request (request (self st)) q
                          /\ q_start_date q = q_end_date q
                          /\ q_start_date q <> None) qs.
Proof.
  intros out summary st d st' H. apply batch_get_ok in H.
  destruct H as (dates & d1 & st1 & _ & HF & _ & C & _).
  destruct (fetch_days_run _ _ _ _ _ HF) as (_ & (qs & C1 & Q) & _).
  exists qs. split; [rewrite C; exact C1|].
  revert Q. apply Forall_impl. intros q (Q & W & I).
  split; [exact Q|]. split; [exact W|].
  apply in_map_iff in I. destruct I as (x & <- & _). discriminate.
Qed.

End RunMore.

(** ** Type coercion *)

Lemma set_nth_same i row d :
  (i < List.length row)%nat -> Frame.set_nth i (nth i row d) row = row.
Proof.
  revert i. induction row as [|x row IH]; intros i H; [cbn in H; lia|].
  destruct i; cbn; [reflexivity|]. rewrite IH; [reflexivity | cbn in H; lia].
Qed.

(** Assigning a column its own values leaves the frame as it is. *)
Lemma set_column_same i df :
  Forall (fun row => (i < List.length row)%nat) (Frame.data df) ->
  Frame.set_column i (Frame.column_values i df) df = df.
Proof.
  destruct df as [cols rows]. unfold Frame.set_column, Frame.column_values.
  cbn [Frame.columns Frame.data]. intros H. f_equal.
  induction H as [|row rows Hr _ IH]; [reflexivity|].
  cbn. rewrite set_nth_same by exact Hr. rewrite IH. reflexivity.
Qed.

Lemma to_int_again v o : Frame.to_int v = OK o -> Frame.to_int o = OK o.
Proof.
  assert (H : forall n, Frame.int64 n = OK o -> Frame.to_int o = OK o).
  { intros n H. unfold Frame.int64 in H.
    destruct (_ && _) eqn:E; [|discriminate].
    inversion H; subst. cbn [Frame.to_int]. unfold Frame.int64.
    rewrite E. reflexivity. }
  destruct v as [s|n|f|]; cbn [Frame.to_int].
  - destruct (PyNum.parse_int s); [apply H | discriminate].
  - apply H.
  - destruct (PyNum.trunc f); [apply H | discriminate].
  - discriminate.
Qed.

Lemma to_float_again v o : Frame.to_float v = OK o -> Frame.to_float o = OK o.
Proof.
  destruct v as [s|n|f|]; cbn [Frame.to_float].
  - destruct (PyNum.parse_float s); [|discriminate].
    intros H. inversion H. reflexivity.
  - destruct (PyNum.float_of_int n); [|discriminate].
    intros H. inversion H. reflexivity.
  - intros H. inversion H. reflexivity.
  - intros H. inversion H. reflexivity.
Qed.

Lemma convert_again f vals : forall out,
  (forall v o, f v = OK o -> f o = OK o) ->
  Frame.convert f vals = OK out -> Frame.convert f out = OK out.
Proof.
  induction vals as [|v vals IH]; intros out Hf H; cbn in H.
  - inversion H. reflexivity.
  - destruct (f v) as [v'|e] eqn:E; [|discriminate].
    destruct (Frame.convert f vals) as [l|e] eqn:EC; [|discriminate].
    inversion H; subst. cbn. rewrite (Hf _ _ E), (IH l Hf eq_refl).
    reflexivity.
Qed.

(** A converted column converts to itself. *)
Lemma astype_again dtype vals out :
  Frame.astype dtype vals = OK out -> Frame.astype dtype out = OK out.
Proof.
  unfold Frame.astype, Frame.resolve. destruct dtype as [d|].
  - destruct (String.eqb d "object").
    { apply convert_again. intros v o H. inversion H. reflexivity. }
    destruct (String.eqb d "int"); [apply convert_again, to_int_again|].
    destruct (String.eqb d "float"); [apply convert_again, to_float_again|].
    discriminate.
  - apply convert_again, to_float_again.
Qed.

Lemma convert_object vals : Frame.convert (fun v => OK v) vals = OK vals.
Proof.
  induction vals as [|v vals IH]; [reflexivity|]. cbn. rewrite IH. reflexivity.
Qed.

(** The loop over the labels keeps the labels and the number of rows. *)
Lemma transform_columns_shape labels : forall df st df' st',
  transform_columns labels df st = (OK df', st') ->
  Frame.columns df' = Frame.columns df
  /\ List.length (Frame.data df') = List.length (Frame.data df).
Proof.
  induction labels as [|c labels IH]; intros df st df' st' H.
  - cbn in H. inversion H; subst. split; reflexivity.
  - cbn [transform_columns] in H. unfold bind at 1, attr in H.
    destruct (column_types (self st)) as [types|]; [|discriminate].
    rewrite bind_lift in H.
    destruct (Frame.get_loc _ _) as [i|]; [|discriminate].
    rewrite bind_lift in H. destruct (index _ _) as [t|]; [|discriminate].
    rewrite bind_lift in H.
    destruct (Frame.astype _ _) as [values|]; [|discriminate].
    destruct (IH _ _ _ _ H) as [C L]. split.
    + rewrite C. reflexivity.
    + rewrite L. cbn. apply FrameFacts.set_rows_length.
Qed.

(** A frame whose listed columns all convert to themselves is what the
    loop returns. *)
Lemma transform_columns_fixed labels : forall df st types,
  column_types (self st) = Some types ->
  Frame.well_formed df = true ->
  (forall label, In label labels ->
     exists j t,
       nth_error (Frame.columns df) j = Some label
       /\ nth_error types j = Some t
       /\ Frame.astype (dict_get conversions t) (Frame.column_values j df)
          = OK (Frame.column_values j df)) ->
  transform_columns labels df st = (OK df, st).
Proof.
  induction labels as [|c labels IH]; intros df st types HT WF H;
    [reflexivity|].
  destruct (H c (or_introl eq_refl)) as (j & t & Hj & Ht & A).
  assert (ND : NoDup (Frame.columns df)).
  { apply FrameFacts.well_formed_iff in WF. destruct WF as [WF _].
    apply FrameFacts.nodupb_NoDup. exact WF. }
  cbn [transform_columns].
  rewrite (bind_attr _ _ _ _ _ HT), bind_lift.
  rewrite (FrameFacts.get_loc_unique _ _ _ ND Hj), bind_lift.
  unfold index. rewrite Ht, bind_lift, A.
  rewrite set_column_same by (eapply FrameFacts.wide_enough; eassumption).
  apply (IH df st types HT WF).
  intros label Hin. apply H. right. exact Hin.
Qed.





(** X17.  A frame whose columns are all declared STRING is returned as
    it is. *)
Theorem X17_text_columns_are_kept :
  forall df st types,
    column_types (self st) = Some types ->
    Frame.well_formed df = true ->
    (forall j label,
       nth_error (Frame.columns df) j = Some label ->
       nth_error types j = Some "STRING"%string) ->
    transform_results df st = (OK df, st).
Proof.
  intros df st types HT WF H. unfold transform_results.
  apply (transform_columns_fixed _ _ _ types HT WF).
  intros label Hin. apply In_nth_error in Hin. destruct Hin as [j Hj].
  exists j, "STRING"%string. split; [exact Hj|]. split; [exact (H _ _ Hj)|].
  apply convert_object.
Qed.

(** X18.  Coercion is idempotent: a frame that was coerced is returned
    as it is when coerced again under the same declared types. *)
Theorem X18_coercion_is_idempotent :
  forall df st df' st' types,
    column_types (self st) = Some types ->
    Frame.well_formed df = true ->
    transform_results df st = (OK df', st') ->
    transform_results df' st' = (OK df', st').
Proof.
  intros df st df' st' types HT WF H.
  assert (st' = st).
  { rewrite transform_results_state in H. congruence. }
  subst st'.
  assert (ND : NoDup (Frame.columns df)).
  { apply FrameFacts.well_formed_iff in WF. destruct WF as [WF _].
    apply FrameFacts.nodupb_NoDup. exact WF. }
  unfold transform_results in *.
  destruct (FrameFacts.transform_columns_ok _ _ _ _ _ _ HT WF ND H)
    as (C & WF' & P).
  apply (transform_columns_fixed _ _ _ types HT WF').
  intros label Hin. rewrite C in Hin.
  apply In_nth_error in Hin. destruct Hin as [j Hj].
  destruct (P j label Hj) as [P1 _].
  destruct (P1 (nth_error_In _ _ Hj)) as (t & Ht & A).
  exists j, t. split; [rewrite C; exact Hj|]. split; [exact Ht|].
  apply (astype_again _ _ _ A).
Qed.

Section RunFrames.

Variable api : ApiCall -> Result Response.


(** X20.  The frame a run returns has the labels and as many rows as the
    frames of its days appended in order to the empty frame, one frame per
    day of the range: its row count is the sum of theirs. *)
Theorem X20_rows_of_a_run :
  forall out summary st d st',
    batch_get api out summary st = (OK d, st') ->
    exists dates frames,
      batch_dates (first_date (self st)) (last_date (self st)) = OK dates
      /\ Forall2 (frame_of_day api) dates frames
      /\ Frame.columns d
         = Frame.columns (fold_left Frame.append frames Frame.empty)
      /\ Frame.size d = total_size frames.
Proof.
  intros out summary st d st' H. apply batch_get_ok in H.
  destruct H as (dates & d1 & st1 & HD & HF & _ & _ & _ & _ & T).
  destruct (fetch_days_run api _ _ _ _ _ HF) as (_ & _ & (bs & B1 & B2) & _).
  exists dates, bs. split; [exact HD|]. split; [exact B1|].
  assert (S1 : Frame.size d1 = total_size bs).
  { rewrite B2, size_fold_append. reflexivity. }
  destruct (0 <? Frame.size d1).
  - destruct (transform_columns_shape _ _ _ _ _ T) as [C L].
    split; [rewrite C, B2; reflexivity|].
    unfold Frame.size in *. rewrite L. exact S1.
  - subst d. split; [rewrite B2; reflexivity | exact S1].
Qed.

End RunFrames.

(** ** The further properties on examples *)

(** A size of -1 is rejected and nothing else happens. *)
Lemma X1_minus_one_is_rejected :
  -1 < 0
  /\ get_max_results example_service 1 (Some (-1)) (ready one_day_request)
     = (Raise (ValueError "Argument max_value has to be larger than zero."),
        ready one_day_request).
Proof.
  assert (H : -1 < 0) by lia.
  split; [exact H|].
  exact (X1_negative_size_rejected_first example_service 1 (-1)
           (ready one_day_request) H).
Defined.

(** A fetch given 20000 is a fetch given nothing after the rounding
    line. *)
Lemma X2_size_20000_is_only_announced :
  0 <= 20000
  /\ get_max_results example_service 1 (Some 20000) (ready one_day_request)
     = get_max_results example_service 1 None
         (mkstate (self (ready one_day_request))
            (mkworld (calls (world (ready one_day_request)))
               (stdout (world (ready one_day_request)) ++ [MsgRoundedDown])
               (files (world (ready one_day_request))))).
Proof.
  assert (H : 0 <= 20000) by lia.
  assert (H' : 10000 < 20000) by lia.
  split; [exact H|].
  exact (proj2 (X2_size_argument_is_otherwise_unused example_service 1 20000
                  (ready one_day_request) H) H').
Defined.

(** A fetch on a new object. *)
Lemma X3_fetch_on_a_new_object :
  fst (get_max_results (constant_service small_day) 1 (Some 1000)
         (fresh one_day_request))
  = Raise (AttributeError
             "'GoogleAnalytics' object has no attribute 'first_page'")
  /\ calls (world (snd (get_max_results (constant_service small_day) 1
                          (Some 1000) (fresh one_day_request))))
     = calls (world (fresh one_day_request))
       ++ [query (self (fresh one_day_request)) 1].
Proof.
  assert (Hm : accepted (Some 1000)) by (unfold accepted; lia).
  assert (Hfp : first_page (self (fresh one_day_request)) = None)
    by reflexivity.
  assert (Hapi : constant_service small_day
                   (query (self (fresh one_day_request)) 1) = OK small_day)
    by reflexivity.
  exact (X3_fetch_before_any_day (constant_service small_day) 1 (Some 1000)
           (fresh one_day_request) small_day Hm Hfp Hapi).
Defined.

(** The third page of 250 rows in pages of 100 ends at row 250. *)
Lemma X4_third_page_of_250 :
  fst second_page = OK three_pages
  /\ pages (self (snd second_page)) = [1; 101; 201]
  /\ stdout (world (snd second_page))
     = [MsgRetrieved 1 100 250; MsgRetrieved 201 250 250].
Proof.
  assert (Hm : accepted (Some 100)) by (unfold accepted; lia).
  assert (Hfp : first_page (self after_first_page) = Some false)
    by (vm_compute; reflexivity).
  assert (Hi : items_per_page (self after_first_page) = Some 100)
    by (vm_compute; reflexivity).
  assert (Ht : total_results (self after_first_page) = Some 250)
    by (vm_compute; reflexivity).
  assert (Hapi : constant_service three_pages
                   (query (self after_first_page) 201) = OK three_pages)
    by reflexivity.
  assert (Hst : snd (get_max_results (constant_service three_pages) 201
                       (Some 100) after_first_page) = snd second_page)
    by (vm_compute; reflexivity).
  pose proof (X4_following_page_keeps_plan (constant_service three_pages) 201
                (Some 100) after_first_page three_pages 100 250
                (snd second_page) Hm Hfp Hi Ht Hapi Hst) as H.
  destruct H as (H1 & H2 & _ & _ & last_index & H3 & H4 & _).
  split; [exact H1|]. split.
  - rewrite H2. vm_compute. reflexivity.
  - rewrite H3, H4. vm_compute. reflexivity.
Defined.

(** 250 rows in pages of 100: the plan holds 201 and not 301. *)
Lemma X5_plan_of_250 :
  fst first_page_of_three = OK three_pages
  /\ In 201 (pages (self (snd first_page_of_three)))
  /\ ~ In 301 (pages (self (snd first_page_of_three))).
Proof.
  assert (Hm : accepted (Some 100)) by (unfold accepted; lia).
  assert (Hfp : first_page (self (ready one_day_request)) = Some true)
    by reflexivity.
  assert (Hapi : constant_service three_pages
                   (query (self (ready one_day_request)) 1) = OK three_pages)
    by reflexivity.
  assert (Hpos : 0 < itemsPerPage three_pages) by (cbn; lia).
  assert (Hne : itemsPerPage three_pages <> totalResults three_pages)
    by (cbn; lia).
  assert (Hst : snd (get_max_results (constant_service three_pages) 1
                       (Some 100) (ready one_day_request))
                = snd first_page_of_three) by (vm_compute; reflexivity).
  pose proof (X5_first_page_plan (constant_service three_pages) 1 (Some 100)
                (ready one_day_request) three_pages (snd first_page_of_three)
                Hm Hfp Hapi Hpos Hne Hst) as H.
  destruct H as (H1 & _ & _ & _ & H2).
  split; [exact H1|]. split.
  - apply H2. exists 2. cbn. lia.
  - intros Hin. apply H2 in Hin. destruct Hin as (k & _ & Hk & Hlt).
    cbn in Hlt. lia.
Defined.

(** A page size of zero for five results. *)
Lemma X6_no_page_size :
  fst page_without_size = Raise (ValueError "range() arg 3 must not be zero")
  /\ total_results (self (snd page_without_size)) = Some 5
  /\ stdout (world (snd page_without_size)) = [].
Proof.
  assert (Hm : accepted (Some 100)) by (unfold accepted; lia).
  assert (Hfp : first_page (self (ready one_day_request)) = Some true)
    by reflexivity.
  assert (Hapi : constant_service no_page_size
                   (query (self (ready one_day_request)) 1) = OK no_page_size)
    by reflexivity.
  assert (Hz : itemsPerPage no_page_size = 0) by reflexivity.
  assert (Hne : totalResults no_page_size <> 0) by (cbn; lia).
  assert (Hst : snd (get_max_results (constant_service no_page_size) 1
                       (Some 100) (ready one_day_request))
                = snd page_without_size) by (vm_compute; reflexivity).
  pose proof (X6_zero_items_per_page (constant_service no_page_size) 1
                (Some 100) (ready one_day_request) no_page_size
                (snd page_without_size) Hm Hfp Hapi Hz Hne Hst) as H.
  destruct H as (H1 & _ & H2 & _ & _ & H3).
  split; [exact H1|]. split; [exact H2|]. rewrite H3. reflexivity.
Defined.

(** The schema of a small day. *)
Lemma X7_schema_of_a_small_day :
  is_ok (fst small_day_run) = true
  /\ exists resp,
       constant_service small_day (query (self (fresh one_day_request)) 1)
       = OK resp
       /\ column_names (self (snd small_day_run))
          = Some (names_of (columnHeaders resp))
       /\ column_types (self (snd small_day_run))
          = Some (map dataType (columnHeaders resp))
       /\ df (self (snd small_day_run))
          = Some (frame_or_empty (fst small_day_run))
       /\ Frame.columns (frame_or_empty (fst small_day_run))
          = names_of (columnHeaders resp)
       /\ Forall (fun row => List.length row
                             = List.length (columnHeaders resp))
            (Frame.data (frame_or_empty (fst small_day_run))).
Proof.
  assert (Hrun : get_all_results (constant_service small_day)
                   (fresh one_day_request)
                 = (OK (frame_or_empty (fst small_day_run)),
                    snd small_day_run))
    by (vm_compute; reflexivity).
  split; [vm_compute; reflexivity|].
  exact (X7_schema_of_a_day (constant_service small_day)
           (fresh one_day_request) (frame_or_empty (fst small_day_run))
           (snd small_day_run) Hrun).
Defined.

(** The queries of a small day. *)
Lemma X8_queries_of_a_small_day :
  is_ok (fst small_day_run) = true
  /\ exists resp qs,
       constant_service small_day (query (self (fresh one_day_request)) 1)
       = OK resp
       /\ calls (world (snd small_day_run))
          = calls (world (fresh one_day_request)) ++ qs
       /\ start_indices qs = 1 :: tl (pages (self (snd small_day_run)))
       /\ Forall (fun q => window q
                           = (start_date (self (fresh one_day_request)),
                              end_date (self (fresh one_day_request)))
                           /\ of_request
                                (request (self (fresh one_day_request))) q) qs
       /\ items_per_page (self (snd small_day_run))
          = Some (itemsPerPage resp)
       /\ total_results (self (snd small_day_run))
          = Some (totalResults resp).
Proof.
  assert (Hrun : get_all_results (constant_service small_day)
                   (fresh one_day_request)
                 = (OK (frame_or_empty (fst small_day_run)),
                    snd small_day_run))
    by (vm_compute; reflexivity).
  split; [vm_compute; reflexivity|].
  exact (X8_queries_of_a_day (constant_service small_day)
           (fresh one_day_request) (frame_or_empty (fst small_day_run))
           (snd small_day_run) Hrun).
Defined.

(** 500 sessions sampled out of none. *)
Lemma X9_sampled_of_nothing :
  fst sampled_of_nothing_run
  = Raise (ZeroDivisionError "float division by zero")
  /\ List.length (calls (world (snd sampled_of_nothing_run))) = 1%nat
  /\ column_names (self (snd sampled_of_nothing_run)) = None.
Proof.
  assert (Hm : accepted (r_max_results
                           (request (self (fresh one_day_request)))))
    by (cbn; lia).
  assert (Hapi : constant_service sampled_of_nothing
                   (query (self (fresh one_day_request)) 1)
                 = OK sampled_of_nothing) by reflexivity.
  assert (Hplan : itemsPerPage sampled_of_nothing
                  = totalResults sampled_of_nothing
                  \/ itemsPerPage sampled_of_nothing <> 0)
    by (right; cbn; lia).
  assert (Hs : containsSampledData sampled_of_nothing = true) by reflexivity.
  assert (Hsize : sampleSize sampled_of_nothing = Some 500) by reflexivity.
  assert (Hf : PyNum.float_of_int 500 = OK (PyNum.float_of_Z 500))
    by (vm_compute; reflexivity).
  assert (Hspace : sampleSpace sampled_of_nothing = Some 0) by reflexivity.
  assert (Hst : snd (get_all_results (constant_service sampled_of_nothing)
                       (fresh one_day_request))
                = snd sampled_of_nothing_run) by (vm_compute; reflexivity).
  pose proof (X9_sampled_with_empty_space (constant_service sampled_of_nothing)
                (fresh one_day_request) sampled_of_nothing 500
                (PyNum.float_of_Z 500) (snd sampled_of_nothing_run)
                Hm Hapi Hplan Hs Hsize Hf Hspace Hst) as H.
  destruct H as (H1 & H2 & _ & H3 & _).
  split; [exact H1|]. split.
  - rewrite H2. reflexivity.
  - rewrite H3. reflexivity.
Defined.

(** A day without results. *)
Lemma X10_empty_day :
  fst empty_day_run = OK (Frame.mkframe ["date"; "sessions"]%string [])
  /\ List.length (calls (world (snd empty_day_run))) = 1%nat
  /\ pages (self (snd empty_day_run)) = [].
Proof.
  assert (Hm : accepted (r_max_results
                           (request (self (fresh one_day_request)))))
    by (cbn; lia).
  assert (Hapi : constant_service empty_day
                   (query (self (fresh one_day_request)) 1) = OK empty_day)
    by reflexivity.
  assert (Hpos : 0 < itemsPerPage empty_day) by (cbn; lia).
  assert (Htot : totalResults empty_day = 0) by reflexivity.
  assert (Hs : containsSampledData empty_day = false) by reflexivity.
  assert (Hrows : rows empty_day = None) by reflexivity.
  assert (Hst : snd (get_all_results (constant_service empty_day)
                       (fresh one_day_request)) = snd empty_day_run)
    by (vm_compute; reflexivity).
  pose proof (X10_day_without_rows (constant_service empty_day)
                (fresh one_day_request) empty_day (snd empty_day_run)
                Hm Hapi Hpos Htot Hs Hrows Hst) as H.
  destruct H as (H1 & H2 & H3 & _).
  split; [exact H1|]. split; [rewrite H2; reflexivity | exact H3].
Defined.

(** The names of the sample headers. *)
Lemma X11_sessions :
  replace_ga "sessions" = "sessions"%string
  /\ replace_ga "ga:sessions" = "sessions"%string.
Proof.
  assert (H : colon_free "sessions" = true) by reflexivity.
  exact (X11_column_name_drops_prefix "sessions" H).
Defined.

(** An end date of 30 February. *)
Lemma X12_thirtieth_of_february :
  batch_get example_service None true (fresh bad_end_request)
  = (Raise (ValueError "day is out of range for month"),
     fresh bad_end_request).
Proof.
  assert (H : Calendar.strptime (first_date (self (fresh bad_end_request)))
              = Raise (ValueError "day is out of range for month")
              \/ (is_ok (Calendar.strptime
                           (first_date (self (fresh bad_end_request)))) = true
                  /\ Calendar.strptime
                       (last_date (self (fresh bad_end_request)))
                     = Raise (ValueError "day is out of range for month")))
    by (right; split; vm_compute; reflexivity).
  exact (X12_unreadable_date_stops_the_run example_service None true
           (fresh bad_end_request)
           (ValueError "day is out of range for month") H).
Defined.

(** A range from 2 May back to 1 May. *)
Lemma X13_second_to_first_of_may :
  fst (batch_get example_service (Some "out.csv"%string) false
         (fresh reversed_request)) = OK Frame.empty
  /\ calls (world (snd (batch_get example_service (Some "out.csv"%string)
                          false (fresh reversed_request)))) = []
  /\ files (world (snd (batch_get example_service (Some "out.csv"%string)
                          false (fresh reversed_request))))
     = [("out.csv"%string, Frame.empty)].
Proof.
  assert (Ha : Calendar.strptime (first_date (self (fresh reversed_request)))
               = OK (Calendar.mkdate 2021 5 2)) by (vm_compute; reflexivity).
  assert (Hb : Calendar.strptime (last_date (self (fresh reversed_request)))
               = OK (Calendar.mkdate 2021 5 1)) by (vm_compute; reflexivity).
  assert (Hlt : Calendar.toordinal (Calendar.mkdate 2021 5 1)
                < Calendar.toordinal (Calendar.mkdate 2021 5 2))
    by (vm_compute; reflexivity).
  rewrite (X13_reversed_range_fetches_nothing example_service
             (Some "out.csv"%string) (fresh reversed_request)
             (Calendar.mkdate 2021 5 2) (Calendar.mkdate 2021 5 1) Ha Hb Hlt).
  repeat split.
Defined.

(** The run that reports: one file and one summary, the last line. *)
Lemma X14_reported_run :
  is_ok (fst reported_run) = true
  /\ files (world (snd reported_run))
     = [("out.csv"%string, frame_or_empty (fst reported_run))]
  /\ summaries (stdout (world (snd reported_run)))
     = [frame_or_empty (fst reported_run)].
Proof.
  assert (Hrun : batch_get (constant_service small_day)
                   (Some "out.csv"%string) true (fresh two_day_request)
                 = (OK (frame_or_empty (fst reported_run)), snd reported_run))
    by (vm_compute; reflexivity).
  assert (Hcols : true = false
                  \/ Frame.columns (frame_or_empty (fst reported_run)) <> [])
    by (right; vm_compute; discriminate).
  pose proof (X14_outputs_of_a_run (constant_service small_day)
                (Some "out.csv"%string) true (fresh two_day_request)
                (frame_or_empty (fst reported_run)) (snd reported_run)
                Hcols Hrun)
    as H.
  destruct H as (H1 & printed & H2 & H3).
  split; [vm_compute; reflexivity|]. split; [exact H1|].
  rewrite H2. cbn [fresh world stdout no_world app].
  rewrite summaries_app, H3. reflexivity.
Defined.

(** The queries of the run that reports. *)
Lemma X15_queries_of_the_reported_run :
  is_ok (fst reported_run) = true
  /\ exists qs,
       calls (world (snd reported_run))
       = calls (world (fresh two_day_request)) ++ qs
       /\ Forall (fun q => of_request (request (self (fresh two_day_request))) q
                           /\ q_start_date q = q_end_date q
                           /\ q_start_date q <> None) qs.
Proof.
  assert (Hrun : batch_get (constant_service small_day)
                   (Some "out.csv"%string) true (fresh two_day_request)
                 = (OK (frame_or_empty (fst reported_run)), snd reported_run))
    by (vm_compute; reflexivity).
  split; [vm_compute; reflexivity|].
  exact (X15_queries_of_a_run (constant_service small_day)
           (Some "out.csv"%string) true (fresh two_day_request)
           (frame_or_empty (fst reported_run)) (snd reported_run) Hrun).
Defined.


(** A column of dates declared STRING. *)
Lemma X17_dates_are_kept :
  transform_results dates_frame (typed ["STRING"%string])
  = (OK dates_frame, typed ["STRING"%string]).
Proof.
  assert (HT : column_types (self (typed ["STRING"%string]))
               = Some ["STRING"%string]) by reflexivity.
  assert (WF : Frame.well_formed dates_frame = true) by reflexivity.
  assert (H : forall j label,
            nth_error (Frame.columns dates_frame) j = Some label ->
            nth_error ["STRING"%string] j = Some "STRING"%string).
  { intros j label Hj. destruct j as [|j]; [reflexivity|].
    destruct j; discriminate Hj. }
  exact (X17_text_columns_are_kept dates_frame (typed ["STRING"%string])
           ["STRING"%string] HT WF H).
Defined.

(** The counts, coerced twice. *)
Lemma X18_counts_coerced_twice :
  transform_results counts (typed ["INTEGER"%string])
  = (OK counted, typed ["INTEGER"%string])
  /\ transform_results counted (typed ["INTEGER"%string])
     = (OK counted, typed ["INTEGER"%string]).
Proof.
  assert (HT : column_types (self (typed ["INTEGER"%string]))
               = Some ["INTEGER"%string]) by reflexivity.
  assert (WF : Frame.well_formed counts = true) by reflexivity.
  assert (H : transform_results counts (typed ["INTEGER"%string])
              = (OK counted, typed ["INTEGER"%string]))
    by (vm_compute; reflexivity).
  split; [exact H|].
  exact (X18_coercion_is_idempotent counts (typed ["INTEGER"%string]) counted
           (typed ["INTEGER"%string]) ["INTEGER"%string] HT WF H).
Defined.


(** The rows of the run that reports. *)
Lemma X20_rows_of_the_reported_run :
  Frame.size (frame_or_empty (fst reported_run)) = 4
  /\ exists dates frames,
       batch_dates (first_date (self (fresh two_day_request)))
         (last_date (self (fresh two_day_request))) = OK dates
       /\ Forall2 (frame_of_day (constant_service small_day)) dates frames
       /\ Frame.columns (frame_or_empty (fst reported_run))
          = Frame.columns (fold_left Frame.append frames Frame.empty)
       /\ Frame.size (frame_or_empty (fst reported_run)) = total_size frames.
Proof.
  assert (Hrun : batch_get (constant_service small_day)
                   (Some "out.csv"%string) true (fresh two_day_request)
                 = (OK (frame_or_empty (fst reported_run)), snd reported_run))
    by (vm_compute; reflexivity).
  split; [vm_compute; reflexivity|].
  exact (X20_rows_of_a_run (constant_service small_day)
           (Some "out.csv"%string) true (fresh two_day_request)
           (frame_or_empty (fst reported_run)) (snd reported_run) Hrun).
Defined.

(** [__next__] and a fetch on a new object over two days. *)
Lemma X21_new_object_asks_for_the_first_day :
  fst new_object_fetch = OK small_day
  /\ map window (calls (world (snd new_object_fetch)))
     = [(Some "2021-05-01"%string, Some "2021-05-01"%string)]
  /\ last_date (self (snd new_object_fetch)) = Some "2021-05-02"%string.
Proof.
  assert (Hm : accepted None) by exact I.
  assert (Hapi : constant_service small_day (query (init two_day_request) 1)
                 = OK small_day) by reflexivity.
  assert (Hplan : itemsPerPage small_day = totalResults small_day
                  \/ itemsPerPage small_day <> 0) by (right; cbn; lia).
  assert (Hst : snd (bind next
                       (fun _ => get_max_results (constant_service small_day)
                                   1 None)
                       (fresh two_day_request)) = snd new_object_fetch)
    by (vm_compute; reflexivity).
  pose proof (X21_next_prepares_a_new_object (constant_service small_day)
                two_day_request 1 None small_day (snd new_object_fetch)
                Hm Hapi Hplan Hst) as H.
  destruct H as (H1 & (q & H2 & H3 & _) & _ & _ & H4).
  split; [exact H1|]. split.
  - rewrite H2. cbn [map]. rewrite H3. reflexivity.
  - rewrite H4. reflexivity.
Defined.
